(** * FreshRoles: the matching and deduplication engine

    A shallow embedding of [freshroles/matching/dedup.py],
    [freshroles/matching/keyword.py], [freshroles/matching/scorer.py] and of
    the parts of [freshroles/models] they read, with the properties of the
    engine proved about it.

    Conventions of the embedding.
    - Python [str] is [string]; the library functions used by the code
      ([str.lower], [str.split], [re.escape], the compiled [\b..\b] patterns)
      are written out for ASCII text.
    - Python [int] is [Z].
    - Python [float] is read as a real number: arithmetic on scores is exact
      arithmetic on [R], so rounding, infinities and NaN are outside the model.
    - [hashlib.md5] and [hashlib.sha256] are written out (RFC 1321, FIPS 180-4).
    - A call that raises is a value [Raises e]; state is passed explicitly. *)

From Stdlib Require Import ZArith List String Ascii Bool Reals Lra Lia.
From Stdlib Require Import Permutation Sorted.
From stdpp Require Import gmap strings.
Import ListNotations.

Local Open Scope string_scope.
Local Open Scope Z_scope.

(** ** Python's [str] primitives on ASCII text *)

Module PyStr.

Definition code (c : ascii) : N := N_of_ascii c.

Definition isupper (c : ascii) : bool := ((65 <=? code c) && (code c <=? 90))%N.
Definition islower (c : ascii) : bool := ((97 <=? code c) && (code c <=? 122))%N.
Definition isdigit (c : ascii) : bool := ((48 <=? code c) && (code c <=? 57))%N.

(** [\w] of the [re] module. *)
Definition is_word (c : ascii) : bool :=
  isupper c || islower c || isdigit c || (code c =? 95)%N.

(** [\s] of the [re] module and [str.isspace]: TAB, LF, VT, FF, CR, the
    separators FS, GS, RS, US and the space. *)
Definition isspace (c : ascii) : bool :=
  (((9 <=? code c) && (code c <=? 13)) || ((28 <=? code c) && (code c <=? 32)))%N.

Definition lower_char (c : ascii) : ascii :=
  if isupper c then ascii_of_N (code c + 32) else c.

Fixpoint smap (f : ascii -> ascii) (s : string) : string :=
  match s with
  | EmptyString => EmptyString
  | String c t => String (f c) (smap f t)
  end.

Fixpoint sfilter (f : ascii -> bool) (s : string) : string :=
  match s with
  | EmptyString => EmptyString
  | String c t => if f c then String c (sfilter f t) else sfilter f t
  end.

(** [s.lower()] *)
Definition lower (s : string) : string := smap lower_char s.

(** [needle in hay] *)
Fixpoint contains (needle hay : string) : bool :=
  String.prefix needle hay ||
  match hay with
  | EmptyString => false
  | String _ t => contains needle t
  end.

(** [sep.join(parts)] *)
Definition join (sep : string) (parts : list string) : string :=
  String.concat sep parts.

(** [bool(s)] *)
Definition truthy (s : string) : bool :=
  match s with EmptyString => false | _ => true end.

(** [s.lstrip()], [s.rstrip()], [s.strip()] *)
Fixpoint lstrip (s : string) : string :=
  match s with
  | EmptyString => EmptyString
  | String c t => if isspace c then lstrip t else s
  end.

Fixpoint rstrip (s : string) : string :=
  match s with
  | EmptyString => EmptyString
  | String c t =>
      match rstrip t with
      | EmptyString => if isspace c then EmptyString else String c EmptyString
      | t' => String c t'
      end
  end.

Definition strip (s : string) : string := rstrip (lstrip s).

(** [s.split()]: the maximal runs of non-whitespace characters.
    [cur] is the word being read, reversed. *)
Fixpoint split_acc (cur : list ascii) (s : string) : list string :=
  let flush := match cur with
               | [] => []
               | _ => [string_of_list_ascii (rev cur)]
               end in
  match s with
  | EmptyString => flush
  | String c t => if isspace c then (flush ++ split_acc [] t)%list
                  else split_acc (c :: cur) t
  end.

Definition split (s : string) : list string := split_acc [] s.

(** [re.sub(r"\s+", " ", s)] *)
Fixpoint collapse_ws (in_run : bool) (s : string) : string :=
  match s with
  | EmptyString => EmptyString
  | String c t =>
      if isspace c
      then if in_run then collapse_ws true t else String " " (collapse_ws true t)
      else String c (collapse_ws false t)
  end.

(** [re.escape]: a backslash before each of the characters the [re] module
    lists as special. *)
Definition re_special (c : ascii) : bool :=
  existsb (Ascii.eqb c)
    (list_ascii_of_string "()[]{}?*+-|^$\.&~# ") ||
  ((9 <=? code c) && (code c <=? 13))%N.

Fixpoint re_escape (s : string) : string :=
  match s with
  | EmptyString => EmptyString
  | String c t =>
      if re_special c then String "\" (String c (re_escape t))
      else String c (re_escape t)
  end.

(** A pattern compiled by [re.compile(rf"\b{re.escape(kw)}\b", re.I)]:
    its source text (the [.pattern] attribute) and the literal it matches. *)
Record Pattern : Type := mkPattern { pattern : string; literal : string }.

Definition compile_word (kw : string) : Pattern :=
  {| pattern := "\b" ++ re_escape kw ++ "\b"; literal := kw |}.

Definition word_opt (c : option ascii) : bool :=
  match c with Some a => is_word a | None => false end.

Definition shead (s : string) : option ascii :=
  match s with EmptyString => None | String c _ => Some c end.

(** [\b]: exactly one of the two neighbours is a word character. *)
Definition boundary (prev next : option ascii) : bool :=
  xorb (word_opt prev) (word_opt next).

(** The literal, compared without case, then the closing [\b]. *)
Fixpoint match_here (lit text : string) (prev : option ascii) : bool :=
  match lit with
  | EmptyString => boundary prev (shead text)
  | String a lit' =>
      match text with
      | EmptyString => false
      | String c text' =>
          Ascii.eqb (lower_char a) (lower_char c) && match_here lit' text' (Some c)
      end
  end.

Definition match_at (lit text : string) (prev : option ascii) : bool :=
  boundary prev (shead text) && match_here lit text prev.

Fixpoint search_from (lit text : string) (prev : option ascii) : bool :=
  match_at lit text prev ||
  match text with
  | EmptyString => false
  | String c t => search_from lit t (Some c)
  end.

(** [p.search(text)], as a truth value. *)
Definition search (p : Pattern) (text : string) : bool :=
  search_from (literal p) text None.

End PyStr.

(** ** hashlib *)

Module Hashlib.

Definition bytes_of (s : string) : list Z :=
  map (fun c => Z.of_N (N_of_ascii c)) (list_ascii_of_string s).

Definition w32 (x : Z) : Z := x mod 2 ^ 32.
Definition not32 (x : Z) : Z := Z.lxor x 0xFFFFFFFF.
Definition rotl32 (x c : Z) : Z :=
  w32 (Z.lor (Z.shiftl x c) (Z.shiftr x (32 - c))).
Definition rotr32 (x c : Z) : Z := rotl32 x (32 - c).

Definition nthZ (l : list Z) (i : Z) : Z := nth (Z.to_nat i) l 0.

(** The bytes of [x], least significant first. *)
Fixpoint le_bytes (n : nat) (x : Z) : list Z :=
  match n with
  | O => []
  | S k => x mod 256 :: le_bytes k (x / 256)
  end.

Definition be_bytes (n : nat) (x : Z) : list Z := rev (le_bytes n x).

Definition of_le (bs : list Z) : Z := fold_right (fun b acc => b + 256 * acc) 0 bs.
Definition of_be (bs : list Z) : Z := fold_left (fun acc b => 256 * acc + b) bs 0.

Fixpoint chunks (fuel size : nat) (l : list Z) : list (list Z) :=
  match fuel with
  | O => []
  | S k => match l with
           | [] => []
           | _ => firstn size l :: chunks k size (skipn size l)
           end
  end.

Definition blocks (size : nat) (l : list Z) : list (list Z) :=
  chunks (length l) size l.

Definition zero_pad (len : Z) : list Z := repeat 0 (Z.to_nat ((55 - len) mod 64)).

Definition hex_digit (d : Z) : ascii :=
  ascii_of_N (Z.to_N (if d <? 10 then 48 + d else 87 + d)).

Fixpoint hex (bs : list Z) : string :=
  match bs with
  | [] => EmptyString
  | b :: t => String (hex_digit (b / 16)) (String (hex_digit (b mod 16)) (hex t))
  end.

Fixpoint take (n : nat) (s : string) : string :=
  match n, s with
  | S k, String c t => String c (take k t)
  | _, _ => EmptyString
  end.

Module MD5.

Definition shifts : list Z :=
  [7; 12; 17; 22; 7; 12; 17; 22; 7; 12; 17; 22; 7; 12; 17; 22;
   5; 9; 14; 20; 5; 9; 14; 20; 5; 9; 14; 20; 5; 9; 14; 20;
   4; 11; 16; 23; 4; 11; 16; 23; 4; 11; 16; 23; 4; 11; 16; 23;
   6; 10; 15; 21; 6; 10; 15; 21; 6; 10; 15; 21; 6; 10; 15; 21].

Definition K : list Z :=
  [0xd76aa478; 0xe8c7b756; 0x242070db; 0xc1bdceee;
   0xf57c0faf; 0x4787c62a; 0xa8304613; 0xfd469501;
   0x698098d8; 0x8b44f7af; 0xffff5bb1; 0x895cd7be;
   0x6b901122; 0xfd987193; 0xa679438e; 0x49b40821;
   0xf61e2562; 0xc040b340; 0x265e5a51; 0xe9b6c7aa;
   0xd62f105d; 0x02441453; 0xd8a1e681; 0xe7d3fbc8;
   0x21e1cde6; 0xc33707d6; 0xf4d50d87; 0x455a14ed;
   0xa9e3e905; 0xfcefa3f8; 0x676f02d9; 0x8d2a4c8a;
   0xfffa3942; 0x8771f681; 0x6d9d6122; 0xfde5380c;
   0xa4beea44; 0x4bdecfa9; 0xf6bb4b60; 0xbebfbc70;
   0x289b7ec6; 0xeaa127fa; 0xd4ef3085; 0x04881d05;
   0xd9d4d039; 0xe6db99e5; 0x1fa27cf8; 0xc4ac5665;
   0xf4292244; 0x432aff97; 0xab9423a7; 0xfc93a039;
   0x655b59c3; 0x8f0ccc92; 0xffeff47d; 0x85845dd1;
   0x6fa87e4f; 0xfe2ce6e0; 0xa3014314; 0x4e0811a1;
   0xf7537e82; 0xbd3af235; 0x2ad7d2bb; 0xeb86d391].

Definition pad (msg : list Z) : list Z :=
  let len := Z.of_nat (length msg) in
  msg ++ [128] ++ zero_pad len ++ le_bytes 8 (8 * len).

Definition state : Type := (Z * Z * Z * Z)%type.

Definition round (M : list Z) (st : state) (i : Z) : state :=
  let '(A, B, C, D) := st in
  let '(F, g) :=
    if i <? 16 then (Z.lor (Z.land B C) (Z.land (not32 B) D), i)
    else if i <? 32 then (Z.lor (Z.land D B) (Z.land (not32 D) C), (5 * i + 1) mod 16)
    else if i <? 48 then (Z.lxor B (Z.lxor C D), (3 * i + 5) mod 16)
    else (Z.lxor C (Z.lor B (not32 D)), (7 * i) mod 16) in
  let F' := w32 (F + A + nthZ K i + nthZ M g) in
  (D, w32 (B + rotl32 F' (nthZ shifts i)), B, C).

Definition block (st : state) (blk : list Z) : state :=
  let M := map of_le (blocks 4 blk) in
  let '(a0, b0, c0, d0) := st in
  let '(A, B, C, D) := fold_left (round M) (map Z.of_nat (seq 0 64)) st in
  (w32 (a0 + A), w32 (b0 + B), w32 (c0 + C), w32 (d0 + D)).

Definition digest (msg : list Z) : list Z :=
  let '(a, b, c, d) :=
    fold_left block (blocks 64 (pad msg))
              (0x67452301, 0xefcdab89, 0x98badcfe, 0x10325476) in
  le_bytes 4 a ++ le_bytes 4 b ++ le_bytes 4 c ++ le_bytes 4 d.

(** [md5(data).hexdigest()] *)
Definition hexdigest (data : string) : string := hex (digest (bytes_of data)).

(** [int(md5(data).hexdigest(), 16)] *)
Definition to_int (data : string) : Z := of_be (digest (bytes_of data)).

End MD5.

Module SHA256.

(** The constants of FIPS 180-4, from their definition: the first 32 bits
    of the fractional parts of the cube roots ([K]) and of the square
    roots ([H0]) of the first primes. *)
Definition is_prime (n : Z) : bool :=
  (1 <? n) && forallb (fun d => negb (n mod Z.of_nat d =? 0))
                      (seq 2 (Z.to_nat n - 2)).

Definition primes : list Z :=
  List.filter is_prime (map Z.of_nat (seq 2 310)).

(** The integer cube root, one bit at a time from bit [bits - 1] down. *)
Fixpoint cube_root_bits (bits : nat) (n root : Z) : Z :=
  match bits with
  | O => root
  | S b =>
      let candidate := root + 2 ^ Z.of_nat b in
      cube_root_bits b n
        (if candidate * candidate * candidate <=? n then candidate else root)
  end.

Definition cube_root (n : Z) : Z := cube_root_bits 40 n 0.

Definition K : list Z :=
  map (fun p => w32 (cube_root (p * 2 ^ 96))) primes.

Definition H0 : list Z :=
  map (fun p => w32 (Z.sqrt (p * 2 ^ 64))) (firstn 8 primes).

Definition pad (msg : list Z) : list Z :=
  let len := Z.of_nat (length msg) in
  msg ++ [128] ++ zero_pad len ++ be_bytes 8 (8 * len).

Definition sigma0 (x : Z) : Z :=
  Z.lxor (rotr32 x 7) (Z.lxor (rotr32 x 18) (Z.shiftr x 3)).
Definition sigma1 (x : Z) : Z :=
  Z.lxor (rotr32 x 17) (Z.lxor (rotr32 x 19) (Z.shiftr x 10)).
Definition Sigma0 (x : Z) : Z :=
  Z.lxor (rotr32 x 2) (Z.lxor (rotr32 x 13) (rotr32 x 22)).
Definition Sigma1 (x : Z) : Z :=
  Z.lxor (rotr32 x 6) (Z.lxor (rotr32 x 11) (rotr32 x 25)).
Definition Ch (x y z : Z) : Z := Z.lxor (Z.land x y) (Z.land (not32 x) z).
Definition Maj (x y z : Z) : Z :=
  Z.lxor (Z.land x y) (Z.lxor (Z.land x z) (Z.land y z)).

(** The message schedule, most recent word first. *)
Fixpoint schedule (n : nat) (w : list Z) : list Z :=
  match n with
  | O => w
  | S k =>
      schedule k
        (w32 (sigma1 (nth 1 w 0) + nth 6 w 0 + sigma0 (nth 14 w 0) + nth 15 w 0) :: w)
  end.

Definition round (st : list Z) (kw : Z * Z) : list Z :=
  match st with
  | [a; b; c; d; e; f; g; h] =>
      let t1 := h + Sigma1 e + Ch e f g + fst kw + snd kw in
      let t2 := Sigma0 a + Maj a b c in
      [w32 (t1 + t2); a; b; c; w32 (d + t1); e; f; g]
  | _ => st
  end.

Definition block (st : list Z) (blk : list Z) : list Z :=
  let w := rev (schedule 48 (rev (map of_be (blocks 4 blk)))) in
  let st' := fold_left round (combine K w) st in
  map (fun p => w32 (fst p + snd p)) (combine st st').

Definition digest (msg : list Z) : list Z :=
  flat_map (be_bytes 4) (fold_left block (blocks 64 (pad msg)) H0).

(** [sha256(data).hexdigest()] *)
Definition hexdigest (data : string) : string := hex (digest (bytes_of data)).

End SHA256.

End Hashlib.

(** ** Calls that raise *)

Inductive exn : Type :=
| ZeroDivisionError
| ProviderError.     (* any [Exception] raised by an embedding backend *)

Inductive outcome (A : Type) : Type :=
| Returns (a : A)
| Raises (e : exn).

Arguments Returns {A} a.
Arguments Raises {A} e.

Definition bind_outcome {A B : Type} (m : outcome A) (k : A -> outcome B) : outcome B :=
  match m with
  | Returns a => k a
  | Raises e => Raises e
  end.

Declare Scope outcome_scope.
Delimit Scope outcome_scope with outcome.
Notation "'let*' x ':=' m 'in' k" := (bind_outcome m (fun x => k))
  (at level 10, x pattern, m at level 100, k at level 200) : outcome_scope.
Local Open Scope outcome_scope.

(** ** freshroles/models *)

Module RemoteType.
Inductive t : Type := ONSITE | HYBRID | REMOTE | UNKNOWN.

Definition value (x : t) : string :=
  match x with
  | ONSITE => "onsite" | HYBRID => "hybrid" | REMOTE => "remote" | UNKNOWN => "unknown"
  end.

Definition eqb (x y : t) : bool :=
  match x, y with
  | ONSITE, ONSITE | HYBRID, HYBRID | REMOTE, REMOTE | UNKNOWN, UNKNOWN => true
  | _, _ => false
  end.
End RemoteType.

Module EmploymentType.
Inductive t : Type :=
  FULL_TIME | PART_TIME | CONTRACT | INTERNSHIP | TEMPORARY | UNKNOWN.
End EmploymentType.

Module ATSType.
Inductive t : Type :=
  GREENHOUSE | LEVER | WORKDAY | ICIMS | SMARTRECRUITERS | SUCCESSFACTORS
| TALEO | ASHBY | UNKNOWN.

Definition value (x : t) : string :=
  match x with
  | GREENHOUSE => "greenhouse" | LEVER => "lever" | WORKDAY => "workday"
  | ICIMS => "icims" | SMARTRECRUITERS => "smartrecruiters"
  | SUCCESSFACTORS => "successfactors" | TALEO => "taleo" | ASHBY => "ashby"
  | UNKNOWN => "unknown"
  end.
End ATSType.

(** A [datetime]: the wall-clock reading in microseconds and, when the value
    is timezone-aware, the offset of its zone from UTC in microseconds. *)
Record datetime : Type := mkDatetime {
  wall_us : Z;
  utcoffset_us : option Z
}.

(** [JobPosting]; the [raw] payload, which the engine never reads, is left out. *)
Record JobPosting : Type := mkJobPosting {
  company : string;
  title : string;
  source_job_id : string;
  source_system : ATSType.t;
  source_url : string;
  apply_url : string;
  location : option string;
  remote_type : RemoteType.t;
  employment_type : EmploymentType.t;
  department : option string;
  team : option string;
  posted_at : option datetime;
  updated_at : option datetime;
  description_html : option string;
  description_text : option string;
  requirements : list string;
  seniority : option string;
  keywords : list string
}.

(** The constructor call with the required fields only; every other field
    takes its declared default. *)
Definition new_job (company title source_job_id : string) (source_system : ATSType.t)
    (source_url apply_url : string) : JobPosting :=
  {| company := company; title := title; source_job_id := source_job_id;
     source_system := source_system; source_url := source_url; apply_url := apply_url;
     location := None; remote_type := RemoteType.UNKNOWN;
     employment_type := EmploymentType.UNKNOWN; department := None; team := None;
     posted_at := None; updated_at := None; description_html := None;
     description_text := None; requirements := []; seniority := None; keywords := [] |}.

(** [bool(x)] for an optional string: neither [None] nor empty. *)
Definition some_text (x : option string) : option string :=
  match x with
  | Some s => if PyStr.truthy s then Some s else None
  | None => None
  end.

(** The [id] property. *)
Definition job_id (job : JobPosting) : string :=
  let key := company job ++ ":" ++ ATSType.value (source_system job) ++ ":"
             ++ source_job_id job in
  Hashlib.take 16 (Hashlib.SHA256.hexdigest key).

Definition get_searchable_text (job : JobPosting) : string :=
  let parts := [title job] in
  let parts := match some_text (description_text job) with
               | Some d => (parts ++ [d])%list
               | None => parts
               end in
  let parts := (parts ++ requirements job)%list in
  let parts := match some_text (department job) with
               | Some d => (parts ++ [d])%list
               | None => parts
               end in
  PyStr.join " " parts.

Record MatchingProfile : Type := mkMatchingProfile {
  name : string;
  desired_roles : list string;
  must_have_keywords : list string;
  must_not_keywords : list string;
  preferred_locations : list string;
  remote_preference : option RemoteType.t;
  min_score_threshold : R;
  vector_weight : R;
  keyword_weight : R;
  recency_weight : R
}.

(** [MatchingProfile()] with the declared defaults. *)
Definition default_profile : MatchingProfile :=
  {| name := "default"; desired_roles := []; must_have_keywords := [];
     must_not_keywords := []; preferred_locations := []; remote_preference := None;
     min_score_threshold := 0.3; vector_weight := 0.55; keyword_weight := 0.30;
     recency_weight := 0.15 |}.

(** An entry of [match_reasons].  The one reason whose text prints a score,
    [f"High semantic similarity: {vector_score:.2f}"], keeps the score. *)
Inductive Reason : Type :=
| Text (s : string)
| HighSemanticSimilarity (vector_score : R).

Record ScoredJobPosting : Type := mkScored {
  job : JobPosting;
  final_score : R;
  vector_score : R;
  keyword_score : R;
  recency_score : R;
  match_reasons : list Reason
}.

(** ** freshroles/matching/dedup.py *)

Definition normalize_text (text : string) : string :=
  let text := PyStr.lower text in
  let text := PyStr.sfilter (fun c => PyStr.is_word c || PyStr.isspace c) text in
  let text := PyStr.collapse_ws false text in
  PyStr.strip text.

(** [range(n)] *)
Definition range (n : Z) : list nat := seq 0 (Z.to_nat n).

(** One turn of the inner loop of [simhash]: [v[i] += 1] or [v[i] -= 1]. *)
Definition vote (word_hash : Z) (v : list Z) (i : nat) : list Z :=
  match v !! i with
  | Some x =>
      if Z.land word_hash (Z.shiftl 1 (Z.of_nat i)) =? 0
      then <[i := x - 1]> v
      else <[i := x + 1]> v
  | None => v
  end.

Definition simhash (text : string) (hash_bits : Z) : Z :=
  let words := PyStr.split (normalize_text text) in
  match words with
  | [] => 0
  | _ =>
      let v := repeat 0 (Z.to_nat hash_bits) in
      let v :=
        fold_left
          (fun v word =>
             let word_hash := Hashlib.MD5.to_int word in
             fold_left (vote word_hash) (range hash_bits) v)
          words v in
      fold_left
        (fun fingerprint i =>
           match v !! i with
           | Some x => if x >? 0 then Z.lor fingerprint (Z.shiftl 1 (Z.of_nat i))
                       else fingerprint
           | None => fingerprint
           end)
        (range hash_bits) 0
  end.

Fixpoint popcount_pos (p : positive) : Z :=
  match p with
  | xH => 1
  | xO q => popcount_pos q
  | xI q => 1 + popcount_pos q
  end.

(** [bin(x).count("1")]: the ones in the binary numeral of the magnitude. *)
Definition count_ones (x : Z) : Z :=
  match x with
  | Z0 => 0
  | Zpos p | Zneg p => popcount_pos p
  end.

Definition hamming_distance (hash1 hash2 bits : Z) : Z :=
  let xor := Z.lxor hash1 hash2 in
  count_ones xor.

(** [distance / bits] raises when [bits] is zero. *)
Definition simhash_similarity (hash1 hash2 bits : Z) : outcome R :=
  let distance := hamming_distance hash1 hash2 bits in
  if bits =? 0 then Raises ZeroDivisionError
  else Returns (1 - IZR distance / IZR bits)%R.

Record Deduplicator : Type := mkDeduplicator {
  similarity_threshold : R;
  job_exists_fn : option (string -> bool);
  _seen_ids : gset string;
  _seen_hashes : gmap string Z
}.

(** [Deduplicator(similarity_threshold, job_exists_fn)] *)
Definition new_deduplicator (similarity_threshold : R)
    (job_exists_fn : option (string -> bool)) : Deduplicator :=
  {| similarity_threshold := similarity_threshold; job_exists_fn := job_exists_fn;
     _seen_ids := ∅; _seen_hashes := ∅ |}.

Definition _get_exact_key (job : JobPosting) : string :=
  company job ++ ":" ++ ATSType.value (source_system job) ++ ":" ++ source_job_id job.

Definition _get_fuzzy_key (job : JobPosting) : string :=
  let title := normalize_text (title job) in
  let location := normalize_text (match location job with Some l => l | None => "" end) in
  title ++ ":" ++ location.

Definition _get_content_hash (job : JobPosting) : Z :=
  let text := get_searchable_text job in
  simhash text 64.

(** The loop of [is_duplicate] over [self._seen_hashes.items()]. *)
Fixpoint fuzzy_scan (threshold : R) (fuzzy_key : string) (content_hash : Z)
    (items : list (string * Z)) : outcome bool :=
  match items with
  | [] => Returns false
  | (seen_key, seen_hash) :: rest =>
      if String.eqb seen_key fuzzy_key then
        let* similarity := simhash_similarity content_hash seen_hash 64 in
        if Rle_dec threshold similarity then Returns true
        else fuzzy_scan threshold fuzzy_key content_hash rest
      else fuzzy_scan threshold fuzzy_key content_hash rest
  end.

Definition exists_in_database (d : Deduplicator) (job : JobPosting) : bool :=
  match job_exists_fn d with
  | Some f => f (job_id job)
  | None => false
  end.

(** [is_duplicate]: the answer and the deduplicator after the call. *)
Definition is_duplicate (d : Deduplicator) (job : JobPosting)
  : outcome (bool * Deduplicator) :=
  let exact_key := _get_exact_key job in
  if bool_decide (exact_key ∈ _seen_ids d) then Returns (true, d)
  else if exists_in_database d job then Returns (true, d)
  else
    let fuzzy_key := _get_fuzzy_key job in
    let content_hash := _get_content_hash job in
    let* found := fuzzy_scan (similarity_threshold d) fuzzy_key content_hash
                    (map_to_list (_seen_hashes d)) in
    if (found : bool) then Returns (true, d)
    else Returns (false,
                  {| similarity_threshold := similarity_threshold d;
                     job_exists_fn := job_exists_fn d;
                     _seen_ids := {[exact_key]} ∪ _seen_ids d;
                     _seen_hashes := <[fuzzy_key := content_hash]> (_seen_hashes d) |}).

(** [dedupe]: the unique jobs and the deduplicator after the call. *)
Fixpoint dedupe_from (d : Deduplicator) (jobs : list JobPosting) (unique : list JobPosting)
  : outcome (list JobPosting * Deduplicator) :=
  match jobs with
  | [] => Returns (unique, d)
  | job :: rest =>
      let* (dup, d') := is_duplicate d job in
      dedupe_from d' rest (if (dup : bool) then unique else (unique ++ [job])%list)
  end.

Definition dedupe (d : Deduplicator) (jobs : list JobPosting)
  : outcome (list JobPosting * Deduplicator) :=
  dedupe_from d jobs [].

Definition reset (d : Deduplicator) : Deduplicator :=
  {| similarity_threshold := similarity_threshold d; job_exists_fn := job_exists_fn d;
     _seen_ids := ∅; _seen_hashes := ∅ |}.

(** ** freshroles/matching/keyword.py *)

(** The first pattern of the list that is found in the text: the pattern on
    which a loop [for pattern in patterns: if pattern.search(text): ...]
    leaves by [return] or [break]. *)
Definition first_match (patterns : list PyStr.Pattern) (text : string)
  : option PyStr.Pattern :=
  find (fun p => PyStr.search p text) patterns.

Module KeywordScorer.

Record t : Type := mk {
  profile : MatchingProfile;
  _must_have : list PyStr.Pattern;
  _must_not : list PyStr.Pattern;
  _desired_roles : list PyStr.Pattern
}.

(** [KeywordScorer(profile)], with [_compile_patterns]. *)
Definition new (profile : MatchingProfile) : t :=
  {| profile := profile;
     _must_have := map PyStr.compile_word (must_have_keywords profile);
     _must_not := map PyStr.compile_word (must_not_keywords profile);
     _desired_roles := map PyStr.compile_word (desired_roles profile) |}.

(** The part of [score] after the must-not loop. *)
Definition accumulate (self : t) (job : JobPosting) : R * list string :=
  let text := get_searchable_text job in
  let title := PyStr.lower (title job) in
  let reasons : list string := [] in
  let score := 0%R in
  let '(role_match_score, reasons) :=
    match first_match (_desired_roles self) title with
    | Some pattern =>
        (0.4%R, (reasons ++ ["Role match: " +:+ PyStr.pattern pattern])%list)
    | None => (0%R, reasons)
    end in
  let score := (score + role_match_score)%R in
  let '(score, reasons) :=
    match _must_have self with
    | [] => ((score + 0.2)%R, reasons)
    | _ =>
        let matched := List.filter (fun p => PyStr.search p text) (_must_have self) in
        let matched_count := length matched in
        let keyword_score :=
          ((INR matched_count / INR (length (_must_have self))) * 0.4)%R in
        ((score + keyword_score)%R,
         (reasons ++ map (fun p => "Keyword: " +:+ PyStr.pattern p) matched)%list)
    end in
  let '(score, reasons) :=
    match some_text (location job), preferred_locations (profile self) with
    | Some loc, _ :: _ =>
        let loc_lower := PyStr.lower loc in
        match find (fun pref_loc => PyStr.contains (PyStr.lower pref_loc) loc_lower)
                   (preferred_locations (profile self)) with
        | Some pref_loc => ((score + 0.1)%R, (reasons ++ ["Location: " +:+ pref_loc])%list)
        | None => (score, reasons)
        end
    | _, _ => (score, reasons)
    end in
  let '(score, reasons) :=
    match remote_preference (profile self) with
    | Some pref =>
        if RemoteType.eqb (remote_type job) pref
        then ((score + 0.1)%R,
              (reasons ++ ["Remote: " +:+ RemoteType.value (remote_type job)])%list)
        else (score, reasons)
    | None => (score, reasons)
    end in
  (Rmin score 1, reasons).

Definition score (self : t) (job : JobPosting) : R * list string :=
  let text := get_searchable_text job in
  match first_match (_must_not self) text with
  | Some pattern => (0%R, ["Excluded: contains '" +:+ PyStr.pattern pattern +:+ "'"])
  | None => accumulate self job
  end.

End KeywordScorer.

(** A [timedelta] is its length in microseconds.  The difference of two
    aware datetimes is the difference of their instants. *)
Definition instant_us (d : datetime) : Z :=
  wall_us d - match utcoffset_us d with Some o => o | None => 0 end.

Definition datetime_sub (a b : datetime) : Z := instant_us a - instant_us b.

Definition total_seconds (delta_us : Z) : R := (IZR delta_us / 1000000)%R.

Module RecencyScorer.

Record t : Type := mk { max_age_days : Z }.

(** [RecencyScorer()] *)
Definition new : t := {| max_age_days := 30 |}.

(** [score]; [now] is the value [datetime.now(timezone.utc)] returns. *)
Definition score (self : t) (now : datetime) (job : JobPosting) : R :=
  match posted_at job with
  | None => 0.5%R
  | Some posted =>
      let posted :=
        match utcoffset_us posted with
        | None => {| wall_us := wall_us posted; utcoffset_us := Some 0 |}
        | Some _ => posted
        end in
      let age := datetime_sub now posted in
      let age_days := (total_seconds age / 86400)%R in
      if Rle_dec age_days 0 then 1%R
      else if Rge_dec age_days (IZR (max_age_days self)) then 0%R
      else
        let decay := (1 - Rpower (age_days / IZR (max_age_days self)) 0.5)%R in
        Rmax 0 (Rmin 1 decay)
  end.

End RecencyScorer.

(** ** freshroles/matching/embeddings *)

Definition vector : Type := list R.

(** Where a call of [embed] comes from: [_get_profile_embedding] or the
    embedding of a job's text in [score]. *)
Inductive call_site : Type := ProfileText | JobText.

(** What a scorer does to the world around it, with what came back. *)
Inductive event : Type :=
| Now (t : Z)
| Embed (site : call_site) (texts : list string) (result : outcome (list vector))
| Similarity (vec1 vec2 : vector) (result : outcome R).

(** A backend other than the neutral one.  Its answers may depend on
    everything that happened before the call, so it may hold state and fail
    at one call and not at the next. *)
Record Backend : Type := mkBackend {
  backend_embed : list event -> list string -> outcome (list vector);
  backend_similarity : list event -> vector -> vector -> outcome R
}.

Inductive EmbeddingProvider : Type :=
| NoEmbeddingProvider (dimension : Z)
| OtherProvider (backend : Backend).

(** [isinstance(p, NoEmbeddingProvider)] *)
Definition is_no_embedding (p : EmbeddingProvider) : bool :=
  match p with NoEmbeddingProvider _ => true | OtherProvider _ => false end.

Definition embed (p : EmbeddingProvider) (history : list event) (texts : list string)
  : outcome (list vector) :=
  match p with
  | NoEmbeddingProvider dimension =>
      Returns (map (fun _ => repeat 0%R (Z.to_nat dimension)) texts)
  | OtherProvider b => backend_embed b history texts
  end.

Definition similarity (p : EmbeddingProvider) (history : list event) (vec1 vec2 : vector)
  : outcome R :=
  match p with
  | NoEmbeddingProvider _ => Returns 0.5%R
  | OtherProvider b => backend_similarity b history vec1 vec2
  end.

(** ** freshroles/matching/scorer.py *)

(** Python's [list.sort(key=key, reverse=True)]: the stable sort by
    decreasing key, here by insertion from the right. *)
Section ListSort.
Context {A : Type} (key : A -> R).

Fixpoint insert_desc (x : A) (l : list A) : list A :=
  match l with
  | [] => [x]
  | y :: t => if Rle_dec (key y) (key x) then x :: l else y :: insert_desc x t
  end.

Definition sort_desc (l : list A) : list A := fold_right insert_desc [] l.
End ListSort.

Module Scorer.

Record t : Type := mk {
  profile : MatchingProfile;
  embedding_provider : EmbeddingProvider;
  keyword_scorer : KeywordScorer.t;
  recency_scorer : RecencyScorer.t;
  _profile_embedding : option vector
}.

(** [Scorer(profile, embedding_provider)] *)
Definition new (profile : MatchingProfile) (embedding_provider : option EmbeddingProvider)
  : t :=
  {| profile := profile;
     embedding_provider :=
       match embedding_provider with
       | Some p => p
       | None => NoEmbeddingProvider 384
       end;
     keyword_scorer := KeywordScorer.new profile;
     recency_scorer := RecencyScorer.new;
     _profile_embedding := None |}.

(** The scorer object and the events so far, oldest first. *)
Definition state : Type := (t * list event)%type.

(** A method: it ends by returning or raising, and leaves a state. *)
Definition M (A : Type) : Type := state -> outcome A * state.

Definition ret {A : Type} (a : A) : M A := fun s => (Returns a, s).

Definition bind {A B : Type} (m : M A) (k : A -> M B) : M B :=
  fun s =>
    match m s with
    | (Returns a, s') => k a s'
    | (Raises e, s') => (Raises e, s')
    end.

(** [try: m except Exception: handler] *)
Definition try_except {A : Type} (m : M A) (handler : M A) : M A :=
  fun s =>
    match m s with
    | (Returns a, s') => (Returns a, s')
    | (Raises _, s') => handler s'
    end.

Declare Scope scorer_scope.
Delimit Scope scorer_scope with scorer.
Notation "'let*' x ':=' m 'in' k" := (bind m (fun x => k))
  (at level 10, x pattern, m at level 100, k at level 200) : scorer_scope.
Local Open Scope scorer_scope.

Definition get_self : M t := fun s => (Returns (fst s), s).

Definition set_profile_embedding (v : vector) : M unit :=
  fun '(self, tr) =>
    (Returns tt,
     ({| profile := profile self; embedding_provider := embedding_provider self;
         keyword_scorer := keyword_scorer self; recency_scorer := recency_scorer self;
         _profile_embedding := Some v |}, tr)).

(** [await self.embedding_provider.embed(texts)] *)
Definition call_embed (site : call_site) (texts : list string) : M (list vector) :=
  fun '(self, tr) =>
    let result := embed (embedding_provider self) tr texts in
    (result, (self, (tr ++ [Embed site texts result])%list)).

(** [self.embedding_provider.similarity(vec1, vec2)] *)
Definition call_similarity (vec1 vec2 : vector) : M R :=
  fun '(self, tr) =>
    let result := similarity (embedding_provider self) tr vec1 vec2 in
    (result, (self, (tr ++ [Similarity vec1 vec2 result])%list)).

Section WithClock.

(** The clock: the microseconds since the epoch that the next
    [datetime.now(timezone.utc)] reads, given the events so far. *)
Variable clock : list event -> Z.

Definition datetime_now : M datetime :=
  fun '(self, tr) =>
    let t := clock tr in
    (Returns {| wall_us := t; utcoffset_us := Some 0 |}, (self, (tr ++ [Now t])%list)).

Definition _get_profile_embedding : M vector :=
  let* self := get_self in
  match _profile_embedding self with
  | None =>
      let profile_text :=
        PyStr.join " " (desired_roles (profile self)
                        ++ must_have_keywords (profile self))%list in
      if PyStr.truthy profile_text then
        let* embeddings := call_embed ProfileText [profile_text] in
        let v := match embeddings with e :: _ => e | [] => [] end in
        let* _ := set_profile_embedding v in
        ret v
      else
        let* _ := set_profile_embedding [] in
        ret []
  | Some v => ret v
  end.

(** The [try] block of [score]. *)
Definition semantic_score (job : JobPosting) : M R :=
  let* profile_emb := _get_profile_embedding in
  match profile_emb with
  | [] => ret 0.5%R
  | _ =>
      let job_text := get_searchable_text job in
      let* job_embeddings := call_embed JobText [job_text] in
      match job_embeddings with
      | [] => ret 0.5%R
      | job_embedding :: _ =>
          let* raw_sim := call_similarity profile_emb job_embedding in
          ret ((raw_sim + 1) / 2)%R
      end
  end.

(** [keyword_score == 0.0 and keyword_reasons] *)
Definition short_circuit (keyword_score : R) (keyword_reasons : list string) : bool :=
  (if Req_dec_T keyword_score 0 then true else false)
  && match keyword_reasons with [] => false | _ => true end.

Definition score (job : JobPosting) : M ScoredJobPosting :=
  let* self := get_self in
  let '(keyword_score, keyword_reasons) :=
    KeywordScorer.score (keyword_scorer self) job in
  if short_circuit keyword_score keyword_reasons then
    ret {| job := job; final_score := 0; vector_score := 0; keyword_score := 0;
           recency_score := 0; match_reasons := map Text keyword_reasons |}
  else
    let* now := datetime_now in
    let recency_score := RecencyScorer.score (recency_scorer self) now job in
    let* vector_score :=
      if is_no_embedding (embedding_provider self) then ret 0.5%R
      else try_except (semantic_score job) (ret 0.5%R) in
    let final_score :=
      (vector_weight (profile self) * vector_score
       + keyword_weight (profile self) * keyword_score
       + recency_weight (profile self) * recency_score)%R in
    let reasons := map Text keyword_reasons in
    let reasons :=
      if Rgt_dec vector_score 0.6
      then (reasons ++ [HighSemanticSimilarity vector_score])%list else reasons in
    let reasons :=
      if Rgt_dec recency_score 0.7
      then (reasons ++ [Text "Recently posted"])%list else reasons in
    ret {| job := job; final_score := final_score; vector_score := vector_score;
           keyword_score := keyword_score; recency_score := recency_score;
           match_reasons := reasons |}.

(** The loop of [score_batch]. *)
Fixpoint score_loop (threshold : R) (jobs : list JobPosting)
    (scored : list ScoredJobPosting) : M (list ScoredJobPosting) :=
  match jobs with
  | [] => ret scored
  | job :: rest =>
      let* scored_job := score job in
      if Rge_dec (final_score scored_job) threshold
      then score_loop threshold rest (scored ++ [scored_job])%list
      else score_loop threshold rest scored
  end.

Definition score_batch (jobs : list JobPosting) (min_score : option R)
  : M (list ScoredJobPosting) :=
  let* self := get_self in
  let threshold :=
    match min_score with
    | Some m => m
    | None => min_score_threshold (profile self)
    end in
  let* scored := score_loop threshold jobs [] in
  ret (sort_desc final_score scored).

(** [[await self.score(job) for job in jobs]]: every job scored, in order. *)
Fixpoint score_each (jobs : list JobPosting) : M (list ScoredJobPosting) :=
  match jobs with
  | [] => ret []
  | job :: rest =>
      let* scored_job := score job in
      let* others := score_each rest in
      ret (scored_job :: others)
  end.

End WithClock.

End Scorer.

(** ** Notions used in the statements *)

(** *** Deduplication *)

(** The test of the fuzzy loop on one stored fingerprint. *)
Definition similar (threshold : R) (content_hash seen_hash : Z) : bool :=
  if Rle_dec threshold (1 - IZR (hamming_distance content_hash seen_hash 64) / 64)%R
  then true else false.

(** The deduplicator after it recorded [job]. *)
Definition remember (d : Deduplicator) (job : JobPosting) : Deduplicator :=
  {| similarity_threshold := similarity_threshold d;
     job_exists_fn := job_exists_fn d;
     _seen_ids := {[_get_exact_key job]} ∪ _seen_ids d;
     _seen_hashes := <[_get_fuzzy_key job := _get_content_hash job]> (_seen_hashes d) |}.

(** The stored fingerprint of the job's fuzzy key, if there is one, is similar
    to the job's. *)
Definition fuzzy_match (d : Deduplicator) (job : JobPosting) : bool :=
  match _seen_hashes d !! _get_fuzzy_key job with
  | Some seen_hash => similar (similarity_threshold d) (_get_content_hash job) seen_hash
  | None => false
  end.

(** The fingerprint of the last job of [recorded] (oldest first) that has the
    given fuzzy key. *)
Fixpoint latest_fingerprint (fuzzy_key : string) (recorded : list JobPosting) : option Z :=
  match recorded with
  | [] => None
  | j :: rest =>
      match latest_fingerprint fuzzy_key rest with
      | Some h => Some h
      | None => if String.eqb (_get_fuzzy_key j) fuzzy_key
                then Some (_get_content_hash j) else None
      end
  end.

(** A text without a word character: empty, or white space and punctuation. *)
Definition no_word_char (text : string) : Prop :=
  PyStr.sfilter PyStr.is_word text = "".

(** A text of white space only. *)
Definition blank (s : string) : Prop :=
  PyStr.sfilter (fun c => negb (PyStr.isspace c)) s = "".

(** *** Sorting *)

Section SortNotions.
Context {A : Type} (key : A -> R).

(** [a] may stand before [b] in a list sorted by decreasing key. *)
Definition desc (a b : A) : Prop := (key a >= key b)%R.

Definition has_key (v : R) (a : A) : bool :=
  if Req_dec_T (key a) v then true else false.
End SortNotions.

(** [final_score >= threshold] *)
Definition reaches (threshold : R) (s : ScoredJobPosting) : bool :=
  if Rge_dec (final_score s) threshold then true else false.

(** *** Scoring *)

(** The age of a posting in days, as [RecencyScorer.score] computes it: a
    naive [posted_at] is read as UTC. *)
Definition age_in_days (now posted : datetime) : R :=
  (total_seconds (datetime_sub now posted) / 86400)%R.

(** Some phrase of the list is found in the text. *)
Definition some_phrase_matches (phrases : list string) (text : string) : Prop :=
  exists kw, In kw phrases /\ PyStr.search (PyStr.compile_word kw) text = true.

Definition with_cache (self : Scorer.t) (v : vector) : Scorer.t :=
  {| Scorer.profile := Scorer.profile self;
     Scorer.embedding_provider := Scorer.embedding_provider self;
     Scorer.keyword_scorer := Scorer.keyword_scorer self;
     Scorer.recency_scorer := Scorer.recency_scorer self;
     Scorer._profile_embedding := Some v |}.

(** The text [_get_profile_embedding] embeds. *)
Definition profile_text (self : Scorer.t) : string :=
  PyStr.join " " (desired_roles (Scorer.profile self)
                  ++ must_have_keywords (Scorer.profile self))%list.

(** The results of the calls of [embed] made for the profile text. *)
Fixpoint profile_embeds (tr : list event) : list (outcome (list vector)) :=
  match tr with
  | [] => []
  | Embed ProfileText _ result :: rest => result :: profile_embeds rest
  | _ :: rest => profile_embeds rest
  end.

Definition raised {A : Type} (o : outcome A) : bool :=
  match o with Raises _ => true | Returns _ => false end.

(** A call of [embed] that raised. *)
Definition embed_raised (ev : event) : bool :=
  match ev with Embed _ _ (Raises _) => true | _ => false end.

(** The contract of [similarity]: a cosine similarity, between -1 and 1. *)
Definition bounded_similarity (p : EmbeddingProvider) : Prop :=
  forall history vec1 vec2 r,
    similarity p history vec1 vec2 = Returns r -> (-1 <= r <= 1)%R.

(** The rest of the [try] block of [score] once the profile embedding is known. *)
Definition job_similarity (job : JobPosting) (profile_emb : vector) : Scorer.M R :=
  match profile_emb with
  | [] => Scorer.ret 0.5%R
  | _ =>
      Scorer.bind (Scorer.call_embed JobText [get_searchable_text job])
        (fun job_embeddings =>
           match job_embeddings with
           | [] => Scorer.ret 0.5%R
           | job_embedding :: _ =>
               Scorer.bind (Scorer.call_similarity profile_emb job_embedding)
                           (fun raw_sim => Scorer.ret ((raw_sim + 1) / 2)%R)
           end)
  end.

(** The computation of the vector score in [score]. *)
Definition vector_step (self : Scorer.t) (job : JobPosting) : Scorer.M R :=
  if is_no_embedding (Scorer.embedding_provider self) then Scorer.ret 0.5%R
  else Scorer.try_except (Scorer.semantic_score job) (Scorer.ret 0.5%R).

(** The job is not excluded: the test of the short circuit in [score] fails. *)
Definition not_excluded (self : Scorer.t) (job : JobPosting) : Prop :=
  Scorer.short_circuit (fst (KeywordScorer.score (Scorer.keyword_scorer self) job))
                       (snd (KeywordScorer.score (Scorer.keyword_scorer self) job))
  = false.

(** What [score] returns for an excluded job. *)
Definition excluded_result (posting : JobPosting) (reasons : list string)
  : ScoredJobPosting :=
  {| job := posting; final_score := 0; vector_score := 0; keyword_score := 0;
     recency_score := 0; match_reasons := map Text reasons |}.

(** The reading of the clock that a call of [score] starting after [tr] gets. *)
Definition now_after (clock : list event -> Z) (tr : list event) : datetime :=
  {| wall_us := clock tr; utcoffset_us := Some 0 |}.

(** The profile embedding was obtained at most once: every call of [embed]
    for the profile text raised, but possibly the last, and the cache holds
    the result of that one. *)
Definition embedded_once (self : Scorer.t) (tr : list event) : Prop :=
  exists failures,
    Forall (fun o => raised o = true) failures /\
    match Scorer._profile_embedding self with
    | None => profile_embeds tr = failures
    | Some c =>
        profile_embeds tr = failures \/
        exists vs, profile_embeds tr = (failures ++ [Returns vs])%list /\
                   c = match vs with e :: _ => e | [] => [] end
    end.

(** ** Sample data

    The fixtures of [tests/test_matching/test_scorer.py], and a few inputs
    more. *)

Definition sample_profile : MatchingProfile :=
  {| name := "test";
     desired_roles := ["Software Engineer Intern"; "Backend Intern"];
     must_have_keywords := ["Python"; "backend"];
     must_not_keywords := ["senior"; "staff"];
     preferred_locations := ["San Francisco"; "Remote"];
     remote_preference := Some RemoteType.REMOTE;
     min_score_threshold := 0.3; vector_weight := 0.55; keyword_weight := 0.30;
     recency_weight := 0.15 |}.

(** [test_must_not_keywords_exclude] *)
Definition senior_job : JobPosting :=
  new_job "TestCo" "Senior Software Engineer" "12346" ATSType.GREENHOUSE
          "https://example.com/careers" "https://example.com/apply/12346".

(** [test_batch_scoring], the second job *)
Definition senior_staff_job : JobPosting :=
  new_job "TestCo" "Senior Staff Engineer" "2" ATSType.GREENHOUSE
          "https://example.com" "https://example.com/apply".

(** [test_exact_duplicate] *)
Definition engineer_123 : JobPosting :=
  new_job "TestCo" "Engineer" "123" ATSType.GREENHOUSE
          "https://example.com" "https://example.com/apply".

(** [test_dedupe_list]: titles "Engineer 0" to "Engineer 4" *)
Definition numbered_engineer (i : string) : JobPosting :=
  new_job "TestCo" ("Engineer " ++ i) i ATSType.GREENHOUSE
          "https://example.com" "https://example.com/apply".

Definition five_jobs : list JobPosting :=
  map numbered_engineer ["0"; "1"; "2"; "3"; "4"].

(** Five postings that differ in their [source_job_id] only. *)
Definition plain_engineer (i : string) : JobPosting :=
  new_job "TestCo" "Engineer" i ATSType.GREENHOUSE
          "https://example.com" "https://example.com/apply".

Definition five_reposts : list JobPosting :=
  map plain_engineer ["0"; "1"; "2"; "3"; "4"].

(** Postings with the same title and no location, told apart by their
    [source_job_id] and their description. *)
Definition described_engineer (i description : string) : JobPosting :=
  {| company := "TestCo"; title := "Engineer"; source_job_id := i;
     source_system := ATSType.GREENHOUSE; source_url := "https://example.com";
     apply_url := "https://example.com/apply";
     location := None; remote_type := RemoteType.UNKNOWN;
     employment_type := EmploymentType.UNKNOWN; department := None; team := None;
     posted_at := None; updated_at := None; description_html := None;
     description_text := Some description; requirements := []; seniority := None;
     keywords := [] |}.

(** [Deduplicator()] *)
Definition new_session : Deduplicator := new_deduplicator 0.85 None.

(** A posting with a title only, dated or not. *)
Definition engineer_posted (posted_at : option datetime) : JobPosting :=
  {| company := "TestCo"; title := "Engineer"; source_job_id := "123";
     source_system := ATSType.GREENHOUSE; source_url := "https://example.com";
     apply_url := "https://example.com/apply";
     location := None; remote_type := RemoteType.UNKNOWN;
     employment_type := EmploymentType.UNKNOWN; department := None; team := None;
     posted_at := posted_at; updated_at := None; description_html := None;
     description_text := None; requirements := []; seniority := None; keywords := [] |}.

(** Midnight UTC on 1 January 2025, in microseconds since the epoch. *)
Definition new_year_2025 : Z := 1735689600000000.

Definition utc (t : Z) : datetime := {| wall_us := t; utcoffset_us := Some 0 |}.

Definition hour_us : Z := 3600000000.
Definition day_us : Z := 86400000000.

(** A clock that stands still. *)
Definition fixed_clock (t : Z) : list event -> Z := fun _ => t.

(** A profile whose weights are all 1. *)
Definition heavy_profile : MatchingProfile :=
  {| name := "heavy"; desired_roles := []; must_have_keywords := [];
     must_not_keywords := []; preferred_locations := []; remote_preference := None;
     min_score_threshold := 0.3; vector_weight := 1; keyword_weight := 1;
     recency_weight := 1 |}.

(** A profile that asks for one role. *)
Definition engineer_profile : MatchingProfile :=
  {| name := "engineer"; desired_roles := ["Engineer"]; must_have_keywords := [];
     must_not_keywords := []; preferred_locations := []; remote_preference := None;
     min_score_threshold := 0.3; vector_weight := 0.55; keyword_weight := 0.30;
     recency_weight := 0.15 |}.

(** A backend that is down: every [embed] raises. *)
Definition failing_backend : Backend :=
  {| backend_embed := fun _ _ => Raises ProviderError;
     backend_similarity := fun _ _ _ => Returns 0%R |}.

(** A backend that embeds every text as the same unit vector. *)
Definition constant_backend : Backend :=
  {| backend_embed := fun _ texts => Returns (map (fun _ => [1%R]) texts);
     backend_similarity := fun _ _ _ => Returns 1%R |}.

(** ** More notions for the statements *)

(** *** Texts *)

(** Every character of the text passes the test. *)
Fixpoint sforall (p : ascii -> bool) (s : string) : bool :=
  match s with
  | EmptyString => true
  | String c t => p c && sforall p t
  end.




(** *** Fingerprints *)

(** The vote of a word hash on bit [i]: 1 when the bit is set, -1 when not. *)
Definition bit_vote (word_hash : Z) (i : nat) : Z :=
  if Z.land word_hash (Z.shiftl 1 (Z.of_nat i)) =? 0 then -1 else 1.

(** The votes of the words on bit [i], added up. *)
Definition tally (words : list string) (i : nat) : Z :=
  fold_right (fun word acc => bit_vote (Hashlib.MD5.to_int word) i + acc) 0 words.

(** The words of a list whose MD5 has bit [i] set. *)
Definition words_with_bit (words : list string) (i : Z) : list string :=
  List.filter (fun word => Z.testbit (Hashlib.MD5.to_int word) i) words.

(** *** Postings *)

(** The posting with its texts in lower case. *)
Definition lower_job (job : JobPosting) : JobPosting :=
  {| company := company job; title := PyStr.lower (title job);
     source_job_id := source_job_id job; source_system := source_system job;
     source_url := source_url job; apply_url := apply_url job;
     location := option_map PyStr.lower (location job);
     remote_type := remote_type job; employment_type := employment_type job;
     department := option_map PyStr.lower (department job); team := team job;
     posted_at := posted_at job; updated_at := updated_at job;
     description_html := description_html job;
     description_text := option_map PyStr.lower (description_text job);
     requirements := map PyStr.lower (requirements job);
     seniority := seniority job; keywords := keywords job |}.

(** *** Runs of the scorer *)

(** A reading of the clock: not a call of the provider. *)
Definition is_now (ev : event) : bool :=
  match ev with Now _ => true | _ => false end.

(** The threshold [score_batch] uses. *)
Definition batch_threshold (self : Scorer.t) (min_score : option R) : R :=
  match min_score with
  | Some m => m
  | None => min_score_threshold (Scorer.profile self)
  end.

(** *** Identifiers *)


(** A digit of a lower-case hexadecimal numeral. *)
Definition hex_char (c : ascii) : bool :=
  PyStr.isdigit c || ((97 <=? PyStr.code c) && (PyStr.code c <=? 102))%N.


(** ** freshroles/matching/time_filter.py

    [now] is what [datetime.now(timezone.utc)] returns at the call. *)

Module TimeFilter.

(** What a call ends with: a value, a [ValueError] or an [OverflowError]. *)
Inductive result (A : Type) : Type :=
| Value (a : A)
| ValueError
| OverflowError.

Arguments Value {A} a.
Arguments ValueError {A}.
Arguments OverflowError {A}.

Definition and_then {A B : Type} (m : result A) (k : A -> result B) : result B :=
  match m with
  | Value a => k a
  | ValueError => ValueError
  | OverflowError => OverflowError
  end.

(** The longest prefix of digits, and what follows it. *)
Fixpoint span_digits (s : string) : string * string :=
  match s with
  | EmptyString => (EmptyString, EmptyString)
  | String c t =>
      if PyStr.isdigit c
      then let '(digits, rest) := span_digits t in (String c digits, rest)
      else (EmptyString, s)
  end.

Definition is_unit (c : ascii) : bool :=
  existsb (Ascii.eqb c) (list_ascii_of_string "hdwm").

(** [$]: the end of the text, or the line feed that ends it. *)
Definition at_end (s : string) : bool :=
  match s with
  | EmptyString => true
  | String c EmptyString => Ascii.eqb c "010"
  | _ => false
  end.

(** [re.match(r"^(\d+)([hdwm])$", s)]: the two groups of the match. *)
Definition match_filter (s : string) : option (string * ascii) :=
  match span_digits s with
  | (EmptyString, _) => None
  | (digits, String unit rest) =>
      if is_unit unit && at_end rest then Some (digits, unit) else None
  | (_, EmptyString) => None
  end.

(** [int(digits)] on a text of digits; the interpreter refuses more than
    4300 of them. *)
Definition digit_value (c : ascii) : Z := Z.of_N (PyStr.code c) - 48.

Definition int_of_digits (digits : string) : Z :=
  fold_left (fun acc c => 10 * acc + digit_value c) (list_ascii_of_string digits) 0.

Definition int (digits : string) : result Z :=
  if 4300 <? Z.of_nat (String.length digits) then ValueError
  else Value (int_of_digits digits).

(** [timedelta(hours=...)] and the like, as microseconds: the days of a
    [timedelta] have a magnitude of 999999999 at most. *)
Definition timedelta (microseconds : Z) : result Z :=
  if Z.abs (microseconds / day_us) <=? 999999999 then Value microseconds
  else OverflowError.

Definition parse_time_filter (time_str : string) : result Z :=
  let time_str := PyStr.lower (PyStr.strip time_str) in
  match match_filter time_str with
  | None => ValueError
  | Some (digits, unit) =>
      and_then (int digits) (fun value =>
        if Ascii.eqb unit "h" then timedelta (value * hour_us)
        else if Ascii.eqb unit "d" then timedelta (value * day_us)
        else if Ascii.eqb unit "w" then timedelta (value * 7 * day_us)
        else if Ascii.eqb unit "m" then timedelta (value * 30 * day_us)
        else ValueError)
  end.

(** [datetime.min] and [datetime.max], in microseconds since the epoch. *)
Definition datetime_min_us : Z := - 719162 * day_us.
Definition datetime_max_us : Z := 2932897 * day_us - 1.

(** [now - delta] for an aware [now]. *)
Definition datetime_minus (now : datetime) (delta : Z) : result datetime :=
  let wall := wall_us now - delta in
  if (datetime_min_us <=? wall) && (wall <=? datetime_max_us)
  then Value {| wall_us := wall; utcoffset_us := utcoffset_us now |}
  else OverflowError.

(** [now] is what [datetime.now(timezone.utc)] returns. *)
Definition get_cutoff_time (now : datetime) (time_filter : string) : result datetime :=
  and_then (parse_time_filter time_filter) (fun delta => datetime_minus now delta).

Definition as_utc (posted : datetime) : datetime :=
  match utcoffset_us posted with
  | None => {| wall_us := wall_us posted; utcoffset_us := Some 0 |}
  | Some _ => posted
  end.

Definition filter_jobs_by_time (now : datetime) (jobs : list JobPosting)
    (time_filter : string) : result (list JobPosting) :=
  and_then (get_cutoff_time now time_filter) (fun cutoff =>
    Value (fold_left
             (fun filtered job =>
                match posted_at job with
                | None => (filtered ++ [job])%list
                | Some posted =>
                    let posted := as_utc posted in
                    if instant_us cutoff <=? instant_us posted
                    then (filtered ++ [job])%list else filtered
                end)
             jobs [])).

Definition get_freshness_label (now : datetime) (posted_at : option datetime) : string :=
  match posted_at with
  | None => "❓ Unknown"
  | Some posted =>
      let posted := as_utc posted in
      let age := datetime_sub now posted in
      if age <? 24 * hour_us then "🔥 New (today)"
      else if age <? 3 * day_us then "✨ Fresh (< 3 days)"
      else if age <? 7 * day_us then "📅 This week"
      else if age <? 30 * day_us then "📆 This month"
      else "📦 Older"
  end.

Definition get_freshness_score (now : datetime) (posted_at : option datetime)
    (max_age_days : Z) : R :=
  match posted_at with
  | None => 0.5%R
  | Some posted =>
      let posted := as_utc posted in
      let age := datetime_sub now posted in
      let age_days := (total_seconds age / 86400)%R in
      if Rle_dec age_days 0 then 1%R
      else if Rge_dec age_days (IZR max_age_days) then 0%R
      else (1 - Rpower (age_days / IZR max_age_days) 0.5)%R
  end.

End TimeFilter.



(** The test of the loop of [filter_jobs_by_time] for a window of [delta]. *)
Definition within (now : datetime) (delta : Z) (job : JobPosting) : bool :=
  match posted_at job with
  | None => true
  | Some posted => instant_us now - delta <=? instant_us posted
  end.

(** An undated posting, one of 25 days before the new year and one of the
    hour before it. *)
Definition three_postings : list JobPosting :=
  [engineer_posted None;
   engineer_posted (Some (utc (new_year_2025 - 25 * day_us)));
   engineer_posted (Some (utc (new_year_2025 - hour_us)))].


(** ** freshroles/matching/embeddings/openai.py, ollama.py

    The two providers compare vectors alike.  The arithmetic is exact, as for
    every other [float] here; a [ValueError] of numpy is a [ProviderError]. *)

(** [np.dot] on two arrays of one axis: it raises when their lengths differ. *)
Fixpoint np_dot (v1 v2 : vector) : outcome R :=
  match v1, v2 with
  | [], [] => Returns 0%R
  | x :: v1', y :: v2' =>
      let* rest := np_dot v1' v2' in Returns (x * y + rest)%R
  | _, _ => Raises ProviderError
  end.

(** [np.linalg.norm] *)
Definition np_norm (v : vector) : R :=
  sqrt (fold_right (fun x acc => (x * x + acc)%R) 0%R v).

(** [similarity] of the OpenAI and of the Ollama provider. *)
Definition cosine_similarity (vec1 vec2 : vector) : outcome R :=
  let* dot := np_dot vec1 vec2 in
  let norm1 := np_norm vec1 in
  let norm2 := np_norm vec2 in
  if Req_dec_T norm1 0 then Returns 0%R
  else if Req_dec_T norm2 0 then Returns 0%R
  else Returns (dot / (norm1 * norm2))%R.



(** The sum of the squares of the coordinates. *)
Definition sum_squares (v : vector) : R := fold_right (fun x acc => (x * x + acc)%R) 0%R v.

(** ** freshroles/matching/embeddings/local.py *)

(** [similarity] of the local provider: the dot product alone. *)
Definition local_similarity (vec1 vec2 : vector) : outcome R :=
  np_dot vec1 vec2.


(** ** freshroles/matching/vector_matcher.py *)

Module VectorMatchResult.

Record t : Type := mk {
  job : JobPosting;
  similarity : R;
  rank : Z;
  profile_highlights : list string
}.

(** [result.rank = rank] *)
Definition set_rank (result : t) (rank : Z) : t :=
  {| job := job result; similarity := similarity result; rank := rank;
     profile_highlights := profile_highlights result |}.

End VectorMatchResult.

Module VectorMatcher.

Record t : Type := mk {
  profile : MatchingProfile;
  provider : EmbeddingProvider;
  _profile_embedding : option vector;
  _profile_text : option string
}.

(** [VectorMatcher(profile, embedding_provider)] *)
Definition new (profile : MatchingProfile) (embedding_provider : EmbeddingProvider) : t :=
  {| profile := profile; provider := embedding_provider;
     _profile_embedding := None; _profile_text := None |}.

(** The matcher object and the events so far, oldest first. *)
Definition state : Type := (t * list event)%type.

Definition M (A : Type) : Type := state -> outcome A * state.

Definition ret {A : Type} (a : A) : M A := fun s => (Returns a, s).

Definition bind {A B : Type} (m : M A) (k : A -> M B) : M B :=
  fun s =>
    match m s with
    | (Returns a, s') => k a s'
    | (Raises e, s') => (Raises e, s')
    end.

Declare Scope matcher_scope.
Delimit Scope matcher_scope with matcher.
Notation "'let*' x ':=' m 'in' k" := (bind m (fun x => k))
  (at level 10, x pattern, m at level 100, k at level 200) : matcher_scope.
Local Open Scope matcher_scope.

Definition get_self : M t := fun s => (Returns (fst s), s).

Definition set_profile_text (text : string) : M unit :=
  fun '(self, tr) =>
    (Returns tt,
     ({| profile := profile self; provider := provider self;
         _profile_embedding := _profile_embedding self;
         _profile_text := Some text |}, tr)).

Definition set_profile_embedding (v : vector) : M unit :=
  fun '(self, tr) =>
    (Returns tt,
     ({| profile := profile self; provider := provider self;
         _profile_embedding := Some v;
         _profile_text := _profile_text self |}, tr)).

(** [await self.provider.embed(texts)] *)
Definition call_embed (site : call_site) (texts : list string) : M (list vector) :=
  fun '(self, tr) =>
    let result := embed (provider self) tr texts in
    (result, (self, (tr ++ [Embed site texts result])%list)).

(** [self.provider.similarity(vec1, vec2)] *)
Definition call_similarity (vec1 vec2 : vector) : M R :=
  fun '(self, tr) =>
    let result := similarity (provider self) tr vec1 vec2 in
    (result, (self, (tr ++ [Similarity vec1 vec2 result])%list)).

Definition _build_profile_text (self : t) : string :=
  let parts : list string := [] in
  let parts :=
    match desired_roles (profile self) with
    | [] => parts
    | _ => (parts ++ ["Looking for roles like: "
                      +:+ PyStr.join ", " (desired_roles (profile self))])%list
    end in
  let parts :=
    match must_have_keywords (profile self) with
    | [] => parts
    | _ => (parts ++ ["Required skills: "
                      +:+ PyStr.join ", " (must_have_keywords (profile self))])%list
    end in
  let parts :=
    match preferred_locations (profile self) with
    | [] => parts
    | _ => (parts ++ ["Preferred locations: "
                      +:+ PyStr.join ", " (preferred_locations (profile self))])%list
    end in
  let parts :=
    match remote_preference (profile self) with
    | Some pref =>
        if PyStr.truthy (RemoteType.value pref)
        then (parts ++ ["Work style: " +:+ RemoteType.value pref])%list else parts
    | None => parts
    end in
  PyStr.join " " parts.

Definition _get_profile_embedding : M vector :=
  let* self := get_self in
  match _profile_embedding self with
  | None =>
      let* _ := set_profile_text (_build_profile_text self) in
      let* embeddings := call_embed ProfileText [_build_profile_text self] in
      let v := match embeddings with e :: _ => e | [] => [] end in
      let* _ := set_profile_embedding v in
      ret v
  | Some v => ret v
  end.

Definition _build_job_text (job : JobPosting) : string :=
  let parts := [title job] in
  let parts :=
    match some_text (department job) with
    | Some d => (parts ++ ["Department: " +:+ d])%list
    | None => parts
    end in
  let parts :=
    match some_text (location job) with
    | Some l => (parts ++ ["Location: " +:+ l])%list
    | None => parts
    end in
  let parts :=
    if PyStr.truthy (RemoteType.value (remote_type job))
    then (parts ++ ["Work style: " +:+ RemoteType.value (remote_type job)])%list
    else parts in
  let parts :=
    match some_text (description_text job) with
    | Some d => let desc := Hashlib.take 2000 d in (parts ++ [desc])%list
    | None => parts
    end in
  let parts :=
    match requirements job with
    | [] => parts
    | _ => (parts ++ ["Requirements: "
                      +:+ PyStr.join ", " (firstn 10 (requirements job))])%list
    end in
  PyStr.join " " parts.

Definition compute_similarity (job : JobPosting) : M R :=
  let* self := get_self in
  if is_no_embedding (provider self) then ret 0.5%R
  else
    let* profile_emb := _get_profile_embedding in
    match profile_emb with
    | [] => ret 0.5%R
    | _ =>
        let job_text := _build_job_text job in
        let* job_embeddings := call_embed JobText [job_text] in
        match job_embeddings with
        | [] => ret 0.5%R
        | job_embedding :: _ =>
            let* raw_sim := call_similarity profile_emb job_embedding in
            ret ((raw_sim + 1) / 2)%R
        end
    end.

Definition _extract_highlights (self : t) (job : JobPosting) : list string :=
  let highlights : list string := [] in
  let or_empty (x : option string) :=
    match some_text x with Some s => s | None => "" end in
  let job_text :=
    PyStr.lower (title job +:+ " " +:+ or_empty (description_text job)
                 +:+ " " +:+ or_empty (location job)) in
  let highlights :=
    fold_left
      (fun highlights keyword =>
         if PyStr.contains (PyStr.lower keyword) job_text
         then (highlights ++ ["Contains: " +:+ keyword])%list else highlights)
      (must_have_keywords (profile self)) highlights in
  let highlights :=
    match find (fun role => PyStr.contains (PyStr.lower role) (PyStr.lower (title job)))
               (desired_roles (profile self)) with
    | Some role => (highlights ++ ["Role match: " +:+ role])%list
    | None => highlights
    end in
  let highlights :=
    match some_text (location job) with
    | Some location =>
        match find (fun loc => PyStr.contains (PyStr.lower loc) (PyStr.lower location))
                   (preferred_locations (profile self)) with
        | Some loc => (highlights ++ ["Location: " +:+ loc])%list
        | None => highlights
        end
    | None => highlights
    end in
  let highlights :=
    match remote_preference (profile self) with
    | Some pref =>
        if RemoteType.eqb pref (remote_type job)
        then (highlights ++ ["Remote: " +:+ RemoteType.value (remote_type job)])%list
        else highlights
    | None => highlights
    end in
  firstn 5 highlights.

(** The loop of [match_jobs] over [enumerate(jobs)], from index [i] on. *)
Fixpoint similarity_loop (self : t) (profile_emb : vector) (min_similarity : R)
    (job_embeddings : list vector) (i : nat) (jobs : list JobPosting)
    (results : list VectorMatchResult.t) : M (list VectorMatchResult.t) :=
  match jobs with
  | [] => ret results
  | job :: rest =>
      match job_embeddings !! i with
      | Some job_embedding =>
          let* sim := call_similarity profile_emb job_embedding in
          let sim := ((sim + 1) / 2)%R in
          if Rge_dec sim min_similarity then
            let highlights := _extract_highlights self job in
            similarity_loop self profile_emb min_similarity job_embeddings (S i) rest
              (results ++ [{| VectorMatchResult.job := job;
                              VectorMatchResult.similarity := sim;
                              VectorMatchResult.rank := 0;
                              VectorMatchResult.profile_highlights := highlights |}])%list
          else
            similarity_loop self profile_emb min_similarity job_embeddings (S i) rest
              results
      | None =>
          similarity_loop self profile_emb min_similarity job_embeddings (S i) rest results
      end
  end.

(** [for i, result in enumerate(results): result.rank = i + 1] *)
Definition assign_ranks (results : list VectorMatchResult.t) : list VectorMatchResult.t :=
  imap (fun i result => VectorMatchResult.set_rank result (Z.of_nat i + 1)) results.

Definition match_jobs (jobs : list JobPosting) (min_similarity : R)
  : M (list VectorMatchResult.t) :=
  let* self := get_self in
  if is_no_embedding (provider self) then
    ret (imap (fun i job =>
                 {| VectorMatchResult.job := job;
                    VectorMatchResult.similarity := 0.5;
                    VectorMatchResult.rank := Z.of_nat i + 1;
                    VectorMatchResult.profile_highlights := ["Embeddings not available"] |})
              jobs)
  else
    let* profile_emb := _get_profile_embedding in
    match profile_emb with
    | [] => ret []
    | _ =>
        let job_texts := map _build_job_text jobs in
        let* job_embeddings := call_embed JobText job_texts in
        let* results :=
          similarity_loop self profile_emb min_similarity job_embeddings 0 jobs [] in
        ret (assign_ranks (sort_desc VectorMatchResult.similarity results))
    end.

End VectorMatcher.

(** The ranks 1, 2, ... of a list of results. *)
Definition ranks_from_one (results : list VectorMatchResult.t) : Prop :=
  map VectorMatchResult.rank results
  = map (fun i => Z.of_nat i + 1) (seq 0 (length results)).

(** The matcher after [_get_profile_embedding] has set the profile text. *)
Definition with_profile_text (self : VectorMatcher.t) : VectorMatcher.t :=
  {| VectorMatcher.profile := VectorMatcher.profile self;
     VectorMatcher.provider := VectorMatcher.provider self;
     VectorMatcher._profile_embedding := VectorMatcher._profile_embedding self;
     VectorMatcher._profile_text := Some (VectorMatcher._build_profile_text self) |}.


(** The calls of [embed] and the calls of [similarity] among some events. *)
Definition embed_calls (events : list event) : nat :=
  length (List.filter (fun ev => match ev with Embed _ _ _ => true | _ => false end) events).

Definition similarity_calls (events : list event) : nat :=
  length (List.filter (fun ev => match ev with Similarity _ _ _ => true | _ => false end)
                      events).

(** * Properties *)

(** ** hashlib: the digests of the reference messages *)

Example md5_empty : Hashlib.MD5.hexdigest "" = "d41d8cd98f00b204e9800998ecf8427e".
Proof. vm_compute. reflexivity. Qed.

Example md5_abc : Hashlib.MD5.hexdigest "abc" = "900150983cd24fb0d6963f7d28e17f72".
Proof. vm_compute. reflexivity. Qed.

Example md5_two_blocks :
  Hashlib.MD5.hexdigest "xxxxxxxxxxxxxxxxxxxxxxxxxxxxxxxxxxxxxxxxxxxxxxxxxxxxxxxx"
  = "668a72d5ba17f08e62dabcafad6db14b".
Proof. vm_compute. reflexivity. Qed.

Example sha256_abc :
  Hashlib.SHA256.hexdigest "abc"
  = "ba7816bf8f01cfea414140de5dae2223b00361a396177a9cb410ff61f20015ad".
Proof. vm_compute. reflexivity. Qed.

(** The texts of [TestSimhash]: ten bits apart, and twenty-eight. *)
Example simhash_similar_texts :
  hamming_distance (simhash "Software Engineer position in San Francisco" 64)
                   (simhash "Software Engineer role in San Francisco Bay Area" 64) 64
  = 10.
Proof. vm_compute. reflexivity. Qed.

Example simhash_different_texts :
  hamming_distance (simhash "Software Engineer position in San Francisco" 64)
                   (simhash "Product Manager role in New York" 64) 64
  = 28.
Proof. vm_compute. reflexivity. Qed.

(** ** The fingerprint of a text without words *)

Lemma lower_char_not_word (c : ascii) :
  PyStr.is_word c = false -> PyStr.lower_char c = c.
Proof.
  unfold PyStr.is_word, PyStr.lower_char. intros H.
  destruct (PyStr.isupper c); [discriminate|reflexivity].
Qed.

Lemma lower_no_word_char (s : string) : no_word_char s -> PyStr.lower s = s.
Proof.
  unfold no_word_char, PyStr.lower.
  induction s as [|c s IH]; cbn [PyStr.sfilter PyStr.smap]; [reflexivity|].
  destruct (PyStr.is_word c) eqn:E; [discriminate|].
  intros H. rewrite (lower_char_not_word _ E), (IH H). reflexivity.
Qed.

Lemma keep_blank (s : string) :
  no_word_char s ->
  blank (PyStr.sfilter (fun c => PyStr.is_word c || PyStr.isspace c) s).
Proof.
  unfold no_word_char, blank. induction s as [|c s IH]; simpl; [reflexivity|].
  destruct (PyStr.is_word c) eqn:E; [discriminate|]. simpl.
  intros H. destruct (PyStr.isspace c) eqn:S; simpl; [rewrite S; simpl|]; auto.
Qed.

Lemma collapse_blank (s : string) (in_run : bool) :
  blank s -> blank (PyStr.collapse_ws in_run s).
Proof.
  unfold blank. revert in_run. induction s as [|c s IH]; simpl; intros b; [reflexivity|].
  destruct (PyStr.isspace c) eqn:S; simpl; [|discriminate].
  intros H. destruct b; simpl; auto.
Qed.

Lemma lstrip_blank (s : string) : blank s -> PyStr.lstrip s = "".
Proof.
  unfold blank. induction s as [|c s IH]; simpl; [reflexivity|].
  destruct (PyStr.isspace c) eqn:S; simpl; [auto|discriminate].
Qed.

Lemma normalize_no_word_char (text : string) :
  no_word_char text -> normalize_text text = "".
Proof.
  intros H. unfold normalize_text, PyStr.strip.
  rewrite (lower_no_word_char _ H).
  rewrite lstrip_blank; [reflexivity|].
  apply collapse_blank, keep_blank, H.
Qed.

Lemma count_ones_xor_self (h : Z) : count_ones (Z.lxor h h) = 0.
Proof. rewrite Z.lxor_nilpotent. reflexivity. Qed.

Lemma simhash_similarity_defined (h1 h2 bits : Z) :
  bits <> 0 ->
  simhash_similarity h1 h2 bits
  = Returns (1 - IZR (hamming_distance h1 h2 bits) / IZR bits)%R.
Proof.
  intros H. unfold simhash_similarity.
  destruct (Z.eqb_spec bits 0); [contradiction|reflexivity].
Qed.

(** C9, as stated, fails for the bit width 0: the division raises. *)
Lemma similarity_zero_width_raises :
  simhash_similarity 5 5 0 = Raises ZeroDivisionError.
Proof. reflexivity. Qed.

(** C9 (amended): a text without a word character normalizes to no words; the
    fingerprint of a text that normalizes to no words is 0, whatever the
    width; a fingerprint is at similarity 1 from itself for every bit width
    but 0; so two empty texts are at similarity 1. *)
Theorem simhash_no_words_self_similar :
  forall (text : string) (hash_bits h bits : Z),
    (no_word_char text -> PyStr.split (normalize_text text) = []) /\
    (PyStr.split (normalize_text text) = [] -> simhash text hash_bits = 0) /\
    (bits <> 0 -> simhash_similarity h h bits = Returns 1%R) /\
    simhash_similarity (simhash "" 64) (simhash "" 64) 64 = Returns 1%R.
Proof.
  intros text hash_bits h bits. repeat split.
  - intros H. rewrite (normalize_no_word_char _ H). reflexivity.
  - intros H. unfold simhash. rewrite H. reflexivity.
  - intros H. rewrite simhash_similarity_defined by assumption.
    unfold hamming_distance. rewrite count_ones_xor_self.
    f_equal. unfold Rdiv. rewrite Rmult_0_l. lra.
  - rewrite simhash_similarity_defined by discriminate.
    unfold hamming_distance. rewrite count_ones_xor_self.
    f_equal. lra.
Qed.

Lemma simhash_no_words_self_similar_witness :
  no_word_char " ,.! " /\
  PyStr.split (normalize_text " ,.! ") = [] /\
  64 <> 0 /\
  simhash " ,.! " 64 = 0 /\
  simhash_similarity 1245254569825939131 1245254569825939131 64 = Returns 1%R.
Proof.
  destruct (simhash_no_words_self_similar " ,.! " 64 1245254569825939131 64)
    as (Hwords & Hzero & Hself & _).
  assert (Hnw : no_word_char " ,.! ") by reflexivity.
  assert (Hbits : 64 <> 0) by discriminate.
  split; [exact Hnw|]. split; [exact (Hwords Hnw)|]. split; [exact Hbits|].
  split; [exact (Hzero (Hwords Hnw))|exact (Hself Hbits)].
Defined.

(** ** The deduplicator *)

Lemma fuzzy_scan_absent thr k ch (items : list (string * Z)) :
  k ∉ items.*1 -> fuzzy_scan thr k ch items = Returns false.
Proof.
  induction items as [|[k' h] items IH]; simpl; intros H; [reflexivity|].
  apply not_elem_of_cons in H as [Hne Hin].
  destruct (String.eqb_spec k' k) as [->|_]; [contradiction|]. auto.
Qed.

Lemma fuzzy_scan_items thr k ch (items : list (string * Z)) :
  NoDup (items.*1) ->
  fuzzy_scan thr k ch items
  = Returns (match (list_to_map items : gmap string Z) !! k with
             | Some h => similar thr ch h
             | None => false
             end).
Proof.
  induction items as [|[k' h] items IH]; simpl; intros H; [reflexivity|].
  apply NoDup_cons in H as [Hnotin Hnd].
  destruct (String.eqb_spec k' k) as [->|Hne].
  - rewrite lookup_insert_eq. unfold similar.
    destruct (Rle_dec _ _); [reflexivity|].
    apply fuzzy_scan_absent, Hnotin.
  - rewrite lookup_insert_ne by assumption. auto.
Qed.

Lemma fuzzy_scan_lookup (d : Deduplicator) (job : JobPosting) :
  fuzzy_scan (similarity_threshold d) (_get_fuzzy_key job) (_get_content_hash job)
             (map_to_list (_seen_hashes d))
  = Returns (fuzzy_match d job).
Proof.
  rewrite fuzzy_scan_items by apply NoDup_fst_map_to_list.
  rewrite list_to_map_to_list. reflexivity.
Qed.

Lemma is_duplicate_spec (d : Deduplicator) (job : JobPosting) :
  is_duplicate d job
  = Returns (if bool_decide (_get_exact_key job ∈ _seen_ids d) then (true, d)
             else if exists_in_database d job then (true, d)
             else if fuzzy_match d job then (true, d)
             else (false, remember d job)).
Proof.
  unfold is_duplicate.
  destruct (bool_decide _); [reflexivity|].
  destruct (exists_in_database d job); [reflexivity|].
  rewrite fuzzy_scan_lookup. simpl.
  destruct (fuzzy_match d job); reflexivity.
Qed.

Lemma dedupe_from_app (l1 l2 : list JobPosting) :
  forall d acc,
    dedupe_from d (l1 ++ l2) acc
    = (let* (unique, d') := dedupe_from d l1 acc in dedupe_from d' l2 unique)%outcome.
Proof.
  induction l1 as [|j l1 IH]; intros d acc; simpl; [reflexivity|].
  rewrite is_duplicate_spec. simpl.
  destruct (bool_decide _); simpl; [apply IH|].
  destruct (exists_in_database d j); simpl; [apply IH|].
  destruct (fuzzy_match d j); simpl; apply IH.
Qed.

Lemma dedupe_from_latest (jobs : list JobPosting) :
  forall d acc, exists news d',
    dedupe_from d jobs acc = Returns ((acc ++ news)%list, d') /\
    similarity_threshold d' = similarity_threshold d /\
    forall k, _seen_hashes d' !! k
              = match latest_fingerprint k news with
                | Some h => Some h
                | None => _seen_hashes d !! k
                end.
Proof.
  induction jobs as [|j jobs IH]; intros d acc; simpl.
  - exists [], d. rewrite app_nil_r. auto.
  - rewrite is_duplicate_spec. simpl.
    assert (Hskip : exists news d',
               dedupe_from d jobs acc = Returns ((acc ++ news)%list, d') /\
               similarity_threshold d' = similarity_threshold d /\
               forall k, _seen_hashes d' !! k
                         = match latest_fingerprint k news with
                           | Some h => Some h
                           | None => _seen_hashes d !! k
                           end) by apply IH.
    destruct (bool_decide _); simpl; [exact Hskip|].
    destruct (exists_in_database d j); simpl; [exact Hskip|].
    destruct (fuzzy_match d j); simpl; [exact Hskip|].
    destruct (IH (remember d j) (acc ++ [j])%list) as (news & d' & Hrun & Hthr & Hmap).
    exists (j :: news), d'. split; [|split].
    + rewrite Hrun, <- app_assoc. reflexivity.
    + rewrite Hthr. reflexivity.
    + intros k. rewrite Hmap. simpl.
      destruct (latest_fingerprint k news); [reflexivity|].
      destruct (String.eqb_spec (_get_fuzzy_key j) k) as [->|Hne].
      * apply lookup_insert_eq.
      * apply lookup_insert_ne, Hne.
Qed.

(** C7: after any sequence of calls of [is_duplicate] on a new deduplicator
    (the calls [dedupe] makes, one for each job), the items of the fuzzy-key
    map hold each key once; the fingerprint stored under a key is the one of
    the job most recently recorded with that key; and the fuzzy loop on a new
    job answers as the comparison with that one fingerprint does. *)
Theorem fuzzy_map_keeps_latest_fingerprint :
  forall (threshold : R) (job_exists_fn : option (string -> bool)) (jobs : list JobPosting),
  exists (recorded : list JobPosting) (d : Deduplicator),
    dedupe (new_deduplicator threshold job_exists_fn) jobs = Returns (recorded, d) /\
    NoDup (map fst (map_to_list (_seen_hashes d))) /\
    (forall fuzzy_key : string,
        _seen_hashes d !! fuzzy_key = latest_fingerprint fuzzy_key recorded) /\
    (forall job : JobPosting,
        fuzzy_scan (similarity_threshold d) (_get_fuzzy_key job) (_get_content_hash job)
                   (map_to_list (_seen_hashes d))
        = Returns (match latest_fingerprint (_get_fuzzy_key job) recorded with
                   | Some h => similar threshold (_get_content_hash job) h
                   | None => false
                   end)).
Proof.
  intros threshold f jobs.
  destruct (dedupe_from_latest jobs (new_deduplicator threshold f) [])
    as (news & d & Hrun & Hthr & Hmap).
  assert (Hlook : forall k, _seen_hashes d !! k = latest_fingerprint k news).
  { intros k. rewrite Hmap. simpl. rewrite lookup_empty.
    destruct (latest_fingerprint k news); reflexivity. }
  exists news, d. repeat split.
  - exact Hrun.
  - apply NoDup_fst_map_to_list.
  - exact Hlook.
  - intros job. rewrite fuzzy_scan_lookup. unfold fuzzy_match.
    rewrite Hlook, Hthr. reflexivity.
Qed.

Lemma seen_after (jobs : list JobPosting) :
  forall d j, j ∈ jobs -> _get_exact_key j ∈ _seen_ids (fold_left remember jobs d).
Proof.
  assert (Hmono : forall jobs d k, k ∈ _seen_ids d -> k ∈ _seen_ids (fold_left remember jobs d)).
  { clear. induction jobs as [|j' jobs IH]; intros d k H; simpl; [exact H|].
    apply IH. simpl. set_solver. }
  induction jobs as [|j' jobs IH]; intros d j Hin; simpl in *.
  - apply elem_of_nil in Hin. contradiction.
  - apply elem_of_cons in Hin as [->|Hin]; [|apply IH, Hin].
    apply Hmono. simpl. set_solver.
Qed.

Lemma dedupe_from_fresh (jobs : list JobPosting) :
  forall d acc,
    NoDup (map _get_exact_key jobs) ->
    NoDup (map _get_fuzzy_key jobs) ->
    (forall j, j ∈ jobs ->
               (_get_exact_key j ∉ _seen_ids d) /\
               exists_in_database d j = false /\
               _seen_hashes d !! _get_fuzzy_key j = None) ->
    dedupe_from d jobs acc = Returns ((acc ++ jobs)%list, fold_left remember jobs d).
Proof.
  induction jobs as [|j jobs IH]; intros d acc Hex Hfz Hnew; simpl.
  - rewrite app_nil_r. reflexivity.
  - rewrite is_duplicate_spec.
    destruct (Hnew j (list_elem_of_here _ _)) as (Hseen & Hdb & Hfuzzy).
    rewrite bool_decide_eq_false_2 by exact Hseen.
    rewrite Hdb. unfold fuzzy_match at 1. rewrite Hfuzzy. simpl.
    inversion Hex as [|? ? Hex1 Hex2]; subst.
    inversion Hfz as [|? ? Hfz1 Hfz2]; subst.
    rewrite IH; [rewrite <- app_assoc; reflexivity|assumption|assumption|].
    intros j' Hin. destruct (Hnew j' (list_elem_of_further _ _ _ Hin)) as (Hs & Hd & Hf).
    split; [|split].
    + simpl. intros [Heq%elem_of_singleton|?]%elem_of_union; [|contradiction].
      apply Hex1. rewrite <- Heq. apply list_elem_of_fmap_2, Hin.
    + exact Hd.
    + simpl. rewrite lookup_insert_ne; [exact Hf|].
      intros Heq. apply Hfz1. rewrite Heq. apply list_elem_of_fmap_2, Hin.
Qed.

(** C4 (amended): when [is_duplicate] answers false on a posting, the next
    call on a posting with the same company, source system and source job id
    answers true, in every state.  And on a new deduplicator, for postings
    that no external check knows and whose exact keys and fuzzy keys are
    pairwise distinct, followed by a copy of the first, [dedupe] returns the
    postings without the copy, in the order of the input. *)
Theorem exact_copy_is_duplicate :
  (forall (d d1 : Deduplicator) (j1 j2 : JobPosting),
      company j1 = company j2 ->
      source_system j1 = source_system j2 ->
      source_job_id j1 = source_job_id j2 ->
      is_duplicate d j1 = Returns (false, d1) ->
      is_duplicate d1 j2 = Returns (true, d1)) /\
  (forall (threshold : R) (job_exists_fn : option (string -> bool))
          (first : JobPosting) (rest : list JobPosting),
      NoDup (map _get_exact_key (first :: rest)) ->
      NoDup (map _get_fuzzy_key (first :: rest)) ->
      (forall j, j ∈ first :: rest ->
                 exists_in_database (new_deduplicator threshold job_exists_fn) j = false) ->
      exists d', dedupe (new_deduplicator threshold job_exists_fn) (first :: rest ++ [first])
                 = Returns (first :: rest, d')).
Proof.
  split.
  - intros d d1 j1 j2 Hc Hs Hi Hfirst.
    rewrite is_duplicate_spec in Hfirst.
    assert (Hkey : _get_exact_key j2 = _get_exact_key j1).
    { unfold _get_exact_key. rewrite Hc, Hs, Hi. reflexivity. }
    destruct (bool_decide _); [discriminate|].
    destruct (exists_in_database d j1); [discriminate|].
    destruct (fuzzy_match d j1); [discriminate|].
    injection Hfirst as <-.
    rewrite is_duplicate_spec, Hkey.
    rewrite bool_decide_eq_true_2; [reflexivity|]. simpl. set_solver.
  - intros threshold f first rest Hex Hfz Hdb.
    exists (fold_left remember (first :: rest) (new_deduplicator threshold f)).
    unfold dedupe. change (first :: rest ++ [first])%list with ((first :: rest) ++ [first])%list.
    rewrite dedupe_from_app, dedupe_from_fresh; try assumption.
    + cbn [bind_outcome app dedupe_from]. rewrite is_duplicate_spec.
      rewrite bool_decide_eq_true_2; [reflexivity|].
      apply seen_after. left.
    + intros j Hin. split; [|split].
      * simpl. set_solver.
      * apply Hdb, Hin.
      * simpl. apply lookup_empty.
Qed.

Lemma similar_true (threshold : R) (content_hash seen_hash : Z) :
  (threshold <= 1 - IZR (hamming_distance content_hash seen_hash 64) / 64)%R ->
  similar threshold content_hash seen_hash = true.
Proof. intros H. unfold similar. destruct (Rle_dec _ _); [reflexivity|contradiction]. Qed.

Lemma similar_false (threshold : R) (content_hash seen_hash : Z) :
  (1 - IZR (hamming_distance content_hash seen_hash 64) / 64 < threshold)%R ->
  similar threshold content_hash seen_hash = false.
Proof. intros H. unfold similar. destruct (Rle_dec _ _); [lra|reflexivity]. Qed.

Lemma similar_self (threshold : R) (h : Z) :
  (threshold <= 1)%R -> similar threshold h h = true.
Proof.
  intros H. apply similar_true. unfold hamming_distance.
  rewrite count_ones_xor_self. lra.
Qed.

(** Postings that share the fuzzy key and the fingerprint of a recorded one
    are dropped, whatever their exact keys. *)
Lemma dedupe_from_reposts (first : JobPosting) (rest : list JobPosting) :
  forall d acc,
    (similarity_threshold d <= 1)%R ->
    _seen_hashes d !! _get_fuzzy_key first = Some (_get_content_hash first) ->
    Forall (fun j => _get_fuzzy_key j = _get_fuzzy_key first /\
                     _get_content_hash j = _get_content_hash first) rest ->
    dedupe_from d rest acc = Returns (acc, d).
Proof.
  induction rest as [|j rest IH]; intros d acc Hthr Hseen Hall; [reflexivity|].
  apply Forall_cons in Hall as [[Hkey Hhash] Hall].
  cbn [dedupe_from]. rewrite is_duplicate_spec.
  assert (Hfuzzy : fuzzy_match d j = true).
  { unfold fuzzy_match. rewrite Hkey, Hseen, Hhash. apply similar_self, Hthr. }
  rewrite Hfuzzy.
  destruct (bool_decide _); [|destruct (exists_in_database d j)];
    cbn [bind_outcome]; apply IH; assumption.
Qed.

(** C4, as stated, fails: five postings with five different job ids and the
    same title, no location and no description are pairwise distinct, and
    [dedupe] keeps the first of them only. *)
Lemma dedupe_drops_reposts :
  NoDup (map _get_exact_key five_reposts) /\
  dedupe new_session (five_reposts ++ [plain_engineer "0"])
  = Returns ([plain_engineer "0"], remember new_session (plain_engineer "0")).
Proof.
  split.
  - apply (bool_decide_unpack _). vm_compute. exact I.
  - unfold dedupe. change (five_reposts ++ [plain_engineer "0"])%list
      with (plain_engineer "0"
              :: (map plain_engineer ["1"; "2"; "3"; "4"] ++ [plain_engineer "0"]))%list.
    cbn [dedupe_from]. rewrite is_duplicate_spec.
    replace (bool_decide (_get_exact_key (plain_engineer "0") ∈ _seen_ids new_session))
      with false by (vm_compute; reflexivity).
    replace (exists_in_database new_session (plain_engineer "0"))
      with false by reflexivity.
    replace (fuzzy_match new_session (plain_engineer "0")) with false by reflexivity.
    cbn [bind_outcome app].
    apply (dedupe_from_reposts (plain_engineer "0")).
    + change (0.85 <= 1)%R. lra.
    + cbn [remember _seen_hashes]. apply lookup_insert_eq.
    + repeat constructor.
Qed.

Lemma exact_copy_is_duplicate_witness :
  company engineer_123 = company engineer_123 /\
  source_system engineer_123 = source_system engineer_123 /\
  source_job_id engineer_123 = source_job_id engineer_123 /\
  is_duplicate new_session engineer_123
  = Returns (false, remember new_session engineer_123) /\
  NoDup (map _get_exact_key five_jobs) /\
  NoDup (map _get_fuzzy_key five_jobs) /\
  (forall j, j ∈ five_jobs -> exists_in_database new_session j = false) /\
  is_duplicate (remember new_session engineer_123) engineer_123
  = Returns (true, remember new_session engineer_123) /\
  exists d', dedupe new_session (five_jobs ++ [numbered_engineer "0"])
             = Returns (five_jobs, d').
Proof.
  assert (H1 : is_duplicate new_session engineer_123
               = Returns (false, remember new_session engineer_123))
    by (vm_compute; reflexivity).
  assert (H2 : NoDup (map _get_exact_key five_jobs))
    by (apply (bool_decide_unpack _); vm_compute; exact I).
  assert (H3 : NoDup (map _get_fuzzy_key five_jobs))
    by (apply (bool_decide_unpack _); vm_compute; exact I).
  assert (H4 : forall j, j ∈ five_jobs -> exists_in_database new_session j = false)
    by reflexivity.
  pose proof (proj1 exact_copy_is_duplicate new_session
                (remember new_session engineer_123) engineer_123 engineer_123
                eq_refl eq_refl eq_refl H1) as Hdup.
  pose proof (proj2 exact_copy_is_duplicate 0.85%R None
                (numbered_engineer "0") (map numbered_engineer ["1"; "2"; "3"; "4"])
                H2 H3 H4) as Hfive.
  repeat (split; [first [reflexivity | assumption]|]).
  exact Hfive.
Defined.

(** The fuzzy check of a new job looks at one fingerprint, not at the history:
    a posting identical in text to the first of three with the same title is
    kept, because a different posting with that title was recorded between. *)
Example fuzzy_check_forgets_older_postings :
  exists d,
    dedupe new_session
      [described_engineer "1" "Python backend developer position";
       described_engineer "2" "Sales manager for retail stores";
       described_engineer "3" "Python backend developer position"]
    = Returns ([described_engineer "1" "Python backend developer position";
                described_engineer "2" "Sales manager for retail stores";
                described_engineer "3" "Python backend developer position"], d).
Proof.
  set (a := described_engineer "1" "Python backend developer position").
  set (b := described_engineer "2" "Sales manager for retail stores").
  set (c := described_engineer "3" "Python backend developer position").
  assert (Hab : hamming_distance (_get_content_hash b) (_get_content_hash a) 64 = 25)
    by (vm_compute; reflexivity).
  assert (Hcb : hamming_distance (_get_content_hash c) (_get_content_hash b) 64 = 25)
    by (vm_compute; reflexivity).
  assert (Hkb : _get_fuzzy_key b = _get_fuzzy_key a) by (vm_compute; reflexivity).
  assert (Hkc : _get_fuzzy_key c = _get_fuzzy_key a) by (vm_compute; reflexivity).
  eexists. unfold dedupe. cbn [dedupe_from].
  (* the first posting is recorded *)
  rewrite (is_duplicate_spec new_session a).
  replace (bool_decide (_get_exact_key a ∈ _seen_ids new_session))
    with false by (vm_compute; reflexivity).
  replace (exists_in_database new_session a) with false by reflexivity.
  replace (fuzzy_match new_session a) with false by reflexivity.
  cbn [bind_outcome app].
  (* the second differs from it *)
  rewrite (is_duplicate_spec (remember new_session a) b).
  replace (bool_decide (_get_exact_key b ∈ _seen_ids (remember new_session a)))
    with false by (vm_compute; reflexivity).
  replace (exists_in_database (remember new_session a) b) with false by reflexivity.
  replace (fuzzy_match (remember new_session a) b) with false.
  2:{ unfold fuzzy_match. cbn [remember _seen_hashes similarity_threshold new_session
                                 new_deduplicator].
      rewrite Hkb, lookup_insert_eq. symmetry. apply similar_false. rewrite Hab. lra. }
  cbn [bind_outcome app].
  (* the third is compared with the second only *)
  rewrite (is_duplicate_spec (remember (remember new_session a) b) c).
  replace (bool_decide (_get_exact_key c ∈ _seen_ids (remember (remember new_session a) b)))
    with false by (vm_compute; reflexivity).
  replace (exists_in_database (remember (remember new_session a) b) c)
    with false by reflexivity.
  replace (fuzzy_match (remember (remember new_session a) b) c) with false.
  2:{ unfold fuzzy_match. cbn [remember _seen_hashes similarity_threshold new_session
                                 new_deduplicator].
      rewrite Hkc, <- Hkb at 1. rewrite lookup_insert_eq.
      symmetry. apply similar_false. rewrite Hcb. lra. }
  cbn [bind_outcome app]. reflexivity.
Qed.

(** ** Sorting by decreasing key *)

Section SortFacts.
Context {A : Type} (key : A -> R).

Lemma insert_desc_perm x l : Permutation (insert_desc key x l) (x :: l).
Proof.
  induction l as [|y l IH]; simpl; [reflexivity|].
  destruct (Rle_dec (key y) (key x)); [reflexivity|].
  rewrite IH. apply perm_swap.
Qed.

Lemma sort_desc_perm l : Permutation (sort_desc key l) l.
Proof.
  induction l as [|x l IH]; simpl; [reflexivity|].
  rewrite insert_desc_perm, IH. reflexivity.
Qed.

Lemma insert_desc_sorted x l :
  StronglySorted (desc key) l -> StronglySorted (desc key) (insert_desc key x l).
Proof.
  induction l as [|y l IH]; simpl; intros Hs.
  - repeat constructor.
  - inversion Hs as [|? ? Hl Hy]; subst.
    destruct (Rle_dec (key y) (key x)) as [Hle|Hgt].
    + constructor; [exact Hs|].
      constructor; [unfold desc; lra|].
      eapply Forall_impl; [exact Hy|]. unfold desc. intros; lra.
    + constructor; [apply IH, Hl|].
      eapply Permutation_Forall; [symmetry; apply insert_desc_perm|].
      constructor; [unfold desc; lra|exact Hy].
Qed.

Lemma sort_desc_sorted l : StronglySorted (desc key) (sort_desc key l).
Proof.
  induction l as [|x l IH]; simpl; [constructor|].
  apply insert_desc_sorted, IH.
Qed.

Lemma insert_desc_stable v x l :
  List.filter (has_key key v) (insert_desc key x l) = List.filter (has_key key v) (x :: l).
Proof.
  induction l as [|y l IH]; [reflexivity|].
  cbn [insert_desc]. destruct (Rle_dec (key y) (key x)) as [Hle|Hgt]; [reflexivity|].
  cbn [List.filter] in *. rewrite IH. unfold has_key.
  destruct (Req_dec_T (key x) v), (Req_dec_T (key y) v); try reflexivity. lra.
Qed.

Lemma sort_desc_stable v l :
  List.filter (has_key key v) (sort_desc key l) = List.filter (has_key key v) l.
Proof.
  induction l as [|x l IH]; [reflexivity|].
  cbn [sort_desc fold_right]. fold (sort_desc key l).
  rewrite insert_desc_stable. cbn [List.filter]. rewrite IH. reflexivity.
Qed.
End SortFacts.

(** ** The keyword scorer *)


Lemma matched_ratio_bounds {A : Type} (f : A -> bool) (l : list A) :
  l <> [] ->
  (0 <= INR (length (List.filter f l)) / INR (length l) <= 1)%R /\
  (List.filter f l <> [] -> 0 < INR (length (List.filter f l)) / INR (length l))%R.
Proof.
  intros Hl.
  assert (Hlen : (0 < length l)%nat) by (destruct l; [contradiction|simpl; lia]).
  assert (Hle : (length (List.filter f l) <= length l)%nat) by apply List.filter_length_le.
  apply lt_INR in Hlen. apply le_INR in Hle. simpl in Hlen.
  pose proof (pos_INR (length (List.filter f l))) as Hpos.
  assert (Hinv : (0 < / INR (length l))%R) by (apply Rinv_0_lt_compat; lra).
  assert (Hone : (INR (length l) * / INR (length l) = 1)%R) by (apply Rinv_r; lra).
  unfold Rdiv. split.
  - split; [apply Rmult_le_pos; lra|].
    rewrite <- Hone. apply Rmult_le_compat_r; lra.
  - intros Hm.
    assert (Hm' : (0 < length (List.filter f l))%nat)
      by (destruct (List.filter f l); [contradiction|simpl; lia]).
    apply lt_INR in Hm'. simpl in Hm'. apply Rmult_lt_0_compat; lra.
Qed.

Lemma app_not_nil_r {A : Type} (l : list A) (x : A) : (l ++ [x])%list <> [].
Proof. destruct l; discriminate. Qed.

Lemma accumulate_spec (self : KeywordScorer.t) (job : JobPosting) :
  (0 <= fst (KeywordScorer.accumulate self job) <= 1)%R /\
  (snd (KeywordScorer.accumulate self job) <> [] ->
   0 < fst (KeywordScorer.accumulate self job))%R.
Proof.
  unfold KeywordScorer.accumulate.
  set (found := fun p => PyStr.search p (get_searchable_text job)).
  assert (Hratio := matched_ratio_bounds found (KeywordScorer._must_have self)).
  set (matched := List.filter found (KeywordScorer._must_have self)) in *.
  set (ratio := (INR (length matched) / INR (length (KeywordScorer._must_have self)))%R) in *.
  assert (Hmatched : matched = [] -> ratio = 0%R).
  { intros E. unfold ratio. rewrite E. simpl. unfold Rdiv. apply Rmult_0_l. }
  destruct (first_match _ _) as [role|];
    destruct (KeywordScorer._must_have self) as [|kw kws] eqn:Hmh;
    destruct (some_text (location job)) as [loc|];
    destruct (preferred_locations (KeywordScorer.profile self)) as [|pl pls];
    try destruct (find _ _) as [pref|];
    destruct (remote_preference (KeywordScorer.profile self)) as [pref_remote|];
    try destruct (RemoteType.eqb _ _);
    cbv beta iota zeta; cbn [fst snd app];
    try (destruct Hratio as [[Hr0 Hr1] Hrpos]; [discriminate|]);
    try (destruct matched as [|m ms] eqn:Hm;
         [rewrite (Hmatched eq_refl) in *|specialize (Hrpos ltac:(discriminate))];
         cbn [map app]);
    (split;
     [unfold Rmin; destruct (Rle_dec _ _); lra
     |intros Hreasons; try (exfalso; apply Hreasons; reflexivity);
      unfold Rmin; destruct (Rle_dec _ _); lra]).
Qed.

Lemma first_match_compiled_some (kws : list string) (text : string) (p : PyStr.Pattern) :
  first_match (map PyStr.compile_word kws) text = Some p ->
  exists before phrase after,
    kws = (before ++ phrase :: after)%list /\
    p = PyStr.compile_word phrase /\
    Forall (fun kw => PyStr.search (PyStr.compile_word kw) text = false) before /\
    PyStr.search (PyStr.compile_word phrase) text = true.
Proof.
  unfold first_match. induction kws as [|kw kws IH]; simpl; [discriminate|].
  destruct (PyStr.search (PyStr.compile_word kw) text) eqn:E.
  - intros [= <-]. exists [], kw, kws. auto.
  - intros H. destruct (IH H) as (before & phrase & after & -> & -> & Hb & Hm).
    exists (kw :: before), phrase, after. auto.
Qed.

Lemma first_match_compiled_none (kws : list string) (text : string) :
  first_match (map PyStr.compile_word kws) text = None <->
  ~ some_phrase_matches kws text.
Proof.
  unfold first_match, some_phrase_matches.
  induction kws as [|kw kws IH]; simpl.
  - split; [intros _ (kw & [] & _)|reflexivity].
  - destruct (PyStr.search (PyStr.compile_word kw) text) eqn:E.
    + split; [discriminate|]. intros H. exfalso. apply H. exists kw. auto.
    + rewrite IH. split; intros H (kw' & Hin & Hm); apply H.
      * destruct Hin as [<-|Hin]; [congruence|]. exists kw'. auto.
      * exists kw'. auto.
Qed.

Lemma keyword_score_excluded (self : KeywordScorer.t) (job : JobPosting) (p : PyStr.Pattern) :
  first_match (KeywordScorer._must_not self) (get_searchable_text job) = Some p ->
  KeywordScorer.score self job
  = (0%R, ["Excluded: contains '" +:+ PyStr.pattern p +:+ "'"]).
Proof. intros H. unfold KeywordScorer.score. rewrite H. reflexivity. Qed.

Lemma keyword_score_accumulate (self : KeywordScorer.t) (job : JobPosting) :
  first_match (KeywordScorer._must_not self) (get_searchable_text job) = None ->
  KeywordScorer.score self job = KeywordScorer.accumulate self job.
Proof. intros H. unfold KeywordScorer.score. rewrite H. reflexivity. Qed.

Lemma keyword_score_bounds (self : KeywordScorer.t) (job : JobPosting) :
  (0 <= fst (KeywordScorer.score self job) <= 1)%R.
Proof.
  destruct (first_match (KeywordScorer._must_not self) (get_searchable_text job))
    as [p|] eqn:E.
  - rewrite (keyword_score_excluded _ _ _ E). simpl. lra.
  - rewrite (keyword_score_accumulate _ _ E). apply accumulate_spec.
Qed.

(** The test of the short circuit succeeds exactly on a must-not match. *)
Lemma short_circuit_spec (self : KeywordScorer.t) (job : JobPosting) :
  Scorer.short_circuit (fst (KeywordScorer.score self job))
                       (snd (KeywordScorer.score self job))
  = match first_match (KeywordScorer._must_not self) (get_searchable_text job) with
    | Some _ => true
    | None => false
    end.
Proof.
  unfold Scorer.short_circuit.
  destruct (first_match (KeywordScorer._must_not self) (get_searchable_text job))
    as [p|] eqn:E.
  - rewrite (keyword_score_excluded _ _ _ E). simpl.
    destruct (Req_dec_T 0 0); [reflexivity|contradiction].
  - rewrite (keyword_score_accumulate _ _ E).
    destruct (accumulate_spec self job) as [_ Hpos].
    destruct (snd (KeywordScorer.accumulate self job)) as [|r rs].
    + apply andb_false_r.
    + specialize (Hpos ltac:(discriminate)).
      destruct (Req_dec_T _ 0); [lra|reflexivity].
Qed.

(** C10: the keyword scorer returns the score 0 with a reason exactly when a
    must-not phrase matches the searchable text; without such a match, a
    result with a reason has a positive score; so the test of the short
    circuit in [Scorer.score] succeeds on the excluded jobs and on no other. *)
Theorem zero_with_reasons_iff_excluded :
  forall (profile : MatchingProfile) (job : JobPosting),
    ((fst (KeywordScorer.score (KeywordScorer.new profile) job) = 0%R /\
      snd (KeywordScorer.score (KeywordScorer.new profile) job) <> []) <->
     some_phrase_matches (must_not_keywords profile) (get_searchable_text job)) /\
    (~ some_phrase_matches (must_not_keywords profile) (get_searchable_text job) ->
     snd (KeywordScorer.score (KeywordScorer.new profile) job) <> [] ->
     (0 < fst (KeywordScorer.score (KeywordScorer.new profile) job))%R) /\
    (Scorer.short_circuit (fst (KeywordScorer.score (KeywordScorer.new profile) job))
                          (snd (KeywordScorer.score (KeywordScorer.new profile) job))
     = true <->
     some_phrase_matches (must_not_keywords profile) (get_searchable_text job)).
Proof.
  intros profile job.
  set (self := KeywordScorer.new profile).
  pose proof (first_match_compiled_none (must_not_keywords profile)
                (get_searchable_text job)) as Hnone.
  change (map PyStr.compile_word (must_not_keywords profile))
    with (KeywordScorer._must_not self) in Hnone.
  pose proof (short_circuit_spec self job) as Hsc.
  destruct (first_match (KeywordScorer._must_not self) (get_searchable_text job))
    as [p|] eqn:E.
  - assert (Hm : some_phrase_matches (must_not_keywords profile) (get_searchable_text job)).
    { destruct (first_match_compiled_some _ _ _ E) as (b & ph & a & Hk & _ & _ & Hs).
      exists ph. split; [|exact Hs]. rewrite Hk. apply in_or_app. right. left. reflexivity. }
    rewrite (keyword_score_excluded _ _ _ E) in *. cbn [fst snd] in *.
    split; [|split].
    + split; [intros _; exact Hm|]. intros _. split; [reflexivity|discriminate].
    + intros Hno. contradiction.
    + split; [intros _; exact Hm|intros _; exact Hsc].
  - assert (Hno : ~ some_phrase_matches (must_not_keywords profile)
                      (get_searchable_text job)) by (apply Hnone; reflexivity).
    rewrite (keyword_score_accumulate _ _ E) in *.
    destruct (accumulate_spec self job) as [_ Hpos].
    split; [|split].
    + split; [|intros Hm; contradiction].
      intros [Hz Hr]. specialize (Hpos Hr). lra.
    + intros _ Hr. exact (Hpos Hr).
    + split; [rewrite Hsc; discriminate|intros Hm; contradiction].
Qed.

Lemma zero_with_reasons_iff_excluded_witness :
  ~ some_phrase_matches (must_not_keywords engineer_profile)
      (get_searchable_text engineer_123) /\
  snd (KeywordScorer.score (KeywordScorer.new engineer_profile) engineer_123) <> [] /\
  (0 < fst (KeywordScorer.score (KeywordScorer.new engineer_profile) engineer_123))%R.
Proof.
  assert (Hno : ~ some_phrase_matches (must_not_keywords engineer_profile)
                    (get_searchable_text engineer_123))
    by (intros (kw & [] & _)).
  assert (Hr : snd (KeywordScorer.score (KeywordScorer.new engineer_profile) engineer_123)
               <> []) by discriminate.
  split; [exact Hno|]. split; [exact Hr|].
  exact (proj1 (proj2 (zero_with_reasons_iff_excluded engineer_profile engineer_123)) Hno Hr).
Defined.

(** ** The recency scorer *)

Lemma Rpower_half (x : R) : (0 < x)%R -> Rpower x 0.5 = sqrt x.
Proof. intros H. replace 0.5%R with (/ 2)%R by lra. apply Rpower_sqrt, H. Qed.

Lemma clamp_bounds (x : R) : (0 <= Rmax 0 (Rmin 1 x) <= 1)%R.
Proof.
  unfold Rmax, Rmin. destruct (Rle_dec 1 x); destruct (Rle_dec 0 _); lra.
Qed.

Lemma recency_score_bounds (self : RecencyScorer.t) (now : datetime) (posting : JobPosting) :
  (0 <= RecencyScorer.score self now posting <= 1)%R.
Proof.
  unfold RecencyScorer.score. destruct (posted_at posting) as [posted|]; [|lra].
  cbv zeta. destruct (Rle_dec _ 0); [lra|].
  destruct (Rge_dec _ _); [lra|]. apply clamp_bounds.
Qed.

(** The age that [score] computes is the age of the posting. *)
Lemma recency_score_age (self : RecencyScorer.t) (now posted : datetime) (posting : JobPosting) :
  posted_at posting = Some posted ->
  RecencyScorer.score self now posting
  = (let age_days := age_in_days now posted in
     if Rle_dec age_days 0 then 1
     else if Rge_dec age_days (IZR (RecencyScorer.max_age_days self)) then 0
     else Rmax 0 (Rmin 1 (1 - Rpower (age_days / IZR (RecencyScorer.max_age_days self)) 0.5)))%R.
Proof.
  intros H. unfold RecencyScorer.score. rewrite H. unfold age_in_days.
  destruct posted as [wall [offset|]]; [reflexivity|].
  unfold datetime_sub, instant_us. cbn [wall_us utcoffset_us]. reflexivity.
Qed.

Lemma sqrt_below (x y : R) : (0 <= x)%R -> (0 <= y)%R -> (x < y * y)%R -> (sqrt x < y)%R.
Proof.
  intros Hx Hy H. rewrite <- (sqrt_square y Hy). apply sqrt_lt_1; try assumption.
  apply Rmult_le_pos; assumption.
Qed.

Lemma sqrt_above (x y : R) : (0 <= y)%R -> (y * y < x)%R -> (y < sqrt x)%R.
Proof.
  intros Hy H. rewrite <- (sqrt_square y Hy).
  assert (0 <= y * y)%R by (apply Rmult_le_pos; assumption).
  apply sqrt_lt_1; lra.
Qed.

(** C6: with [max_age_days] 30, the score is 0.5 without [posted_at]; 1 for an
    age that is not positive; 0 for an age of 30 days or more; and between
    these [1 - sqrt (age / 30)] clamped to [0, 1], which is more than 0.9 at an
    age of one hour and less than 0.3 at an age of 25 days. *)
Theorem recency_score_cases :
  forall (now : datetime) (posting : JobPosting),
    (posted_at posting = None ->
     RecencyScorer.score RecencyScorer.new now posting = 0.5%R) /\
    (forall posted : datetime,
        posted_at posting = Some posted ->
        ((age_in_days now posted <= 0)%R ->
         RecencyScorer.score RecencyScorer.new now posting = 1%R) /\
        ((age_in_days now posted >= 30)%R ->
         RecencyScorer.score RecencyScorer.new now posting = 0%R) /\
        ((0 < age_in_days now posted < 30)%R ->
         RecencyScorer.score RecencyScorer.new now posting
         = Rmax 0 (Rmin 1 (1 - sqrt (age_in_days now posted / 30)))) /\
        (age_in_days now posted = (1 / 24)%R ->
         (RecencyScorer.score RecencyScorer.new now posting > 0.9)%R) /\
        (age_in_days now posted = 25%R ->
         (RecencyScorer.score RecencyScorer.new now posting < 0.3)%R)).
Proof.
  intros now posting. split.
  - intros H. unfold RecencyScorer.score. rewrite H. reflexivity.
  - intros posted H. rewrite (recency_score_age _ _ _ _ H).
    cbv zeta. cbn [RecencyScorer.max_age_days RecencyScorer.new].
    set (age := age_in_days now posted).
    assert (Hmid : (0 < age < 30)%R ->
                   (if Rle_dec age 0 then 1
                    else if Rge_dec age 30 then 0
                    else Rmax 0 (Rmin 1 (1 - Rpower (age / 30) 0.5)))%R
                   = Rmax 0 (Rmin 1 (1 - sqrt (age / 30)))).
    { intros [H0 H30]. destruct (Rle_dec age 0); [lra|].
      destruct (Rge_dec age 30); [lra|].
      rewrite Rpower_half; [reflexivity|]. apply Rdiv_lt_0_compat; lra. }
    split; [|split; [|split; [|split]]].
    + intros Hage. destruct (Rle_dec age 0); [reflexivity|contradiction].
    + intros Hage. destruct (Rle_dec age 0); [lra|].
      destruct (Rge_dec age 30); [reflexivity|contradiction].
    + exact Hmid.
    + intros Hage. rewrite Hmid by lra. rewrite Hage.
      assert (Hs : (sqrt (1 / 24 / 30) < 0.1)%R) by (apply sqrt_below; lra).
      pose proof (sqrt_pos (1 / 24 / 30)) as Hp.
      unfold Rmax, Rmin. destruct (Rle_dec 1 _); destruct (Rle_dec 0 _); lra.
    + intros Hage. rewrite Hmid by lra. rewrite Hage.
      assert (Hs : (0.7 < sqrt (25 / 30))%R) by (apply sqrt_above; lra).
      unfold Rmax, Rmin. destruct (Rle_dec 1 _); destruct (Rle_dec 0 _); lra.
Qed.

Lemma age_of_sample (delta : Z) :
  age_in_days (utc new_year_2025) (utc (new_year_2025 - delta))
  = (IZR delta / 1000000 / 86400)%R.
Proof.
  unfold age_in_days, total_seconds, datetime_sub, instant_us, utc.
  cbn [wall_us utcoffset_us]. do 3 f_equal. lia.
Qed.

Lemma recency_score_cases_witness :
  posted_at (engineer_posted None) = None /\
  RecencyScorer.score RecencyScorer.new (utc new_year_2025) (engineer_posted None) = 0.5%R /\
  age_in_days (utc new_year_2025) (utc (new_year_2025 - hour_us)) = (1 / 24)%R /\
  (RecencyScorer.score RecencyScorer.new (utc new_year_2025)
     (engineer_posted (Some (utc (new_year_2025 - hour_us)))) > 0.9)%R /\
  age_in_days (utc new_year_2025) (utc (new_year_2025 - 25 * day_us)) = 25%R /\
  (RecencyScorer.score RecencyScorer.new (utc new_year_2025)
     (engineer_posted (Some (utc (new_year_2025 - 25 * day_us)))) < 0.3)%R.
Proof.
  assert (Hhour : age_in_days (utc new_year_2025) (utc (new_year_2025 - hour_us))
                  = (1 / 24)%R)
    by (rewrite age_of_sample; unfold hour_us; lra).
  assert (Hdays : age_in_days (utc new_year_2025) (utc (new_year_2025 - 25 * day_us))
                  = 25%R)
    by (rewrite age_of_sample; change (25 * day_us) with 2160000000000; lra).
  split; [reflexivity|].
  split; [exact (proj1 (recency_score_cases (utc new_year_2025) (engineer_posted None))
                   eq_refl)|].
  split; [exact Hhour|].
  split; [exact (proj1 (proj2 (proj2 (proj2
             (proj2 (recency_score_cases (utc new_year_2025)
                       (engineer_posted (Some (utc (new_year_2025 - hour_us)))))
                    _ eq_refl)))) Hhour)|].
  split; [exact Hdays|].
  exact (proj2 (proj2 (proj2 (proj2
           (proj2 (recency_score_cases (utc new_year_2025)
                     (engineer_posted (Some (utc (new_year_2025 - 25 * day_us)))))
                  _ eq_refl)))) Hdays).
Defined.

(** ** The scorer *)

Section ScorerFacts.
Import Scorer.

Lemma profile_embeds_app tr1 tr2 :
profile_embeds (tr1 ++ tr2) = (profile_embeds tr1 ++ profile_embeds tr2)%list.
Proof.
induction tr1 as [|ev tr1 IH]; simpl; [reflexivity|].
destruct ev as [| [|] | ]; simpl; rewrite ?IH; reflexivity.
Qed.


Lemma semantic_score_unfold job :
  semantic_score job = bind _get_profile_embedding (job_similarity job).
Proof. reflexivity. Qed.

Lemma get_profile_embedding_cached self tr c :
  _profile_embedding self = Some c ->
  _get_profile_embedding (self, tr) = (Returns c, (self, tr)).
Proof. intros H. unfold _get_profile_embedding, bind, get_self. simpl. rewrite H. reflexivity. Qed.

Lemma get_profile_embedding_empty_text self tr :
  _profile_embedding self = None ->
  PyStr.truthy (profile_text self) = false ->
  _get_profile_embedding (self, tr) = (Returns [], (with_cache self [], tr)).
Proof.
  intros H Ht. unfold _get_profile_embedding, bind, get_self. simpl. rewrite H.
  fold (profile_text self). rewrite Ht. reflexivity.
Qed.

Lemma get_profile_embedding_call self tr :
  _profile_embedding self = None ->
  PyStr.truthy (profile_text self) = true ->
  let result := embed (embedding_provider self) tr [profile_text self] in
  let tr' := (tr ++ [Embed ProfileText [profile_text self] result])%list in
  _get_profile_embedding (self, tr)
  = match result with
    | Returns embeddings =>
        let v := match embeddings with e :: _ => e | [] => [] end in
        (Returns v, (with_cache self v, tr'))
    | Raises e => (Raises e, (self, tr'))
    end.
Proof.
  intros H Ht. unfold _get_profile_embedding, bind, get_self. simpl. rewrite H.
  fold (profile_text self). rewrite Ht. unfold call_embed.
  destruct (embed _ _ _); reflexivity.
Qed.

(** What [job_similarity] does: it leaves the scorer as it is, embeds no
    profile text, answers 0.5 for an empty profile embedding, and raises
    exactly when one of its calls raised. *)
Lemma job_similarity_spec job c self tr :
  exists out new,
    job_similarity job c (self, tr) = (out, (self, tr ++ new)%list) /\
    profile_embeds new = [] /\
    (c = [] -> out = Returns 0.5%R /\ new = []) /\
    (existsb embed_raised new = true -> raised out = true) /\
    (bounded_similarity (embedding_provider self) ->
     forall v, out = Returns v -> (0 <= v <= 1)%R).
Proof.
  unfold job_similarity. destruct c as [|x c].
  - exists (Returns 0.5%R), []. rewrite app_nil_r.
    split; [reflexivity|]. split; [reflexivity|]. split; [auto|].
    split; [discriminate|]. intros _ v [= <-]. lra.
  - unfold bind, call_embed, call_similarity, ret.
    set (jt := get_searchable_text job).
    destruct (embed (embedding_provider self) tr [jt]) as [[|je rest]|e] eqn:E.
    + exists (Returns 0.5%R), [Embed JobText [jt] (Returns [])].
      split; [reflexivity|]. split; [reflexivity|]. split; [discriminate|].
      split; [discriminate|]. intros _ v [= <-]. lra.
    + set (tr1 := (tr ++ [Embed JobText [jt] (Returns (je :: rest))])%list).
      destruct (similarity (embedding_provider self) tr1 (x :: c) je) as [r|e] eqn:S.
      * exists (Returns ((r + 1) / 2)%R),
          [Embed JobText [jt] (Returns (je :: rest)); Similarity (x :: c) je (Returns r)].
        unfold tr1. rewrite <- app_assoc.
        split; [reflexivity|]. split; [reflexivity|]. split; [discriminate|].
        split; [discriminate|]. intros Hb v [= <-]. apply Hb in S. lra.
      * exists (Raises e),
          [Embed JobText [jt] (Returns (je :: rest)); Similarity (x :: c) je (Raises e)].
        unfold tr1. rewrite <- app_assoc.
        split; [reflexivity|]. split; [reflexivity|]. split; [discriminate|].
        split; [reflexivity|]. discriminate.
    + exists (Raises e), [Embed JobText [jt] (Raises e)].
      split; [reflexivity|]. split; [reflexivity|]. split; [discriminate|].
      split; [reflexivity|]. discriminate.
Qed.

Lemma try_except_ret {A : Type} (m : M A) (a : A) (s : state) :
  try_except m (ret a) s
  = match m s with
    | (Returns x, s') => (Returns x, s')
    | (Raises _, s') => (Returns a, s')
    end.
Proof. unfold try_except, ret. destruct (m s) as [[x|e] s']; reflexivity. Qed.

Lemma vector_step_spec self tr job :
  exists v self' new,
    vector_step self job (self, tr) = (Returns v, (self', tr ++ new)%list) /\
    (is_no_embedding (embedding_provider self) = true ->
     v = 0.5%R /\ self' = self /\ new = []) /\
    (existsb embed_raised new = true -> v = 0.5%R) /\
    (_profile_embedding self' = Some [] -> v = 0.5%R) /\
    (_profile_embedding self = None -> PyStr.truthy (profile_text self) = false ->
     v = 0.5%R) /\
    (bounded_similarity (embedding_provider self) -> (0 <= v <= 1)%R) /\
    match _profile_embedding self with
    | Some _ => self' = self /\ profile_embeds new = []
    | None =>
        (self' = self /\
         (profile_embeds new = [] \/ exists e, profile_embeds new = [Raises e])) \/
        (exists c, self' = with_cache self c /\
           (profile_embeds new = [] \/
            exists vs, profile_embeds new = [Returns vs] /\
                       c = match vs with e :: _ => e | [] => [] end))
    end.
Proof.
  unfold vector_step.
  destruct (is_no_embedding (embedding_provider self)) eqn:Hneutral.
  { exists 0.5%R, self, []. rewrite app_nil_r. unfold ret.
    split; [reflexivity|]. split; [auto|]. split; [auto|]. split; [auto|].
    split; [auto|]. split; [intros; lra|].
    destruct (_profile_embedding self); auto. }
  rewrite try_except_ret, semantic_score_unfold. unfold bind at 1.
  destruct (_profile_embedding self) as [c|] eqn:Hcache.
  - (* the cached embedding is reused *)
    rewrite (get_profile_embedding_cached self tr c Hcache).
    destruct (job_similarity_spec job c self tr) as (out & new & Hrun & Hpe & Hnil & Hraise & Hb).
    rewrite Hrun. exists (match out with Returns x => x | Raises _ => 0.5%R end), self, new.
    split; [destruct out; reflexivity|]. split; [discriminate|].
    split; [intros H; apply Hraise in H; destruct out; [discriminate|reflexivity]|].
    split.
    { rewrite Hcache. intros [= ->]. destruct (Hnil eq_refl) as [-> _]. reflexivity. }
    split; [discriminate|].
    split; [|auto].
    intros H. destruct out as [x|e]; [apply (Hb H x eq_refl)|lra].
  - destruct (PyStr.truthy (profile_text self)) eqn:Htext.
    + (* the profile text is embedded now *)
      pose proof (get_profile_embedding_call self tr Hcache Htext) as Hcall.
      cbv zeta in Hcall. rewrite Hcall.
      set (pt := profile_text self).
      destruct (embed (embedding_provider self) tr [pt]) as [vs|e] eqn:E.
      * set (c := match vs with e :: _ => e | [] => [] end).
        destruct (job_similarity_spec job c (with_cache self c)
                    (tr ++ [Embed ProfileText [pt] (Returns vs)])%list)
          as (out & new & Hrun & Hpe & Hnil & Hraise & Hb).
        rewrite Hrun.
        exists (match out with Returns x => x | Raises _ => 0.5%R end),
          (with_cache self c), (Embed ProfileText [pt] (Returns vs) :: new).
        split; [rewrite <- app_assoc; destruct out; reflexivity|].
        split; [discriminate|].
        split; [simpl; intros H; apply Hraise in H;
                destruct out; [discriminate|reflexivity]|].
        split.
        { simpl. intros [= Hc]. destruct (Hnil Hc) as [-> _]. reflexivity. }
        split.
        { intros _ Hf. congruence. }
        split.
        { intros H. destruct out as [x|e]; [apply (Hb H x eq_refl)|lra]. }
        right. exists c. split; [reflexivity|]. right. exists vs.
        simpl. rewrite Hpe. split; reflexivity.
      * exists 0.5%R, self, [Embed ProfileText [pt] (Raises e)].
        split; [reflexivity|]. split; [discriminate|]. split; [auto|].
        split; [auto|]. split; [auto|]. split; [intros; lra|].
        left. split; [reflexivity|]. right. exists e. reflexivity.
    + (* no profile text: the empty embedding is cached *)
      rewrite (get_profile_embedding_empty_text self tr Hcache Htext).
      exists 0.5%R, (with_cache self []), []. rewrite app_nil_r.
      split; [reflexivity|]. split; [discriminate|]. split; [auto|].
      split; [auto|]. split; [auto|]. split; [intros; lra|].
      right. exists []. auto.
Qed.

End ScorerFacts.

(** ** One call of [score] *)

Section ScoreFacts.
Import Scorer.
Variable clock : list event -> Z.

Lemma score_excluded (self : t) (tr : list event) (posting : JobPosting) :
  short_circuit (fst (KeywordScorer.score (keyword_scorer self) posting))
                (snd (KeywordScorer.score (keyword_scorer self) posting)) = true ->
  score clock posting (self, tr)
  = (Returns (excluded_result posting (snd (KeywordScorer.score (keyword_scorer self) posting))),
     (self, tr)).
Proof.
  intros H. unfold score, bind, get_self. cbn [fst].
  destruct (KeywordScorer.score (keyword_scorer self) posting) as [ks kr].
  cbn [fst snd] in H. rewrite H. reflexivity.
Qed.

Lemma score_scored (self : t) (tr : list event) (posting : JobPosting) :
  not_excluded self posting ->
  forall v self' new,
    vector_step self posting (self, (tr ++ [Now (clock tr)])%list)
    = (Returns v, (self', ((tr ++ [Now (clock tr)]) ++ new)%list)) ->
    exists r,
      score clock posting (self, tr) = (Returns r, (self', (tr ++ Now (clock tr) :: new)%list)) /\
      job r = posting /\
      vector_score r = v /\
      keyword_score r = fst (KeywordScorer.score (keyword_scorer self) posting) /\
      recency_score r = RecencyScorer.score (recency_scorer self) (now_after clock tr) posting /\
      final_score r
      = (vector_weight (profile self) * vector_score r
         + keyword_weight (profile self) * keyword_score r
         + recency_weight (profile self) * recency_score r)%R.
Proof.
  unfold not_excluded. intros H v self' new Hv.
  unfold score, bind, get_self. cbn [fst].
  destruct (KeywordScorer.score (keyword_scorer self) posting) as [ks kr].
  cbn [fst snd] in *. rewrite H.
  unfold datetime_now. fold (now_after clock tr).
  unfold vector_step in Hv. rewrite Hv. rewrite <- app_assoc.
  eexists. split; [reflexivity|]. repeat split.
Qed.

End ScoreFacts.

(** ** Exclusion *)

(** C1, as stated, fails: the reason quotes the source of the compiled
    pattern, [\bsenior\b], and not the phrase [senior]. *)
Lemma exclusion_reason_quotes_pattern_source :
  some_phrase_matches (must_not_keywords sample_profile) (get_searchable_text senior_job) /\
  KeywordScorer.score (KeywordScorer.new sample_profile) senior_job
  = (0%R, ["Excluded: contains '\bsenior\b'"]) /\
  KeywordScorer.score (KeywordScorer.new sample_profile) senior_job
  <> (0%R, ["Excluded: contains 'senior'"]).
Proof.
  assert (H : KeywordScorer.score (KeywordScorer.new sample_profile) senior_job
              = (0%R, ["Excluded: contains '\bsenior\b'"])) by reflexivity.
  split; [|split].
  - exists "senior". split; [left; reflexivity|reflexivity].
  - exact H.
  - rewrite H. intros [= E].
Qed.

Lemma string_app_assoc (s1 s2 s3 : string) :
  (s1 +:+ s2) +:+ s3 = s1 +:+ (s2 +:+ s3).
Proof.
  induction s1 as [|c s1 IH]; [reflexivity|].
  change (String c ((s1 +:+ s2) +:+ s3) = String c (s1 +:+ (s2 +:+ s3))).
  f_equal. exact IH.
Qed.

Lemma exclusion_reason_text (phrase : string) :
  "Excluded: contains '" +:+ PyStr.pattern (PyStr.compile_word phrase) +:+ "'"
  = "Excluded: contains '\b" +:+ PyStr.re_escape phrase +:+ "\b'".
Proof.
  cbn [PyStr.pattern PyStr.compile_word].
  change "Excluded: contains '\b" with ("Excluded: contains '" +:+ "\b").
  change "\b'" with ("\b" +:+ "'").
  rewrite !string_app_assoc. reflexivity.
Qed.

(** C1 (amended): when some must-not phrase matches the searchable text, the
    keyword scorer returns the score 0 with the one reason
    [Excluded: contains '<pattern>'], where the pattern is the source
    [\b<escaped phrase>\b] of the first phrase of the list that matches; and
    [Scorer.score] returns final, keyword, vector and recency score 0 with
    that reason only, and leaves the scorer and the trace as they were: it
    reads no clock and calls no backend. *)
Theorem must_not_match_excludes :
  forall (profile : MatchingProfile) (posting : JobPosting),
    some_phrase_matches (must_not_keywords profile) (get_searchable_text posting) ->
    exists (before : list string) (phrase : string) (after : list string),
      must_not_keywords profile = (before ++ phrase :: after)%list /\
      Forall (fun kw => PyStr.search (PyStr.compile_word kw) (get_searchable_text posting)
                        = false) before /\
      PyStr.search (PyStr.compile_word phrase) (get_searchable_text posting) = true /\
      KeywordScorer.score (KeywordScorer.new profile) posting
      = (0%R, ["Excluded: contains '\b" +:+ PyStr.re_escape phrase +:+ "\b'"]) /\
      forall (clock : list event -> Z) (self : Scorer.t) (tr : list event),
        Scorer.keyword_scorer self = KeywordScorer.new profile ->
        Scorer.score clock posting (self, tr)
        = (Returns {| job := posting; final_score := 0; vector_score := 0;
                      keyword_score := 0; recency_score := 0;
                      match_reasons :=
                        [Text ("Excluded: contains '\b" +:+ PyStr.re_escape phrase
                               +:+ "\b'")] |},
           (self, tr)).
Proof.
  intros profile posting Hm.
  destruct (first_match (KeywordScorer._must_not (KeywordScorer.new profile))
              (get_searchable_text posting)) as [p|] eqn:E.
  2:{ apply first_match_compiled_none in E. contradiction. }
  destruct (first_match_compiled_some _ _ _ E) as (before & phrase & after & Hk & -> & Hb & Hs).
  pose proof (keyword_score_excluded _ _ _ E) as Hscore.
  rewrite exclusion_reason_text in Hscore.
  exists before, phrase, after. repeat (split; [assumption|]).
  intros clock self tr Hks.
  pose proof (short_circuit_spec (KeywordScorer.new profile) posting) as Hsc.
  rewrite E in Hsc.
  rewrite score_excluded; rewrite Hks; [|exact Hsc].
  rewrite Hscore. reflexivity.
Qed.

Lemma must_not_match_excludes_witness :
  some_phrase_matches (must_not_keywords sample_profile)
    (get_searchable_text senior_staff_job) /\
  exists (before : list string) (phrase : string) (after : list string),
    must_not_keywords sample_profile = (before ++ phrase :: after)%list /\
    Forall (fun kw => PyStr.search (PyStr.compile_word kw)
                        (get_searchable_text senior_staff_job) = false) before /\
    PyStr.search (PyStr.compile_word phrase) (get_searchable_text senior_staff_job) = true /\
    KeywordScorer.score (KeywordScorer.new sample_profile) senior_staff_job
    = (0%R, ["Excluded: contains '\b" +:+ PyStr.re_escape phrase +:+ "\b'"]) /\
    forall (clock : list event -> Z) (self : Scorer.t) (tr : list event),
      Scorer.keyword_scorer self = KeywordScorer.new sample_profile ->
      Scorer.score clock senior_staff_job (self, tr)
      = (Returns {| job := senior_staff_job; final_score := 0; vector_score := 0;
                    keyword_score := 0; recency_score := 0;
                    match_reasons :=
                      [Text ("Excluded: contains '\b" +:+ PyStr.re_escape phrase
                             +:+ "\b'")] |},
         (self, tr)).
Proof.
  assert (Hm : some_phrase_matches (must_not_keywords sample_profile)
                 (get_searchable_text senior_staff_job))
    by (exists "staff"; split; [right; left; reflexivity|reflexivity]).
  split; [exact Hm|].
  exact (must_not_match_excludes sample_profile senior_staff_job Hm).
Defined.

(** ** What one call of [score] does *)

Section ScoreRun.
Import Scorer.
Variable clock : list event -> Z.

Lemma score_run (self : t) (tr : list event) (posting : JobPosting) :
  exists r self' new,
    score clock posting (self, tr) = (Returns r, (self', (tr ++ new)%list)) /\
    job r = posting /\
    final_score r
    = (vector_weight (profile self) * vector_score r
       + keyword_weight (profile self) * keyword_score r
       + recency_weight (profile self) * recency_score r)%R /\
    (0 <= keyword_score r <= 1)%R /\
    (0 <= recency_score r <= 1)%R /\
    (bounded_similarity (embedding_provider self) -> (0 <= vector_score r <= 1)%R) /\
    match _profile_embedding self with
    | Some _ => self' = self /\ profile_embeds new = []
    | None =>
        (self' = self /\
         (profile_embeds new = [] \/ exists e, profile_embeds new = [Raises e])) \/
        (exists c, self' = with_cache self c /\
           (profile_embeds new = [] \/
            exists vs, profile_embeds new = [Returns vs] /\
                       c = match vs with e :: _ => e | [] => [] end))
    end /\
    (not_excluded self posting ->
     keyword_score r = fst (KeywordScorer.score (keyword_scorer self) posting) /\
     recency_score r
     = RecencyScorer.score (recency_scorer self) (now_after clock tr) posting /\
     (is_no_embedding (embedding_provider self) = true -> vector_score r = 0.5%R) /\
     (existsb embed_raised new = true -> vector_score r = 0.5%R) /\
     (_profile_embedding self' = Some [] -> vector_score r = 0.5%R) /\
     (_profile_embedding self = None -> PyStr.truthy (profile_text self) = false ->
      vector_score r = 0.5%R)).
Proof.
  destruct (short_circuit (fst (KeywordScorer.score (keyword_scorer self) posting))
              (snd (KeywordScorer.score (keyword_scorer self) posting))) eqn:Hsc.
  - (* excluded *)
    exists (excluded_result posting
              (snd (KeywordScorer.score (keyword_scorer self) posting))), self, [].
    rewrite app_nil_r. split; [apply score_excluded, Hsc|].
    cbn [excluded_result job final_score vector_score keyword_score recency_score].
    split; [reflexivity|]. split; [lra|]. split; [lra|]. split; [lra|].
    split; [intros; lra|]. split.
    + destruct (_profile_embedding self); auto.
    + unfold not_excluded. rewrite Hsc. discriminate.
  - (* scored *)
    destruct (vector_step_spec self (tr ++ [Now (clock tr)])%list posting)
      as (v & self' & new & Hstep & Hneutral & Hraise & Hempty & Htext & Hbound & Hcache).
    destruct (score_scored clock self tr posting Hsc v self' new Hstep)
      as (r & Hrun & Hjob & Hv & Hk & Hr & Hfinal).
    exists r, self', (Now (clock tr) :: new).
    split; [exact Hrun|]. split; [exact Hjob|]. split; [exact Hfinal|].
    split; [rewrite Hk; apply keyword_score_bounds|].
    split; [rewrite Hr; apply recency_score_bounds|].
    split; [rewrite Hv; exact Hbound|].
    split; [exact Hcache|].
    intros _. rewrite Hv. split; [exact Hk|]. split; [exact Hr|].
    split; [intros H; apply Hneutral, H|]. split; [exact Hraise|].
    split; [exact Hempty|exact Htext].
Qed.

End ScoreRun.

(** ** The range of the scores *)

Lemma no_embedding_bounded (dimension : Z) :
  bounded_similarity (NoEmbeddingProvider dimension).
Proof. intros history vec1 vec2 r [= <-]. lra. Qed.

Lemma weighted_sum_bounds (wv wk wr v k r : R) :
  (0 <= wv)%R -> (0 <= wk)%R -> (0 <= wr)%R -> (wv + wk + wr <= 1)%R ->
  (0 <= v <= 1)%R -> (0 <= k <= 1)%R -> (0 <= r <= 1)%R ->
  (0 <= wv * v + wk * k + wr * r <= 1)%R.
Proof.
  intros Hwv Hwk Hwr Hsum Hv Hk Hr.
  assert (0 <= wv * v <= wv)%R by (split; nra).
  assert (0 <= wk * k <= wk)%R by (split; nra).
  assert (0 <= wr * r <= wr)%R by (split; nra).
  lra.
Qed.

Lemma plain_job_not_excluded (profile : MatchingProfile) (provider : option EmbeddingProvider)
    (posting : JobPosting) :
  must_not_keywords profile = [] ->
  not_excluded (Scorer.new profile provider) posting.
Proof.
  intros H. unfold not_excluded. rewrite short_circuit_spec.
  cbn [Scorer.new Scorer.keyword_scorer KeywordScorer.new KeywordScorer._must_not].
  rewrite H. reflexivity.
Qed.

(** C3, as stated, fails: with the three weights at 1, a job that is not
    excluded gets 0.5 + 0.2 + 0.5 as its final score. *)
Lemma heavy_weights_exceed_one :
  exists r st',
    Scorer.score (fixed_clock new_year_2025) engineer_123 (Scorer.new heavy_profile None, [])
    = (Returns r, st') /\
    (final_score r > 1)%R.
Proof.
  destruct (score_run (fixed_clock new_year_2025) (Scorer.new heavy_profile None) []
              engineer_123)
    as (r & self' & new & Hrun & _ & Hfinal & _ & _ & _ & _ & Hscored).
  destruct (Hscored (plain_job_not_excluded heavy_profile None engineer_123 eq_refl))
    as (Hk & Hr & Hv & _).
  exists r, (self', ([] ++ new)%list). split; [exact Hrun|].
  rewrite Hfinal, Hk, Hr, (Hv eq_refl).
  change (fst (KeywordScorer.score (Scorer.keyword_scorer (Scorer.new heavy_profile None))
                 engineer_123))
    with (Rmin (0 + 0 + 0.2) 1).
  change (RecencyScorer.score (Scorer.recency_scorer (Scorer.new heavy_profile None))
            (now_after (fixed_clock new_year_2025) []) engineer_123)
    with 0.5%R.
  cbn [Scorer.new Scorer.profile heavy_profile vector_weight keyword_weight recency_weight].
  unfold Rmin. destruct (Rle_dec _ _); lra.
Qed.

(** C3 (amended): [score] returns a keyword score and a recency score in
    [0, 1]; a vector score in [0, 1] when the similarities of the embedding
    provider are in [-1, 1]; and as final score the weighted sum of the three,
    which is in [0, 1] when the weights are not negative and sum to at most 1.
    For an excluded job the four scores are 0. *)
Theorem score_components_bounded :
  forall (clock : list event -> Z) (self : Scorer.t) (tr : list event) (posting : JobPosting),
    exists r st',
      Scorer.score clock posting (self, tr) = (Returns r, st') /\
      (0 <= keyword_score r <= 1)%R /\
      (0 <= recency_score r <= 1)%R /\
      final_score r
      = (vector_weight (Scorer.profile self) * vector_score r
         + keyword_weight (Scorer.profile self) * keyword_score r
         + recency_weight (Scorer.profile self) * recency_score r)%R /\
      (bounded_similarity (Scorer.embedding_provider self) ->
       (0 <= vector_score r <= 1)%R /\
       ((0 <= vector_weight (Scorer.profile self))%R ->
        (0 <= keyword_weight (Scorer.profile self))%R ->
        (0 <= recency_weight (Scorer.profile self))%R ->
        (vector_weight (Scorer.profile self) + keyword_weight (Scorer.profile self)
         + recency_weight (Scorer.profile self) <= 1)%R ->
        (0 <= final_score r <= 1)%R)) /\
      (~ not_excluded self posting ->
       final_score r = 0%R /\ keyword_score r = 0%R /\
       vector_score r = 0%R /\ recency_score r = 0%R).
Proof.
  intros clock self tr posting.
  destruct (score_run clock self tr posting)
    as (r & self' & new & Hrun & _ & Hfinal & Hk & Hr & Hv & _ & _).
  exists r, (self', (tr ++ new)%list).
  split; [exact Hrun|]. split; [exact Hk|]. split; [exact Hr|].
  split; [exact Hfinal|]. split.
  - intros Hb. specialize (Hv Hb). split; [exact Hv|].
    intros Hwv Hwk Hwr Hsum. rewrite Hfinal. apply weighted_sum_bounds; assumption.
  - intros Hex. unfold not_excluded in Hex. apply not_false_is_true in Hex.
    rewrite (score_excluded clock self tr posting Hex) in Hrun.
    injection Hrun as <- _ _. cbn. auto.
Qed.

Lemma score_components_bounded_witness :
  bounded_similarity (Scorer.embedding_provider (Scorer.new sample_profile None)) /\
  exists r st',
    Scorer.score (fixed_clock new_year_2025) engineer_123
      (Scorer.new sample_profile None, []) = (Returns r, st') /\
    (0 <= keyword_score r <= 1)%R /\
    (0 <= recency_score r <= 1)%R /\
    (0 <= vector_score r <= 1)%R /\
    (0 <= final_score r <= 1)%R.
Proof.
  assert (Hb : bounded_similarity
                 (Scorer.embedding_provider (Scorer.new sample_profile None)))
    by apply no_embedding_bounded.
  split; [exact Hb|].
  destruct (score_components_bounded (fixed_clock new_year_2025)
              (Scorer.new sample_profile None) [] engineer_123)
    as (r & st' & Hrun & Hk & Hr & _ & Hbounded & _).
  destruct (Hbounded Hb) as [Hv Hfinal].
  exists r, st'. split; [exact Hrun|]. split; [exact Hk|]. split; [exact Hr|].
  split; [exact Hv|].
  apply Hfinal; cbn [Scorer.new Scorer.profile sample_profile vector_weight
                       keyword_weight recency_weight]; lra.
Defined.

(** ** Batches *)

Section BatchFacts.
Import Scorer.
Variable clock : list event -> Z.

Lemma score_each_cons (posting : JobPosting) (rest : list JobPosting) (st : state) :
  score_each clock (posting :: rest) st
  = match score clock posting st with
    | (Returns r, st1) =>
        match score_each clock rest st1 with
        | (Returns others, st') => (Returns (r :: others), st')
        | (Raises e, st') => (Raises e, st')
        end
    | (Raises e, st1) => (Raises e, st1)
    end.
Proof.
  cbn [score_each]. unfold bind, ret.
  destruct (score clock posting st) as [[r|e] st1]; [|reflexivity].
  destruct (score_each clock rest st1) as [[others|e] st']; reflexivity.
Qed.

Lemma score_loop_cons (threshold : R) (posting : JobPosting) (rest : list JobPosting)
    (scored : list ScoredJobPosting) (st : state) :
  score_loop clock threshold (posting :: rest) scored st
  = match score clock posting st with
    | (Returns r, st1) =>
        if Rge_dec (final_score r) threshold
        then score_loop clock threshold rest (scored ++ [r])%list st1
        else score_loop clock threshold rest scored st1
    | (Raises e, st1) => (Raises e, st1)
    end.
Proof.
  cbn [score_loop]. unfold bind.
  destruct (score clock posting st) as [[r|e] st1]; [|reflexivity].
  destruct (Rge_dec (final_score r) threshold); reflexivity.
Qed.

Lemma score_each_total (jobs : list JobPosting) :
  forall self tr, exists all self' new,
    score_each clock jobs (self, tr) = (Returns all, (self', (tr ++ new)%list)) /\
    map job all = jobs /\
    profile self' = profile self.
Proof.
  induction jobs as [|posting rest IH]; intros self tr.
  - exists [], self, []. rewrite app_nil_r. auto.
  - destruct (score_run clock self tr posting)
      as (r & self1 & new1 & Hrun & Hjob & _ & _ & _ & _ & Hcache & _).
    destruct (IH self1 (tr ++ new1)%list) as (others & self' & new2 & Hrest & Hjobs & Hp).
    exists (r :: others), self', (new1 ++ new2)%list.
    rewrite score_each_cons, Hrun, Hrest, app_assoc.
    split; [reflexivity|]. split; [cbn [map]; rewrite Hjob, Hjobs; reflexivity|].
    rewrite Hp. destruct (_profile_embedding self).
    + destruct Hcache as [-> _]. reflexivity.
    + destruct Hcache as [[-> _]|(c & -> & _)]; reflexivity.
Qed.

Lemma score_loop_spec (threshold : R) (jobs : list JobPosting) :
  forall st scored,
    score_loop clock threshold jobs scored st
    = match score_each clock jobs st with
      | (Returns all, st') =>
          (Returns (scored ++ List.filter (reaches threshold) all)%list, st')
      | (Raises e, st') => (Raises e, st')
      end.
Proof.
  induction jobs as [|posting rest IH]; intros st scored.
  - cbn [score_loop score_each]. unfold ret. cbn [List.filter].
    rewrite app_nil_r. reflexivity.
  - rewrite score_loop_cons, score_each_cons.
    destruct (score clock posting st) as [[r|e] st1]; [|reflexivity].
    destruct (Rge_dec (final_score r) threshold) as [Hge|Hlt];
      rewrite IH; destruct (score_each clock rest st1) as [[others|e] st'];
      try reflexivity; cbn [List.filter]; unfold reaches at 2;
      destruct (Rge_dec (final_score r) threshold); try contradiction.
    + rewrite <- app_assoc. reflexivity.
    + reflexivity.
Qed.

Lemma score_preserves_embedded_once (self : t) (tr : list event) (posting : JobPosting) :
  embedded_once self tr ->
  exists r self' new,
    score clock posting (self, tr) = (Returns r, (self', (tr ++ new)%list)) /\
    embedded_once self' (tr ++ new)%list.
Proof.
  intros (failures & Hfail & Hinv).
  destruct (score_run clock self tr posting)
    as (r & self' & new & Hrun & _ & _ & _ & _ & _ & Hcache & _).
  exists r, self', new. split; [exact Hrun|].
  unfold embedded_once. rewrite profile_embeds_app.
  destruct (_profile_embedding self) as [c|] eqn:Hc.
  - destruct Hcache as [-> Hnew]. rewrite Hnew, app_nil_r, Hc.
    exists failures. auto.
  - destruct Hcache as [[-> [Hnew|(e & Hnew)]]|(c & -> & [Hnew|(vs & Hnew & Hhd)])];
      rewrite Hnew, Hinv.
    + rewrite app_nil_r, Hc. exists failures. auto.
    + rewrite Hc. exists (failures ++ [Raises e])%list. split; [|reflexivity].
      apply Forall_app. split; [exact Hfail|]. repeat constructor.
    + rewrite app_nil_r. exists failures. cbn. auto.
    + exists failures. cbn. split; [exact Hfail|]. right. exists vs. auto.
Qed.

Lemma score_each_embedded_once (jobs : list JobPosting) :
  forall self tr,
    embedded_once self tr ->
    exists all self' new,
      score_each clock jobs (self, tr) = (Returns all, (self', (tr ++ new)%list)) /\
      embedded_once self' (tr ++ new)%list.
Proof.
  induction jobs as [|posting rest IH]; intros self tr Hinv.
  - exists [], self, []. rewrite app_nil_r. auto.
  - destruct (score_preserves_embedded_once self tr posting Hinv)
      as (r & self1 & new1 & Hrun & Hinv1).
    destruct (IH self1 (tr ++ new1)%list Hinv1) as (others & self' & new2 & Hrest & Hinv2).
    exists (r :: others), self', (new1 ++ new2)%list.
    rewrite score_each_cons, Hrun, Hrest, app_assoc. auto.
Qed.

Lemma score_batch_total (jobs : list JobPosting) (min_score : option R) (st : state) :
  exists out st', score_batch clock jobs min_score st = (Returns out, st').
Proof.
  destruct st as [self tr].
  destruct (score_each_total jobs self tr) as (all & self' & new & Hall & _).
  unfold score_batch, bind, get_self. cbn [fst].
  rewrite score_loop_spec, Hall. eexists _, _. reflexivity.
Qed.

End BatchFacts.

(** C2: [score_batch] scores every job in turn and returns the scored jobs
    whose final score reaches the threshold ([min_score], or the threshold of
    the profile without one): a permutation of them that is sorted by
    decreasing final score and lists the jobs of each final score in the order
    of the input. *)
Theorem score_batch_sorted_stable :
  forall (clock : list event -> Z) (self : Scorer.t) (tr : list event)
         (jobs : list JobPosting) (min_score : option R),
  exists (all out : list ScoredJobPosting) (st' : Scorer.state),
    Scorer.score_each clock jobs (self, tr) = (Returns all, st') /\
    map job all = jobs /\
    Scorer.score_batch clock jobs min_score (self, tr) = (Returns out, st') /\
    Permutation out
      (List.filter (reaches (match min_score with
                             | Some m => m
                             | None => min_score_threshold (Scorer.profile self)
                             end)) all) /\
    StronglySorted (desc final_score) out /\
    forall v : R,
      List.filter (has_key final_score v) out
      = List.filter (has_key final_score v)
          (List.filter (reaches (match min_score with
                                 | Some m => m
                                 | None => min_score_threshold (Scorer.profile self)
                                 end)) all).
Proof.
  intros clock self tr jobs min_score.
  destruct (score_each_total clock jobs self tr) as (all & self' & new & Hall & Hjobs & _).
  set (threshold := match min_score with
                    | Some m => m
                    | None => min_score_threshold (Scorer.profile self)
                    end).
  exists all, (sort_desc final_score (List.filter (reaches threshold) all)),
    (self', (tr ++ new)%list).
  split; [exact Hall|]. split; [exact Hjobs|]. split.
  - unfold Scorer.score_batch, Scorer.bind, Scorer.get_self. cbn [fst].
    fold threshold. rewrite score_loop_spec, Hall. reflexivity.
  - split; [apply sort_desc_perm|]. split; [apply sort_desc_sorted|].
    intros v. apply sort_desc_stable.
Qed.

(** ** The neutral vector score *)

(** C5: a job that is not excluded is always scored, with final score the
    weighted sum of its three scores, and its vector score is 0.5 when the
    provider is the neutral one, when a call of [embed] made for it raised,
    when the profile text is empty, when the embedding returned for the profile
    text is empty, and whenever the profile embedding the scorer then holds is
    empty.  [score_batch] returns for every list of jobs. *)
Theorem neutral_vector_score :
  (forall (clock : list event -> Z) (self : Scorer.t) (tr : list event)
          (posting : JobPosting),
    not_excluded self posting ->
    (exists r self' new,
        Scorer.score clock posting (self, tr) = (Returns r, (self', (tr ++ new)%list)) /\
        final_score r
        = (vector_weight (Scorer.profile self) * vector_score r
           + keyword_weight (Scorer.profile self) * keyword_score r
           + recency_weight (Scorer.profile self) * recency_score r)%R /\
        (is_no_embedding (Scorer.embedding_provider self) = true ->
         vector_score r = 0.5%R) /\
        (existsb embed_raised new = true -> vector_score r = 0.5%R) /\
        (Scorer._profile_embedding self = None ->
         PyStr.truthy (profile_text self) = false -> vector_score r = 0.5%R) /\
        (forall vs, profile_embeds new = [Returns vs] ->
                    match vs with e :: _ => e | [] => [] end = [] ->
                    vector_score r = 0.5%R) /\
        (Scorer._profile_embedding self' = Some [] -> vector_score r = 0.5%R))) /\
  (forall (clock : list event -> Z) (st : Scorer.state)
          (jobs : list JobPosting) (min_score : option R),
      exists out st', Scorer.score_batch clock jobs min_score st = (Returns out, st')).
Proof.
  split; [|intros clock st jobs min_score; apply score_batch_total].
  intros clock self tr posting Hne.
  destruct (score_run clock self tr posting)
    as (r & self' & new & Hrun & _ & Hfinal & _ & _ & _ & Hcache & Hscored).
  destruct (Hscored Hne) as (_ & _ & Hneutral & Hraise & Hempty & Htext).
  exists r, self', new.
  split; [exact Hrun|]. split; [exact Hfinal|]. split; [exact Hneutral|].
  split; [exact Hraise|]. split; [exact Htext|]. split; [|exact Hempty].
  intros vs Hvs Hhd. apply Hempty.
  destruct (Scorer._profile_embedding self).
  - destruct Hcache as [_ Hnew]. rewrite Hnew in Hvs. discriminate.
  - destruct Hcache as [[_ [Hnew|(e & Hnew)]]|(c & -> & [Hnew|(vs' & Hnew & Hc)])];
      rewrite Hnew in Hvs; try discriminate.
    injection Hvs as ->. subst c. cbn [with_cache Scorer._profile_embedding].
    f_equal. exact Hhd.
Qed.

Lemma neutral_vector_score_witness :
  not_excluded (Scorer.new engineer_profile None) engineer_123 /\
  is_no_embedding (Scorer.embedding_provider (Scorer.new engineer_profile None)) = true /\
  (exists r self' new,
      Scorer.score (fixed_clock new_year_2025) engineer_123
        (Scorer.new engineer_profile None, [])
      = (Returns r, (self', ([] ++ new)%list)) /\
      vector_score r = 0.5%R) /\
  (exists out st',
      Scorer.score_batch (fixed_clock new_year_2025) five_jobs None
        (Scorer.new engineer_profile None, []) = (Returns out, st')).
Proof.
  assert (Hne : not_excluded (Scorer.new engineer_profile None) engineer_123)
    by (apply plain_job_not_excluded; reflexivity).
  destruct (proj1 neutral_vector_score (fixed_clock new_year_2025)
              (Scorer.new engineer_profile None) [] engineer_123 Hne)
    as (r & self' & new & Hrun & _ & Hneutral & _).
  split; [exact Hne|]. split; [reflexivity|].
  split; [|exact (proj2 neutral_vector_score (fixed_clock new_year_2025)
                    (Scorer.new engineer_profile None, []) five_jobs None)].
  exists r, self', new. split; [exact Hrun|exact (Hneutral eq_refl)].
Defined.

(** ** The cache of the profile embedding *)

Section CacheFacts.
Import Scorer.
Variable clock : list event -> Z.

(** A call of [score] whose embedding of the profile text raises. *)
Lemma score_when_embed_raises (self : t) (tr : list event) (posting : JobPosting)
    (e : exn) :
  not_excluded self posting ->
  is_no_embedding (embedding_provider self) = false ->
  _profile_embedding self = None ->
  PyStr.truthy (profile_text self) = true ->
  embed (embedding_provider self) (tr ++ [Now (clock tr)])%list [profile_text self]
  = Raises e ->
  exists r,
    score clock posting (self, tr)
    = (Returns r,
       (self, (tr ++ [Now (clock tr);
                      Embed ProfileText [profile_text self] (Raises e)])%list)).
Proof.
  intros Hne Hneutral Hcache Htext Hembed.
  destruct (score_scored clock self tr posting Hne 0.5%R self
              [Embed ProfileText [profile_text self] (Raises e)])
    as (r & Hrun & _).
  - unfold vector_step. rewrite Hneutral, try_except_ret, semantic_score_unfold.
    unfold bind.
    pose proof (get_profile_embedding_call self (tr ++ [Now (clock tr)])%list
                  Hcache Htext) as Hcall.
    cbv zeta in Hcall. rewrite Hcall, Hembed. reflexivity.
  - exists r. exact Hrun.
Qed.

End CacheFacts.

(** C8, as stated, fails: while the backend is down, every call of [score]
    invokes [embed] on the profile text again. *)
Lemma failing_backend_is_asked_twice :
  exists all self,
    Scorer.score_each (fixed_clock new_year_2025)
      [engineer_123; numbered_engineer "0"]
      (Scorer.new engineer_profile (Some (OtherProvider failing_backend)), [])
    = (Returns all,
       (self,
        [Now new_year_2025; Embed ProfileText ["Engineer"] (Raises ProviderError);
         Now new_year_2025; Embed ProfileText ["Engineer"] (Raises ProviderError)])).
Proof.
  set (self := Scorer.new engineer_profile (Some (OtherProvider failing_backend))).
  set (asked := Embed ProfileText ["Engineer"] (Raises ProviderError)).
  assert (H1 : exists r1,
             Scorer.score (fixed_clock new_year_2025) engineer_123 (self, [])
             = (Returns r1, (self, [Now new_year_2025; asked]))).
  { destruct (score_when_embed_raises (fixed_clock new_year_2025) self []
                engineer_123 ProviderError) as (r & H);
      try reflexivity; [apply plain_job_not_excluded; reflexivity|].
    exists r. exact H. }
  assert (H2 : exists r2,
             Scorer.score (fixed_clock new_year_2025) (numbered_engineer "0")
               (self, [Now new_year_2025; asked])
             = (Returns r2, (self, [Now new_year_2025; asked; Now new_year_2025; asked]))).
  { destruct (score_when_embed_raises (fixed_clock new_year_2025) self
                [Now new_year_2025; asked] (numbered_engineer "0") ProviderError)
      as (r & H);
      try reflexivity; [apply plain_job_not_excluded; reflexivity|].
    exists r. exact H. }
  destruct H1 as (r1 & H1). destruct H2 as (r2 & H2).
  exists [r1; r2], self.
  rewrite score_each_cons, H1, score_each_cons, H2. reflexivity.
Qed.

(** C8 (amended): over any sequence of calls of [score] on a new scorer, every
    call of [embed] on the profile text raised, but possibly the last one, whose
    result the scorer then holds; and once the scorer holds a profile
    embedding, a call of [score] leaves it unchanged and does not call [embed]
    on the profile text. *)
Theorem profile_embedding_computed_once :
  forall (clock : list event -> Z) (profile : MatchingProfile)
         (provider : option EmbeddingProvider) (jobs : list JobPosting),
    (exists all self tr,
        Scorer.score_each clock jobs (Scorer.new profile provider, [])
        = (Returns all, (self, tr)) /\
        embedded_once self tr) /\
    (forall (self : Scorer.t) (tr : list event) (c : vector) (posting : JobPosting),
        Scorer._profile_embedding self = Some c ->
        exists r new,
          Scorer.score clock posting (self, tr) = (Returns r, (self, (tr ++ new)%list)) /\
          profile_embeds new = []).
Proof.
  intros clock profile provider jobs. split.
  - destruct (score_each_embedded_once clock jobs (Scorer.new profile provider) [])
      as (all & self & new & Hrun & Hinv).
    + exists []. split; [constructor|reflexivity].
    + exists all, self, new. auto.
  - intros self tr c posting Hc.
    destruct (score_run clock self tr posting)
      as (r & self' & new & Hrun & _ & _ & _ & _ & _ & Hcache & _).
    rewrite Hc in Hcache. destruct Hcache as [-> Hnew].
    exists r, new. auto.
Qed.

Lemma profile_embedding_computed_once_witness :
  Scorer._profile_embedding
    (with_cache (Scorer.new engineer_profile (Some (OtherProvider constant_backend))) [1%R])
  = Some [1%R] /\
  exists r new,
    Scorer.score (fixed_clock new_year_2025) engineer_123
      (with_cache (Scorer.new engineer_profile (Some (OtherProvider constant_backend))) [1%R],
       [])
    = (Returns r,
       (with_cache (Scorer.new engineer_profile (Some (OtherProvider constant_backend))) [1%R],
        ([] ++ new)%list)) /\
    profile_embeds new = [].
Proof.
  split; [reflexivity|].
  exact (proj2 (profile_embedding_computed_once (fixed_clock new_year_2025)
                  engineer_profile None [])
           (with_cache (Scorer.new engineer_profile (Some (OtherProvider constant_backend)))
                       [1%R])
           [] [1%R] engineer_123 eq_refl).
Defined.

(** * Further properties *)

(** ** Normal texts *)

Lemma ascii_cases (P : ascii -> Prop) :
  (forall b0 b1 b2 b3 b4 b5 b6 b7, P (Ascii b0 b1 b2 b3 b4 b5 b6 b7)) -> forall c, P c.
Proof. intros H [b0 b1 b2 b3 b4 b5 b6 b7]. apply H. Qed.

Lemma lower_char_facts (c : ascii) :
  PyStr.isupper (PyStr.lower_char c) = false /\
  PyStr.is_word (PyStr.lower_char c) = PyStr.is_word c /\
  PyStr.isspace (PyStr.lower_char c) = PyStr.isspace c /\
  PyStr.lower_char (PyStr.lower_char c) = PyStr.lower_char c /\
  (PyStr.isupper c = false -> PyStr.lower_char c = c) /\
  (PyStr.isspace c = true -> PyStr.is_word c = false).
Proof.
  revert c. apply ascii_cases.
  intros [] [] [] [] [] [] [] []; vm_compute; repeat split; congruence.
Qed.



















(** ** Fingerprints *)

Lemma vote_length h v i : length (vote h v i) = length v.
Proof.
  unfold vote. destruct (v !! i); [|reflexivity].
  destruct (_ =? 0); apply length_insert.
Qed.

Lemma vote_lookup h v i j :
  vote h v i !! j
  = if decide (i = j) then (fun x => x + bit_vote h i) <$> v !! j else v !! j.
Proof.
  unfold vote, bit_vote. destruct (v !! i) as [x|] eqn:E.
  - pose proof (lookup_lt_Some _ _ _ E) as Hlt.
    destruct (decide (i = j)) as [<-|Hne].
    + rewrite E. destruct (_ =? 0); rewrite list_lookup_insert_eq by exact Hlt; reflexivity.
    + destruct (_ =? 0); rewrite list_lookup_insert_ne by exact Hne; reflexivity.
  - destruct (decide (i = j)) as [<-|Hne]; [rewrite E|]; reflexivity.
Qed.

Lemma votes_lookup h (k s : nat) : forall v j,
  fold_left (vote h) (seq s k) v !! j
  = if decide (s <= j < s + k)%nat then (fun x => x + bit_vote h j) <$> v !! j else v !! j.
Proof.
  revert s. induction k as [|k IH]; intros s v j; cbn [seq fold_left].
  - destruct (decide _); [lia|reflexivity].
  - rewrite IH, vote_lookup.
    destruct (decide (s = j)) as [<-|Hne].
    + destruct (decide (S s <= s < S s + k)%nat); [lia|].
      destruct (decide (s <= s < s + S k)%nat); [reflexivity|lia].
    + destruct (decide (S s <= j < S s + k)%nat), (decide (s <= j < s + S k)%nat);
        try lia; reflexivity.
Qed.

Lemma votes_length h l : forall v, length (fold_left (vote h) l v) = length v.
Proof.
  induction l as [|i l IH]; intros v; cbn [fold_left]; [reflexivity|].
  rewrite IH. apply vote_length.
Qed.

Lemma tally_cons (w : string) (words : list string) (i : nat) :
  tally (w :: words) i = bit_vote (Hashlib.MD5.to_int w) i + tally words i.
Proof. reflexivity. Qed.

Lemma words_lookup (n : nat) (words : list string) : forall v j,
  length v = n ->
  fold_left (fun v word => fold_left (vote (Hashlib.MD5.to_int word)) (seq 0 n) v) words v !! j
  = (fun x => x + tally words j) <$> v !! j.
Proof.
  induction words as [|w words IH]; intros v j Hlen; cbn [fold_left].
  - change (tally [] j) with 0. destruct (v !! j); simpl; [f_equal; lia|reflexivity].
  - rewrite IH by (rewrite votes_length; exact Hlen).
    rewrite votes_lookup, tally_cons. destruct (decide (0 <= j < 0 + n)%nat) as [Hj|Hj].
    + destruct (v !! j); simpl; [f_equal; lia|reflexivity].
    + rewrite (lookup_ge_None_2 v j) by lia. reflexivity.
Qed.

Lemma set_bits_testbit (n : nat) (v : list Z) (j : Z) :
  0 <= j ->
  Z.testbit
    (fold_left
       (fun fingerprint i =>
          match v !! i with
          | Some x => if x >? 0 then Z.lor fingerprint (Z.shiftl 1 (Z.of_nat i))
                      else fingerprint
          | None => fingerprint
          end)
       (seq 0 n) 0) j
  = (j <? Z.of_nat n) && match v !! Z.to_nat j with Some x => x >? 0 | None => false end.
Proof.
  intros Hj. induction n as [|n IH].
  - cbn [seq fold_left]. rewrite Z.bits_0.
    destruct (Z.ltb_spec j (Z.of_nat 0)); [lia|reflexivity].
  - rewrite seq_S, fold_left_app. cbn [fold_left Nat.add].
    assert (Hbit : Z.testbit (Z.shiftl 1 (Z.of_nat n)) j = (j =? Z.of_nat n)).
    { rewrite Z.shiftl_1_l, Z.pow2_bits_eqb by lia. apply Z.eqb_sym. }
    destruct (Z.eq_dec j (Z.of_nat n)) as [->|Hne].
    + rewrite Nat2Z.id, Z.eqb_refl in *.
      destruct (Z.ltb_spec (Z.of_nat n) (Z.of_nat (S n))); [|lia].
      rewrite Z.ltb_irrefl in IH. cbn [andb] in *.
      destruct (v !! n) as [x|]; [|exact IH].
      destruct (x >? 0); [|exact IH].
      rewrite Z.lor_spec, Hbit. apply orb_true_r.
    + assert (Hlt : (j <? Z.of_nat (S n)) = (j <? Z.of_nat n)).
      { destruct (Z.ltb_spec j (Z.of_nat (S n))), (Z.ltb_spec j (Z.of_nat n));
          try reflexivity; lia. }
      rewrite Hlt, <- IH.
      destruct (v !! n) as [x|]; [|reflexivity].
      destruct (x >? 0); [|reflexivity].
      rewrite Z.lor_spec, Hbit.
      destruct (Z.eqb_spec j (Z.of_nat n)); [contradiction|].
      apply orb_false_r.
Qed.

Lemma set_bits_nonneg (l : list nat) (v : list Z) : forall fp,
  0 <= fp ->
  0 <= fold_left
         (fun fingerprint i =>
            match v !! i with
            | Some x => if x >? 0 then Z.lor fingerprint (Z.shiftl 1 (Z.of_nat i))
                        else fingerprint
            | None => fingerprint
            end) l fp.
Proof.
  induction l as [|i l IH]; intros fp Hfp; cbn [fold_left]; [exact Hfp|].
  apply IH. destruct (v !! i) as [x|]; [|exact Hfp].
  destruct (x >? 0); [|exact Hfp].
  apply Z.lor_nonneg. split; [exact Hfp|]. apply Z.shiftl_nonneg. lia.
Qed.

Lemma repeat_lookup {A} (x : A) (n : nat) : forall i, (i < n)%nat -> repeat x n !! i = Some x.
Proof.
  induction n as [|n IH]; intros i Hi; [lia|].
  destruct i as [|i]; [reflexivity|]. cbn. apply IH. lia.
Qed.

(** Bit [i] of the fingerprint is set exactly when [i] is below the width and
    more words of the text have the bit set in their MD5 than not. *)
Lemma simhash_testbit (text : string) (hash_bits i : Z) :
  0 <= i ->
  Z.testbit (simhash text hash_bits) i
  = (i <? hash_bits) && (0 <? tally (PyStr.split (normalize_text text)) (Z.to_nat i)).
Proof.
  intros Hi. unfold simhash.
  set (words := PyStr.split (normalize_text text)).
  destruct words as [|w ws] eqn:Hw.
  - rewrite Z.bits_0. cbn. rewrite andb_false_r. reflexivity.
  - rewrite <- Hw. unfold range. set (n := Z.to_nat hash_bits).
    rewrite set_bits_testbit by exact Hi.
    rewrite words_lookup by apply repeat_length.
    assert (Hlt : (i <? Z.of_nat n) = (i <? hash_bits)).
    { unfold n. destruct (Z.ltb_spec i (Z.of_nat (Z.to_nat hash_bits))),
        (Z.ltb_spec i hash_bits); try reflexivity; lia. }
    rewrite Hlt. destruct (Z.ltb_spec i hash_bits) as [Hin|Hout]; [|reflexivity].
    cbn [andb].
    assert (Hrep : repeat 0 n !! Z.to_nat i = Some 0).
    { apply repeat_lookup. unfold n. lia. }
    rewrite Hrep. cbn. destruct (tally words (Z.to_nat i)); reflexivity.
Qed.

Lemma simhash_nonneg (text : string) (hash_bits : Z) : 0 <= simhash text hash_bits.
Proof.
  unfold simhash. destruct (PyStr.split (normalize_text text)); [lia|].
  apply set_bits_nonneg. lia.
Qed.

Lemma bit_vote_testbit (h : Z) (i : nat) :
  bit_vote h i = if Z.testbit h (Z.of_nat i) then 1 else -1.
Proof.
  unfold bit_vote.
  assert (H : Z.land h (Z.shiftl 1 (Z.of_nat i))
              = if Z.testbit h (Z.of_nat i) then 2 ^ Z.of_nat i else 0).
  { apply Z.bits_inj'. intros n Hn.
    rewrite Z.land_spec, Z.shiftl_1_l, Z.pow2_bits_eqb by lia.
    destruct (Z.eqb_spec (Z.of_nat i) n) as [<-|Hne].
    - destruct (Z.testbit h (Z.of_nat i)).
      + rewrite Z.pow2_bits_eqb, Z.eqb_refl by lia. reflexivity.
      + rewrite Z.bits_0. reflexivity.
    - rewrite andb_false_r. destruct (Z.testbit h (Z.of_nat i)).
      + rewrite Z.pow2_bits_eqb by lia. symmetry. apply Z.eqb_neq. exact Hne.
      + rewrite Z.bits_0. reflexivity. }
  rewrite H. destruct (Z.testbit h (Z.of_nat i)); [|reflexivity].
  destruct (Z.eqb_spec (2 ^ Z.of_nat i) 0) as [E|]; [|reflexivity].
  pose proof (Z.pow_pos_nonneg 2 (Z.of_nat i)). lia.
Qed.

Lemma tally_count (words : list string) (i : nat) :
  tally words i
  = 2 * Z.of_nat (length (words_with_bit words (Z.of_nat i))) - Z.of_nat (length words).
Proof.
  induction words as [|w words IH]; [reflexivity|].
  rewrite tally_cons, IH, bit_vote_testbit. unfold words_with_bit. cbn [List.filter].
  destruct (Z.testbit (Hashlib.MD5.to_int w) (Z.of_nat i)); cbn [length]; lia.
Qed.

Lemma tally_perm (ws1 ws2 : list string) (i : nat) :
  Permutation ws1 ws2 -> tally ws1 i = tally ws2 i.
Proof.
  induction 1; rewrite ?tally_cons; lia.
Qed.

(** X2: bit [i] of the fingerprint is set exactly when [i] is below the width
    and more than half of the words of the normalized text have bit [i] set in
    their MD5. *)
Theorem simhash_bit_majority (text : string) (hash_bits : Z) (i : nat) :
  let words := PyStr.split (normalize_text text) in
  Z.testbit (simhash text hash_bits) (Z.of_nat i)
  = (Z.of_nat i <? hash_bits)
    && (Z.of_nat (length words) <? 2 * Z.of_nat (length (words_with_bit words (Z.of_nat i)))).
Proof.
  intros words. rewrite simhash_testbit by lia. rewrite Nat2Z.id, tally_count.
  fold words. f_equal.
  destruct (Z.ltb_spec 0 (2 * Z.of_nat (length (words_with_bit words (Z.of_nat i)))
                          - Z.of_nat (length words))),
    (Z.ltb_spec (Z.of_nat (length words))
       (2 * Z.of_nat (length (words_with_bit words (Z.of_nat i))))); try reflexivity; lia.
Qed.

Lemma simhash_below (text : string) (hash_bits : Z) :
  0 <= simhash text hash_bits < 2 ^ Z.max 0 hash_bits.
Proof.
  split; [apply simhash_nonneg|].
  pose proof (simhash_nonneg text hash_bits) as Hnn.
  destruct (Z.eq_dec (simhash text hash_bits) 0) as [E|Hne].
  - rewrite E. apply Z.pow_pos_nonneg; lia.
  - apply Z.log2_lt_pow2; [lia|].
    destruct (Z.lt_ge_cases (Z.log2 (simhash text hash_bits)) (Z.max 0 hash_bits))
      as [Hlt|Hge]; [exact Hlt|].
    pose proof (Z.bit_log2 (simhash text hash_bits) ltac:(lia)) as Hbit.
    rewrite simhash_testbit in Hbit by apply Z.log2_nonneg.
    destruct (Z.ltb_spec (Z.log2 (simhash text hash_bits)) hash_bits); [lia|discriminate].
Qed.

(** X3: a fingerprint is a natural number below [2 ^ hash_bits], and [0] when
    the width is not positive. *)
Theorem simhash_range (text : string) (hash_bits : Z) :
  0 <= simhash text hash_bits < 2 ^ Z.max 0 hash_bits.
Proof. apply simhash_below. Qed.

(** X4: the fingerprint does not depend on the order of the words: two texts
    whose normalized word lists are permutations of each other have the same
    fingerprint at every width. *)
Theorem simhash_word_order (text1 text2 : string) (hash_bits : Z) :
  Permutation (PyStr.split (normalize_text text1)) (PyStr.split (normalize_text text2)) ->
  simhash text1 hash_bits = simhash text2 hash_bits.
Proof.
  intros Hperm. apply Z.bits_inj'. intros n Hn.
  rewrite !simhash_testbit by exact Hn.
  rewrite (tally_perm _ _ _ Hperm). reflexivity.
Qed.

Lemma simhash_word_order_witness :
  Permutation (PyStr.split (normalize_text "Senior Backend Engineer"))
              (PyStr.split (normalize_text "backend, SENIOR engineer!")) /\
  simhash "Senior Backend Engineer" 64 = simhash "backend, SENIOR engineer!" 64.
Proof.
  assert (H : Permutation (PyStr.split (normalize_text "Senior Backend Engineer"))
                          (PyStr.split (normalize_text "backend, SENIOR engineer!"))).
  { vm_compute. apply perm_swap. }
  split; [exact H|]. apply (simhash_word_order _ _ 64 H).
Defined.

(** ** Similarity of fingerprints *)

Lemma popcount_pos_positive (p : positive) : 0 < popcount_pos p.
Proof. induction p; cbn [popcount_pos]; lia. Qed.

Lemma popcount_pos_size (p : positive) : popcount_pos p <= Z.pos (Pos.size p).
Proof. induction p; cbn [popcount_pos Pos.size]; lia. Qed.


Lemma count_ones_nonneg (x : Z) : 0 <= count_ones x.
Proof.
  destruct x as [|p|p]; cbn [count_ones]; [lia| |]; pose proof (popcount_pos_positive p); lia.
Qed.

Lemma count_ones_width (x bits : Z) : 0 <= x < 2 ^ bits -> 0 <= bits -> count_ones x <= bits.
Proof.
  intros [H0 Hlt] Hb. destruct x as [|p|p]; cbn [count_ones]; [lia| |lia].
  pose proof (popcount_pos_size p) as Hs.
  assert (Hlog : Z.log2 (Z.pos p) < bits) by (apply Z.log2_lt_pow2; lia).
  assert (Hsz : Z.pos (Pos.size p) = Z.succ (Z.log2 (Z.pos p))).
  { destruct p; cbn [Z.log2 Pos.size]; lia. }
  lia.
Qed.

Lemma lxor_width (a b bits : Z) :
  0 <= bits -> 0 <= a < 2 ^ bits -> 0 <= b < 2 ^ bits -> 0 <= Z.lxor a b < 2 ^ bits.
Proof.
  intros Hb Ha Hbb.
  assert (Hnn : 0 <= Z.lxor a b) by (apply Z.lxor_nonneg; lia).
  split; [exact Hnn|].
  destruct (Z.eq_dec (Z.lxor a b) 0) as [E|Hne]; [rewrite E; apply Z.pow_pos_nonneg; lia|].
  apply Z.log2_lt_pow2; [lia|].
  destruct (Z.lt_ge_cases (Z.log2 (Z.lxor a b)) bits) as [Hlt|Hge]; [exact Hlt|].
  pose proof (Z.bit_log2 (Z.lxor a b) ltac:(lia)) as Hbit.
  rewrite Z.lxor_spec in Hbit.
  assert (Hhigh : forall x, 0 <= x < 2 ^ bits -> Z.testbit x (Z.log2 (Z.lxor a b)) = false).
  { intros x Hx. destruct (Z.eq_dec x 0) as [->|Hx0]; [apply Z.bits_0|].
    apply Z.bits_above_log2; [lia|].
    assert (Z.log2 x < bits) by (apply Z.log2_lt_pow2; lia). lia. }
  rewrite (Hhigh a Ha), (Hhigh b Hbb) in Hbit. discriminate.
Qed.


(** X6: for two fingerprints made by [simhash] at one positive width, the
    similarity at that width is returned and lies between 0 and 1. *)
Theorem simhash_similarity_unit (text1 text2 : string) (hash_bits : Z) :
  0 < hash_bits ->
  exists s : R,
    simhash_similarity (simhash text1 hash_bits) (simhash text2 hash_bits) hash_bits
    = Returns s /\ (0 <= s <= 1)%R.
Proof.
  intros Hb. unfold simhash_similarity, hamming_distance.
  destruct (Z.eqb_spec hash_bits 0) as [->|_]; [lia|].
  eexists. split; [reflexivity|].
  pose proof (simhash_below text1 hash_bits) as H1.
  pose proof (simhash_below text2 hash_bits) as H2.
  rewrite Z.max_r in H1, H2 by lia.
  pose proof (lxor_width _ _ hash_bits ltac:(lia) H1 H2) as Hx.
  pose proof (count_ones_width _ _ Hx ltac:(lia)) as Hc.
  pose proof (count_ones_nonneg (Z.lxor (simhash text1 hash_bits) (simhash text2 hash_bits))) as Hn.
  apply IZR_le in Hc, Hn. assert (Hp : (0 < IZR hash_bits)%R) by (apply IZR_lt; lia).
  set (d := IZR (count_ones _)) in *.
  assert (Hq : (0 <= d / IZR hash_bits <= 1)%R).
  { split.
    - apply Rmult_le_pos; [exact Hn|]. left. apply Rinv_0_lt_compat. exact Hp.
    - apply (Rmult_le_reg_r (IZR hash_bits)); [exact Hp|].
      unfold Rdiv. rewrite Rmult_assoc, Rinv_l, Rmult_1_r, Rmult_1_l by lra. exact Hc. }
  lra.
Qed.

Lemma simhash_similarity_unit_witness :
  0 < 64 /\
  exists s : R,
    simhash_similarity (simhash "Senior Backend Engineer" 64) (simhash "Sales manager" 64) 64
    = Returns s /\ (0 <= s <= 1)%R.
Proof.
  split; [lia|]. apply (simhash_similarity_unit "Senior Backend Engineer" "Sales manager" 64). lia.
Defined.

(** ** The deduplicator *)

Lemma dedupe_from_result (jobs : list JobPosting) :
  forall d acc, exists news d',
    dedupe_from d jobs acc = Returns ((acc ++ news)%list, d') /\
    sublist news jobs /\
    NoDup (map _get_exact_key news) /\
    (forall j, j ∈ news ->
               (_get_exact_key j ∉ _seen_ids d) /\ exists_in_database d j = false) /\
    _seen_ids d' = list_to_set (map _get_exact_key news) ∪ _seen_ids d /\
    similarity_threshold d' = similarity_threshold d /\
    job_exists_fn d' = job_exists_fn d.
Proof.
  induction jobs as [|j jobs IH]; intros d acc; cbn [dedupe_from].
  - exists [], d. rewrite app_nil_r. repeat split.
    + constructor.
    + constructor.
    + apply elem_of_nil in H. contradiction.
    + apply elem_of_nil in H. contradiction.
    + cbn [map list_to_set]. symmetry. apply (left_id_L ∅ (∪)).
  - rewrite is_duplicate_spec.
    assert (Hdup : forall acc', exists news d',
      dedupe_from d jobs acc' = Returns ((acc' ++ news)%list, d') /\
      sublist news (j :: jobs) /\
      NoDup (map _get_exact_key news) /\
      (forall j, j ∈ news ->
                 (_get_exact_key j ∉ _seen_ids d) /\ exists_in_database d j = false) /\
      _seen_ids d' = list_to_set (map _get_exact_key news) ∪ _seen_ids d /\
      similarity_threshold d' = similarity_threshold d /\
      job_exists_fn d' = job_exists_fn d).
    { intros acc'. destruct (IH d acc') as (news & d' & Hrun & Hsub & Hrest).
      exists news, d'. split; [exact Hrun|]. split; [|exact Hrest].
      apply sublist_cons. exact Hsub. }
    destruct (bool_decide (_get_exact_key j ∈ _seen_ids d)) eqn:Hseen;
      [cbn; apply Hdup|].
    destruct (exists_in_database d j) eqn:Hdb; [cbn; apply Hdup|].
    destruct (fuzzy_match d j); [cbn; apply Hdup|]. cbn [bind_outcome].
    apply bool_decide_eq_false_1 in Hseen.
    destruct (IH (remember d j) (acc ++ [j])%list)
      as (news & d' & Hrun & Hsub & Hnd & Hnew & Hids & Hthr & Hfn).
    exists (j :: news), d'. split; [|split; [|split; [|split; [|split; [|split]]]]].
    + rewrite Hrun, <- app_assoc. reflexivity.
    + apply sublist_skip. exact Hsub.
    + cbn [map]. apply NoDup_cons. split; [|exact Hnd].
      intros Hin. apply list_elem_of_fmap in Hin as (j' & Heq & Hin').
      destruct (Hnew j' Hin') as [Hnot _]. apply Hnot. cbn [remember _seen_ids].
      apply elem_of_union_l, elem_of_singleton. symmetry. exact Heq.
    + intros j' [->|Hin]%elem_of_cons; [split; assumption|].
      destruct (Hnew j' Hin) as [Hnot Hex]. split.
      * intros Hs. apply Hnot. cbn [remember _seen_ids]. apply elem_of_union_r. exact Hs.
      * exact Hex.
    + rewrite Hids. cbn [remember _seen_ids map list_to_set].
      rewrite (assoc_L (∪)). f_equal. apply (comm_L (∪)).
    + exact Hthr.
    + exact Hfn.
Qed.

Lemma dedupe_from_seen (jobs : list JobPosting) :
  forall d acc,
    (forall j, j ∈ jobs -> _get_exact_key j ∈ _seen_ids d) ->
    dedupe_from d jobs acc = Returns (acc, d).
Proof.
  induction jobs as [|j jobs IH]; intros d acc Hseen; cbn [dedupe_from]; [reflexivity|].
  rewrite is_duplicate_spec.
  rewrite bool_decide_eq_true_2 by (apply Hseen; left).
  cbn. apply IH. intros j' Hin. apply Hseen. right. exact Hin.
Qed.

(** X7: [dedupe] returns, in the order of the input, a part of the input whose
    exact keys are pairwise distinct, none of them seen before the call and none
    known to the external check; the seen keys after the call are those before
    it and those of the postings returned. *)
Theorem dedupe_result (d : Deduplicator) (jobs : list JobPosting) :
  exists (unique : list JobPosting) (d' : Deduplicator),
    dedupe d jobs = Returns (unique, d') /\
    sublist unique jobs /\
    NoDup (map _get_exact_key unique) /\
    (forall j, j ∈ unique ->
               (_get_exact_key j ∉ _seen_ids d) /\ exists_in_database d j = false) /\
    _seen_ids d' = list_to_set (map _get_exact_key unique) ∪ _seen_ids d.
Proof.
  destruct (dedupe_from_result jobs d []) as (news & d' & Hrun & Hsub & Hnd & Hnew & Hids & _).
  exists news, d'. repeat split; try assumption; apply Hnew; assumption.
Qed.

(** X8: what [dedupe] returned is a duplicate from then on: after any further
    call of [dedupe], a call on the postings returned before returns the empty
    list and leaves the deduplicator as it is. *)
Theorem dedupe_again (d d1 d2 : Deduplicator) (jobs more unique kept : list JobPosting) :
  dedupe d jobs = Returns (unique, d1) ->
  dedupe d1 more = Returns (kept, d2) ->
  dedupe d2 unique = Returns ([], d2).
Proof.
  unfold dedupe. intros H1 H2.
  destruct (dedupe_from_result jobs d []) as (n1 & e1 & R1 & _ & _ & _ & I1 & _).
  destruct (dedupe_from_result more d1 []) as (n2 & e2 & R2 & _ & _ & _ & I2 & _).
  rewrite R1 in H1. rewrite R2 in H2. cbn [app] in H1, H2.
  injection H1 as <- <-. injection H2 as <- <-.
  apply dedupe_from_seen. intros j Hin. rewrite I2, I1.
  apply elem_of_union_r, elem_of_union_l, elem_of_list_to_set.
  apply list_elem_of_fmap_2. exact Hin.
Qed.

(** X9: [dedupe] changes neither the threshold nor the external check, so
    [reset] after it gives the deduplicator as it was constructed. *)
Theorem reset_restores (d d' : Deduplicator) (jobs unique : list JobPosting) :
  dedupe d jobs = Returns (unique, d') ->
  reset d' = new_deduplicator (similarity_threshold d) (job_exists_fn d).
Proof.
  unfold dedupe. intros H.
  destruct (dedupe_from_result jobs d []) as (n1 & e1 & R1 & _ & _ & _ & _ & Hthr & Hfn).
  rewrite R1 in H. injection H as _ <-.
  unfold reset, new_deduplicator. rewrite Hthr, Hfn. reflexivity.
Qed.

(** X10: with a threshold above 1 the fuzzy check never fires: a posting is a
    duplicate exactly when its exact key was seen or the external check knows
    it, and is recorded otherwise. *)
Theorem threshold_above_one (d : Deduplicator) (job : JobPosting) :
  (1 < similarity_threshold d)%R ->
  is_duplicate d job
  = Returns (if bool_decide (_get_exact_key job ∈ _seen_ids d) || exists_in_database d job
             then (true, d) else (false, remember d job)).
Proof.
  intros Hthr. rewrite is_duplicate_spec.
  destruct (bool_decide _); [reflexivity|].
  destruct (exists_in_database d job); [reflexivity|]. cbn [orb].
  unfold fuzzy_match. destruct (_seen_hashes d !! _get_fuzzy_key job) as [h|]; [|reflexivity].
  rewrite similar_false; [reflexivity|].
  unfold hamming_distance.
  pose proof (IZR_le _ _ (count_ones_nonneg (Z.lxor (_get_content_hash job) h))).
  lra.
Qed.

Lemma five_jobs_run :
  dedupe new_session five_jobs = Returns (five_jobs, fold_left remember five_jobs new_session).
Proof.
  unfold dedupe. apply (dedupe_from_fresh five_jobs new_session []).
  - apply (bool_decide_unpack _). vm_compute. exact I.
  - apply (bool_decide_unpack _). vm_compute. exact I.
  - intros j Hin. split; [|split]; [|reflexivity|reflexivity].
    cbn. apply not_elem_of_empty.
Qed.

Lemma dedupe_again_witness :
  dedupe new_session five_jobs = Returns (five_jobs, fold_left remember five_jobs new_session) /\
  dedupe (fold_left remember five_jobs new_session) []
  = Returns ([], fold_left remember five_jobs new_session) /\
  dedupe (fold_left remember five_jobs new_session) five_jobs
  = Returns ([], fold_left remember five_jobs new_session).
Proof.
  split; [exact five_jobs_run|]. split; [reflexivity|].
  exact (dedupe_again _ _ _ _ [] _ [] five_jobs_run eq_refl).
Defined.

Lemma reset_restores_witness :
  dedupe new_session five_jobs = Returns (five_jobs, fold_left remember five_jobs new_session) /\
  reset (fold_left remember five_jobs new_session)
  = new_deduplicator (similarity_threshold new_session) (job_exists_fn new_session).
Proof.
  split; [exact five_jobs_run|]. exact (reset_restores _ _ _ _ five_jobs_run).
Defined.

Lemma threshold_above_one_witness :
  (1 < similarity_threshold (new_deduplicator 1.5 None))%R /\
  is_duplicate (new_deduplicator 1.5 None) engineer_123
  = Returns (if bool_decide (_get_exact_key engineer_123
                             ∈ _seen_ids (new_deduplicator 1.5 None))
                || exists_in_database (new_deduplicator 1.5 None) engineer_123
             then (true, new_deduplicator 1.5 None)
             else (false, remember (new_deduplicator 1.5 None) engineer_123)).
Proof.
  assert (H : (1 < similarity_threshold (new_deduplicator 1.5 None))%R) by (cbn; lra).
  split; [exact H|]. exact (threshold_above_one _ engineer_123 H).
Defined.

(** ** Keyword and recency scores *)

Lemma lower_lower (s : string) : PyStr.lower (PyStr.lower s) = PyStr.lower s.
Proof.
  unfold PyStr.lower. induction s as [|c s IH]; cbn [PyStr.smap]; [reflexivity|].
  rewrite IH. f_equal. exact (proj1 (proj2 (proj2 (proj2 (lower_char_facts c))))).
Qed.

Lemma lower_app (s t : string) : PyStr.lower (s +:+ t) = PyStr.lower s +:+ PyStr.lower t.
Proof.
  unfold PyStr.lower. induction s as [|c s IH]; [reflexivity|].
  change (String c s +:+ t) with (String c (s +:+ t)). cbn [PyStr.smap]. rewrite IH.
  reflexivity.
Qed.

Lemma lower_join (parts : list string) :
  PyStr.lower (PyStr.join " " parts) = PyStr.join " " (map PyStr.lower parts).
Proof.
  unfold PyStr.join. induction parts as [|p parts IH]; [reflexivity|].
  destruct parts as [|q parts]; [reflexivity|].
  change (PyStr.lower (p +:+ " " +:+ String.concat " " (q :: parts))
          = PyStr.lower p +:+ " " +:+ String.concat " " (map PyStr.lower (q :: parts))).
  rewrite !lower_app, IH. reflexivity.
Qed.

Lemma some_text_lower (x : option string) :
  some_text (option_map PyStr.lower x) = option_map PyStr.lower (some_text x).
Proof. destruct x as [[|c s]|]; reflexivity. Qed.

Lemma searchable_text_lower (job : JobPosting) :
  get_searchable_text (lower_job job) = PyStr.lower (get_searchable_text job).
Proof.
  unfold get_searchable_text. rewrite lower_join.
  cbn [lower_job title description_text requirements department].
  rewrite !some_text_lower. f_equal.
  destruct (some_text (description_text job)), (some_text (department job));
    cbn [option_map]; rewrite ?map_app; reflexivity.
Qed.

Lemma word_opt_lower (prev : option ascii) :
  PyStr.word_opt (option_map PyStr.lower_char prev) = PyStr.word_opt prev.
Proof.
  destruct prev as [c|]; [exact (proj1 (proj2 (lower_char_facts c)))|reflexivity].
Qed.

Lemma shead_lower (text : string) :
  PyStr.shead (PyStr.lower text) = option_map PyStr.lower_char (PyStr.shead text).
Proof. destruct text; reflexivity. Qed.

Lemma boundary_lower (prev : option ascii) (text : string) :
  PyStr.boundary (option_map PyStr.lower_char prev) (PyStr.shead (PyStr.lower text))
  = PyStr.boundary prev (PyStr.shead text).
Proof. unfold PyStr.boundary. rewrite shead_lower, !word_opt_lower. reflexivity. Qed.

Lemma match_here_lower (lit : string) : forall text prev,
  PyStr.match_here lit (PyStr.lower text) (option_map PyStr.lower_char prev)
  = PyStr.match_here lit text prev.
Proof.
  induction lit as [|a lit IH]; intros text prev; cbn [PyStr.match_here].
  - apply boundary_lower.
  - destruct text as [|c text]; [reflexivity|].
    change (PyStr.lower (String c text)) with (String (PyStr.lower_char c) (PyStr.lower text)).
    cbn [PyStr.match_here].
    change (Some (PyStr.lower_char c)) with (option_map PyStr.lower_char (Some c)).
    rewrite (IH text (Some c)).
    rewrite (proj1 (proj2 (proj2 (proj2 (lower_char_facts c))))). reflexivity.
Qed.

Lemma search_from_lower (lit text : string) : forall prev,
  PyStr.search_from lit (PyStr.lower text) (option_map PyStr.lower_char prev)
  = PyStr.search_from lit text prev.
Proof.
  induction text as [|c text IH]; intros prev.
  - pose proof (match_here_lower lit "" prev) as H1.
    pose proof (boundary_lower prev "") as H2.
    change (PyStr.lower "") with "" in *.
    cbn [PyStr.search_from]. unfold PyStr.match_at. rewrite H1, H2. reflexivity.
  - change (PyStr.lower (String c text)) with (String (PyStr.lower_char c) (PyStr.lower text)).
    cbn [PyStr.search_from].
    change (Some (PyStr.lower_char c)) with (option_map PyStr.lower_char (Some c)).
    rewrite (IH (Some c)). unfold PyStr.match_at.
    change (String (PyStr.lower_char c) (PyStr.lower text)) with (PyStr.lower (String c text)).
    rewrite match_here_lower, boundary_lower. reflexivity.
Qed.

Lemma search_lower (p : PyStr.Pattern) (text : string) :
  PyStr.search p (PyStr.lower text) = PyStr.search p text.
Proof. apply (search_from_lower (PyStr.literal p) text None). Qed.

Lemma first_match_lower (patterns : list PyStr.Pattern) (text : string) :
  first_match patterns (PyStr.lower text) = first_match patterns text.
Proof.
  unfold first_match. induction patterns as [|p ps IH]; cbn [find]; [reflexivity|].
  rewrite search_lower, IH. reflexivity.
Qed.

Lemma filter_search_lower (patterns : list PyStr.Pattern) (text : string) :
  List.filter (fun p => PyStr.search p (PyStr.lower text)) patterns
  = List.filter (fun p => PyStr.search p text) patterns.
Proof.
  induction patterns as [|p ps IH]; cbn [List.filter]; [reflexivity|].
  rewrite search_lower, IH. reflexivity.
Qed.

(** X11: the keyword score and its reasons do not depend on the case of the
    posting's texts: a posting and the same posting in lower case are scored
    alike by every keyword scorer. *)
Theorem keyword_score_ignores_case (self : KeywordScorer.t) (job : JobPosting) :
  KeywordScorer.score self (lower_job job) = KeywordScorer.score self job.
Proof.
  unfold KeywordScorer.score, KeywordScorer.accumulate.
  rewrite searchable_text_lower, first_match_lower, filter_search_lower.
  cbn [lower_job title location remote_type].
  rewrite lower_lower, some_text_lower.
  destruct (first_match (KeywordScorer._must_not self) _); [reflexivity|].
  destruct (some_text (location job)) as [loc|]; cbn [option_map]; [|reflexivity].
  rewrite lower_lower. reflexivity.
Qed.

Lemma clamp_monotone (x y : R) : (x <= y)%R -> (Rmax 0 (Rmin 1 x) <= Rmax 0 (Rmin 1 y))%R.
Proof.
  intros H. unfold Rmax, Rmin.
  destruct (Rle_dec 1 x), (Rle_dec 1 y);
  repeat match goal with |- context [Rle_dec ?a ?b] => destruct (Rle_dec a b) end; lra.
Qed.

(** X12: the recency score grows with the posting time: of two dated postings
    scored at the same moment, the one posted later scores at least as high,
    whatever the maximal age. *)
Theorem recency_score_monotone (self : RecencyScorer.t) (now posted1 posted2 : datetime)
    (job1 job2 : JobPosting) :
  posted_at job1 = Some posted1 ->
  posted_at job2 = Some posted2 ->
  instant_us posted1 <= instant_us posted2 ->
  (RecencyScorer.score self now job1 <= RecencyScorer.score self now job2)%R.
Proof.
  intros H1 H2 Hle.
  pose proof (recency_score_bounds self now job1) as B1.
  pose proof (recency_score_bounds self now job2) as B2.
  rewrite (recency_score_age self now posted1 job1 H1) in *.
  rewrite (recency_score_age self now posted2 job2 H2) in *.
  cbv zeta in *.
  assert (Hage : (age_in_days now posted2 <= age_in_days now posted1)%R).
  { unfold age_in_days, total_seconds, datetime_sub.
    assert (IZR (instant_us now - instant_us posted2)
            <= IZR (instant_us now - instant_us posted1))%R by (apply IZR_le; lia).
    lra. }
  set (a1 := age_in_days now posted1) in *. set (a2 := age_in_days now posted2) in *.
  set (m := IZR (RecencyScorer.max_age_days self)) in *.
  destruct (Rle_dec a1 0) as [L1|L1].
  { destruct (Rle_dec a2 0); [lra|lra]. }
  destruct (Rge_dec a1 m) as [G1|G1]; [lra|].
  destruct (Rle_dec a2 0) as [L2|L2]; [lra|].
  destruct (Rge_dec a2 m) as [G2|G2]; [lra|].
  assert (Hm : (0 < m)%R) by lra.
  apply clamp_monotone.
  assert (Hq : (a2 / m <= a1 / m)%R).
  { unfold Rdiv. apply Rmult_le_compat_r; [|exact Hage].
    left. apply Rinv_0_lt_compat. exact Hm. }
  assert (Hp2 : (0 < a2 / m)%R) by (apply Rdiv_lt_0_compat; lra).
  assert (Hp1 : (0 < a1 / m)%R) by (apply Rdiv_lt_0_compat; lra).
  rewrite !Rpower_half by assumption.
  pose proof (sqrt_le_1 (a2 / m) (a1 / m) ltac:(lra) ltac:(lra) Hq). lra.
Qed.

Lemma recency_score_monotone_witness :
  posted_at (engineer_posted (Some (utc (new_year_2025 - 25 * day_us))))
  = Some (utc (new_year_2025 - 25 * day_us)) /\
  posted_at (engineer_posted (Some (utc (new_year_2025 - hour_us))))
  = Some (utc (new_year_2025 - hour_us)) /\
  instant_us (utc (new_year_2025 - 25 * day_us)) <= instant_us (utc (new_year_2025 - hour_us)) /\
  (RecencyScorer.score RecencyScorer.new (utc new_year_2025)
     (engineer_posted (Some (utc (new_year_2025 - 25 * day_us))))
   <= RecencyScorer.score RecencyScorer.new (utc new_year_2025)
        (engineer_posted (Some (utc (new_year_2025 - hour_us)))))%R.
Proof.
  assert (H : instant_us (utc (new_year_2025 - 25 * day_us))
              <= instant_us (utc (new_year_2025 - hour_us))) by (vm_compute; discriminate).
  split; [reflexivity|]. split; [reflexivity|]. split; [exact H|].
  exact (recency_score_monotone RecencyScorer.new (utc new_year_2025)
           (utc (new_year_2025 - 25 * day_us)) (utc (new_year_2025 - hour_us))
           (engineer_posted (Some (utc (new_year_2025 - 25 * day_us))))
           (engineer_posted (Some (utc (new_year_2025 - hour_us))))
           eq_refl eq_refl H).
Defined.

(** ** Runs of the scorer *)

Section NeutralRun.
Import Scorer.
Variable clock : list event -> Z.

Lemma score_neutral (self : t) (tr : list event) (posting : JobPosting) :
  is_no_embedding (embedding_provider self) = true ->
  exists r new,
    score clock posting (self, tr) = (Returns r, (self, (tr ++ new)%list)) /\
    job r = posting /\
    forallb is_now new = true.
Proof.
  intros Hneutral.
  destruct (short_circuit (fst (KeywordScorer.score (keyword_scorer self) posting))
              (snd (KeywordScorer.score (keyword_scorer self) posting))) eqn:Hsc.
  - eexists _, []. rewrite app_nil_r. split; [apply score_excluded, Hsc|].
    split; reflexivity.
  - destruct (score_scored clock self tr posting Hsc 0.5%R self [])
      as (r & Hrun & Hjob & _).
    { unfold vector_step. rewrite Hneutral, app_nil_r. reflexivity. }
    exists r, [Now (clock tr)]. split; [exact Hrun|]. split; [exact Hjob|]. reflexivity.
Qed.

Lemma score_each_neutral (jobs : list JobPosting) :
  forall self tr,
    is_no_embedding (embedding_provider self) = true ->
    exists all new,
      score_each clock jobs (self, tr) = (Returns all, (self, (tr ++ new)%list)) /\
      forallb is_now new = true.
Proof.
  induction jobs as [|posting rest IH]; intros self tr Hneutral.
  - exists [], []. rewrite app_nil_r. split; reflexivity.
  - destruct (score_neutral self tr posting Hneutral) as (r & new1 & Hrun & _ & Hnow1).
    destruct (IH self (tr ++ new1)%list Hneutral) as (others & new2 & Hrest & Hnow2).
    exists (r :: others), (new1 ++ new2)%list.
    rewrite score_each_cons, Hrun, Hrest, app_assoc. split; [reflexivity|].
    rewrite forallb_app, Hnow1, Hnow2. reflexivity.
Qed.

Lemma same_keywords_after (self self' : t) (new : list event) :
  match _profile_embedding self with
  | Some _ => self' = self /\ profile_embeds new = []
  | None =>
      (self' = self /\
       (profile_embeds new = [] \/ exists e, profile_embeds new = [Raises e])) \/
      (exists c, self' = with_cache self c /\
         (profile_embeds new = [] \/
          exists vs, profile_embeds new = [Returns vs] /\
                     c = match vs with e :: _ => e | [] => [] end))
  end ->
  keyword_scorer self' = keyword_scorer self.
Proof.
  destruct (_profile_embedding self).
  - intros [-> _]. reflexivity.
  - intros [[-> _]|(c & -> & _)]; reflexivity.
Qed.

Lemma score_each_excluded (jobs : list JobPosting) :
  forall self tr, exists all st',
    score_each clock jobs (self, tr) = (Returns all, st') /\
    map job all = jobs /\
    Forall (fun r => ~ not_excluded self (job r) -> final_score r = 0%R) all.
Proof.
  induction jobs as [|posting rest IH]; intros self tr.
  - exists [], (self, tr). split; [reflexivity|]. split; [reflexivity|]. constructor.
  - destruct (score_run clock self tr posting)
      as (r & self1 & new1 & Hrun & Hjob & _ & _ & _ & _ & Hcache & _).
    apply same_keywords_after in Hcache.
    destruct (IH self1 (tr ++ new1)%list) as (others & st' & Hrest & Hjobs & Hall).
    exists (r :: others), st'. rewrite score_each_cons, Hrun, Hrest.
    split; [reflexivity|]. split; [cbn [map]; rewrite Hjob, Hjobs; reflexivity|].
    constructor.
    + rewrite Hjob. intros Hex. unfold not_excluded in Hex.
      apply not_false_is_true in Hex.
      rewrite (score_excluded clock self tr posting Hex) in Hrun.
      injection Hrun as <- _ _. reflexivity.
    + eapply Forall_impl; [exact Hall|]. cbn beta. intros r' Hr' Hex. apply Hr'.
      unfold not_excluded in *. rewrite Hcache. exact Hex.
Qed.

End NeutralRun.

(** X13: a scorer with the neutral provider never calls a provider: a run of
    [score_batch] leaves the scorer as it is and does nothing but read the
    clock. *)
Theorem neutral_provider_never_called (clock : list event -> Z) (self : Scorer.t)
    (tr : list event) (jobs : list JobPosting) (min_score : option R) :
  is_no_embedding (Scorer.embedding_provider self) = true ->
  exists out new,
    Scorer.score_batch clock jobs min_score (self, tr)
    = (Returns out, (self, (tr ++ new)%list)) /\
    forallb is_now new = true.
Proof.
  intros Hneutral.
  destruct (score_each_neutral clock jobs self tr Hneutral) as (all & new & Hall & Hnow).
  eexists _, new. split; [|exact Hnow].
  unfold Scorer.score_batch, Scorer.bind, Scorer.get_self. cbn [fst].
  rewrite score_loop_spec, Hall. reflexivity.
Qed.

(** X14: with a positive threshold, [score_batch] returns no posting that a
    must-not keyword excludes. *)
Theorem score_batch_drops_excluded (clock : list event -> Z) (self : Scorer.t)
    (tr : list event) (jobs : list JobPosting) (min_score : option R) :
  (0 < batch_threshold self min_score)%R ->
  exists (out : list ScoredJobPosting) (st' : Scorer.state),
    Scorer.score_batch clock jobs min_score (self, tr) = (Returns out, st') /\
    Forall (fun r => not_excluded self (job r)) out.
Proof.
  intros Hpos.
  destruct (score_each_excluded clock jobs self tr) as (all & st1 & Hall & _ & Hex).
  eexists _, st1. split.
  { unfold Scorer.score_batch, Scorer.bind, Scorer.get_self. cbn [fst].
    fold (batch_threshold self min_score).
    rewrite score_loop_spec, Hall. reflexivity. }
  cbn [app]. apply List.Forall_forall. intros r Hin.
  apply (Permutation_in _ (sort_desc_perm final_score _)) in Hin.
  apply List.filter_In in Hin as [Hin Hreach].
  rewrite List.Forall_forall in Hex. specialize (Hex r Hin).
  unfold reaches in Hreach.
  destruct (Rge_dec (final_score r) (batch_threshold self min_score)) as [Hge|];
    [|discriminate].
  unfold not_excluded in *.
  destruct (Scorer.short_circuit _ _) eqn:Hsc; [|reflexivity].
  assert (final_score r = 0%R) by (apply Hex; discriminate). lra.
Qed.

Lemma neutral_provider_never_called_witness :
  is_no_embedding (Scorer.embedding_provider (Scorer.new sample_profile None)) = true /\
  exists out new,
    Scorer.score_batch (fixed_clock new_year_2025) five_jobs None
      (Scorer.new sample_profile None, [])
    = (Returns out, (Scorer.new sample_profile None, ([] ++ new)%list)) /\
    forallb is_now new = true.
Proof.
  split; [reflexivity|].
  exact (neutral_provider_never_called (fixed_clock new_year_2025)
           (Scorer.new sample_profile None) [] five_jobs None eq_refl).
Defined.

Lemma score_batch_drops_excluded_witness :
  (0 < batch_threshold (Scorer.new sample_profile None) None)%R /\
  exists out st',
    Scorer.score_batch (fixed_clock new_year_2025) [engineer_123; senior_staff_job] None
      (Scorer.new sample_profile None, [])
    = (Returns out, st') /\
    Forall (fun r => not_excluded (Scorer.new sample_profile None) (job r)) out.
Proof.
  assert (H : (0 < batch_threshold (Scorer.new sample_profile None) None)%R) by (cbn; lra).
  split; [exact H|].
  exact (score_batch_drops_excluded (fixed_clock new_year_2025)
           (Scorer.new sample_profile None) [] [engineer_123; senior_staff_job] None H).
Defined.

(** ** Time filters *)


Section TimeFilterFacts.
Import TimeFilter.

Lemma sqrt_half_open (x : R) : (0 < x < 1)%R -> (0 < sqrt x < 1)%R.
Proof.
  intros [H0 H1]. split; [apply sqrt_lt_R0; exact H0|].
  rewrite <- sqrt_1. apply sqrt_lt_1; lra.
Qed.

Lemma freshness_is_recency (self : RecencyScorer.t) (now : datetime) (job : JobPosting) :
  get_freshness_score now (posted_at job) (RecencyScorer.max_age_days self)
  = RecencyScorer.score self now job.
Proof.
  unfold get_freshness_score, RecencyScorer.score, as_utc.
  destruct (posted_at job) as [posted|]; [|reflexivity].
  cbv zeta.
  match goal with |- context [Rle_dec ?a 0] => set (age_days := a) end.
  destruct (Rle_dec age_days 0) as [L|L]; [reflexivity|].
  set (m := IZR (RecencyScorer.max_age_days self)).
  destruct (Rge_dec age_days m) as [G|G]; [reflexivity|].
  assert (Hm : (0 < m)%R) by lra.
  assert (Hx : (0 < age_days / m < 1)%R).
  { split; [apply Rdiv_lt_0_compat; lra|].
    apply (Rmult_lt_reg_r m); [exact Hm|].
    unfold Rdiv. rewrite Rmult_assoc, Rinv_l, Rmult_1_r, Rmult_1_l by lra. lra. }
  rewrite Rpower_half by apply Hx.
  pose proof (sqrt_half_open _ Hx) as Hs.
  unfold Rmax, Rmin.
  destruct (Rle_dec 1 (1 - sqrt (age_days / m))) as [A|A]; [lra|].
  destruct (Rle_dec 0 (1 - sqrt (age_days / m))) as [B|B]; [reflexivity|lra].
Qed.

Lemma freshness_zero (now posted : datetime) :
  get_freshness_score now (Some posted) 30 = 0%R
  <-> 30 * day_us <= datetime_sub now (as_utc posted).
Proof.
  unfold get_freshness_score. cbv zeta.
  set (age := datetime_sub now (as_utc posted)).
  assert (Hdays : (total_seconds age / 86400 = IZR age / IZR day_us)%R).
  { unfold total_seconds, day_us. field. }
  rewrite Hdays.
  assert (Hd : (0 < IZR day_us)%R) by (apply IZR_lt; reflexivity).
  assert (Hge : (IZR age / IZR day_us >= 30)%R <-> 30 * day_us <= age).
  { split.
    - intros H. apply le_IZR. rewrite mult_IZR.
      apply Rge_le in H. apply (Rmult_le_compat_r (IZR day_us)) in H; [|lra].
      unfold Rdiv in H. rewrite Rmult_assoc, Rinv_l, Rmult_1_r in H by lra. exact H.
    - intros H. apply IZR_le in H. rewrite mult_IZR in H. apply Rle_ge.
      apply (Rmult_le_reg_r (IZR day_us)); [exact Hd|].
      unfold Rdiv. rewrite Rmult_assoc, Rinv_l, Rmult_1_r by lra. exact H. }
  destruct (Rle_dec (IZR age / IZR day_us) 0) as [L|L].
  - split; [intros H; lra|]. intros H. apply Hge in H. lra.
  - destruct (Rge_dec (IZR age / IZR day_us) 30) as [G|G].
    + split; [intros _; apply Hge, G|reflexivity].
    + split; [|intros H; apply Hge in H; contradiction].
      intros H. exfalso.
      assert (Hx : (0 < IZR age / IZR day_us / 30 < 1)%R) by (split; lra).
      rewrite Rpower_half in H by apply Hx.
      pose proof (sqrt_half_open _ Hx). lra.
Qed.

(** *** The parser *)











(** *** The filter *)

Lemma instant_as_utc (posted : datetime) : instant_us (as_utc posted) = instant_us posted.
Proof.
  unfold as_utc, instant_us.
  destruct (utcoffset_us posted) eqn:E; cbn [wall_us utcoffset_us]; rewrite ?E; reflexivity.
Qed.

Lemma filter_loop (cutoff : datetime) (jobs : list JobPosting) :
  forall filtered,
    fold_left
      (fun filtered job =>
         match posted_at job with
         | None => (filtered ++ [job])%list
         | Some posted =>
             let posted := as_utc posted in
             if instant_us cutoff <=? instant_us posted
             then (filtered ++ [job])%list else filtered
         end) jobs filtered
    = (filtered
       ++ List.filter
            (fun job => match posted_at job with
                        | None => true
                        | Some posted => instant_us cutoff <=? instant_us posted
                        end) jobs)%list.
Proof.
  induction jobs as [|job jobs IH]; intros filtered; cbn [fold_left List.filter].
  - rewrite app_nil_r. reflexivity.
  - rewrite IH. destruct (posted_at job) as [posted|].
    + cbv zeta. rewrite instant_as_utc.
      destruct (instant_us cutoff <=? instant_us posted); [|reflexivity].
      rewrite <- app_assoc. reflexivity.
    + rewrite <- app_assoc. reflexivity.
Qed.

Lemma filter_run (now : datetime) (jobs kept : list JobPosting) (time_filter : string)
    (delta : Z) :
  parse_time_filter time_filter = Value delta ->
  filter_jobs_by_time now jobs time_filter = Value kept ->
  kept = List.filter (within now delta) jobs.
Proof.
  intros Hparse. unfold filter_jobs_by_time, get_cutoff_time. rewrite Hparse.
  cbn [and_then]. unfold datetime_minus. cbv zeta.
  destruct (_ && _); [|discriminate]. cbn [and_then].
  rewrite filter_loop. cbn [app]. intros [= <-].
  apply List.filter_ext. intros job. unfold within.
  destruct (posted_at job) as [posted|]; [|reflexivity].
  f_equal. unfold instant_us. cbn [wall_us utcoffset_us]. lia.
Qed.

Lemma sublist_filter_weaken {A : Type} (p q : A -> bool) (l : list A) :
  (forall x, p x = true -> q x = true) ->
  sublist (List.filter p l) (List.filter q l).
Proof.
  intros H. induction l as [|x l IH]; cbn [List.filter]; [constructor|].
  destruct (p x) eqn:Hp.
  - rewrite (H x Hp). apply sublist_skip, IH.
  - destruct (q x); [apply sublist_cons, IH|exact IH].
Qed.

Lemma sublist_of_filter {A : Type} (p : A -> bool) (l : list A) :
  sublist (List.filter p l) l.
Proof.
  induction l as [|x l IH]; cbn [List.filter]; [constructor|].
  destruct (p x); [apply sublist_skip, IH|apply sublist_cons, IH].
Qed.

End TimeFilterFacts.

(** X15: [get_freshness_score] and [RecencyScorer.score] agree on every
    posting: the clamp of the scorer never changes a value. *)
Theorem freshness_score_is_recency_score (self : RecencyScorer.t) (now : datetime)
    (job : JobPosting) :
  TimeFilter.get_freshness_score now (posted_at job) (RecencyScorer.max_age_days self)
  = RecencyScorer.score self now job.
Proof. apply freshness_is_recency. Qed.

(** X16: a dated posting is labelled as older exactly when its freshness
    score for 30 days is 0: when it is 30 days old or more. *)
Theorem older_label_iff_zero_score (now posted : datetime) :
  TimeFilter.get_freshness_label now (Some posted) = "📦 Older"
  <-> TimeFilter.get_freshness_score now (Some posted) 30 = 0%R.
Proof.
  rewrite freshness_zero. unfold TimeFilter.get_freshness_label. cbv zeta.
  set (age := datetime_sub now (TimeFilter.as_utc posted)).
  assert (H1 : 24 * hour_us < 3 * day_us) by reflexivity.
  assert (H3 : 3 * day_us < 7 * day_us) by reflexivity.
  assert (H7 : 7 * day_us < 30 * day_us) by reflexivity.
  destruct (Z.ltb_spec age (24 * hour_us)); [split; [discriminate|lia]|].
  destruct (Z.ltb_spec age (3 * day_us)); [split; [discriminate|lia]|].
  destruct (Z.ltb_spec age (7 * day_us)); [split; [discriminate|lia]|].
  destruct (Z.ltb_spec age (30 * day_us)); [split; [discriminate|lia]|].
  split; [lia|reflexivity].
Qed.


(** X18: a longer window keeps more: the postings kept for a filter are kept,
    in the same order, for every filter that is at least as long; what is kept
    is a part of the input in its order, and holds every undated posting. *)
Theorem longer_window_keeps_more (now : datetime) (jobs kept1 kept2 : list JobPosting)
    (filter1 filter2 : string) (delta1 delta2 : Z) :
  TimeFilter.parse_time_filter filter1 = TimeFilter.Value delta1 ->
  TimeFilter.parse_time_filter filter2 = TimeFilter.Value delta2 ->
  delta1 <= delta2 ->
  TimeFilter.filter_jobs_by_time now jobs filter1 = TimeFilter.Value kept1 ->
  TimeFilter.filter_jobs_by_time now jobs filter2 = TimeFilter.Value kept2 ->
  sublist kept1 kept2 /\
  sublist kept2 jobs /\
  forall job, In job jobs -> posted_at job = None -> In job kept1.
Proof.
  intros P1 P2 Hle R1 R2.
  rewrite (filter_run now jobs kept1 filter1 delta1 P1 R1).
  rewrite (filter_run now jobs kept2 filter2 delta2 P2 R2).
  split; [|split].
  - apply sublist_filter_weaken. intros job. unfold within.
    destruct (posted_at job) as [posted|]; [|reflexivity].
    intros H%Z.leb_le. apply Z.leb_le. lia.
  - apply sublist_of_filter.
  - intros job Hin Hnone. apply List.filter_In. split; [exact Hin|].
    unfold within. rewrite Hnone. reflexivity.
Qed.

Lemma longer_window_keeps_more_witness :
  TimeFilter.parse_time_filter " 24H " = TimeFilter.Value (24 * hour_us) /\
  TimeFilter.parse_time_filter "1m" = TimeFilter.Value (30 * day_us) /\
  24 * hour_us <= 30 * day_us /\
  TimeFilter.filter_jobs_by_time (utc new_year_2025) three_postings " 24H "
  = TimeFilter.Value [engineer_posted None;
                      engineer_posted (Some (utc (new_year_2025 - hour_us)))] /\
  TimeFilter.filter_jobs_by_time (utc new_year_2025) three_postings "1m"
  = TimeFilter.Value three_postings /\
  sublist [engineer_posted None; engineer_posted (Some (utc (new_year_2025 - hour_us)))]
          three_postings.
Proof.
  assert (P1 : TimeFilter.parse_time_filter " 24H " = TimeFilter.Value (24 * hour_us))
    by (vm_compute; reflexivity).
  assert (P2 : TimeFilter.parse_time_filter "1m" = TimeFilter.Value (30 * day_us))
    by (vm_compute; reflexivity).
  assert (Hle : 24 * hour_us <= 30 * day_us) by (vm_compute; discriminate).
  assert (R1 : TimeFilter.filter_jobs_by_time (utc new_year_2025) three_postings " 24H "
               = TimeFilter.Value [engineer_posted None;
                                   engineer_posted (Some (utc (new_year_2025 - hour_us)))])
    by (vm_compute; reflexivity).
  assert (R2 : TimeFilter.filter_jobs_by_time (utc new_year_2025) three_postings "1m"
               = TimeFilter.Value three_postings)
    by (vm_compute; reflexivity).
  repeat (split; [assumption|]).
  exact (proj1 (longer_window_keeps_more (utc new_year_2025) three_postings _ _
                  " 24H " "1m" _ _ P1 P2 Hle R1 R2)).
Defined.

(** ** Cosine similarity *)


Lemma sum_squares_nonneg (v : vector) : (0 <= sum_squares v)%R.
Proof.
  induction v as [|x v IH]; cbn; [lra|]. fold (sum_squares v). nra.
Qed.

Lemma np_dot_length (v1 : vector) : forall v2,
  (exists d, np_dot v1 v2 = Returns d) <-> length v1 = length v2.
Proof.
  induction v1 as [|x v1 IH]; intros [|y v2]; cbn [np_dot length].
  - split; [reflexivity|eauto].
  - split; [intros [d H]; discriminate|discriminate].
  - split; [intros [d H]; discriminate|discriminate].
  - specialize (IH v2). destruct (np_dot v1 v2) as [r|e]; cbn [bind_outcome].
    + split; [intros _; f_equal; apply IH; eauto|eauto].
    + split; [intros [d H]; discriminate|].
      intros [= H]. apply IH in H as [d H]. discriminate.
Qed.

Lemma cauchy_schwarz (v1 : vector) : forall v2 d,
  np_dot v1 v2 = Returns d -> (d * d <= sum_squares v1 * sum_squares v2)%R.
Proof.
  induction v1 as [|x v1 IH]; intros [|y v2] d; cbn [np_dot]; try discriminate.
  - intros [= <-]. cbn. lra.
  - destruct (np_dot v1 v2) as [r|e] eqn:Hr; cbn [bind_outcome]; [|discriminate].
    intros [= <-]. specialize (IH v2 r Hr).
    change (sum_squares (x :: v1)) with (x * x + sum_squares v1)%R.
    change (sum_squares (y :: v2)) with (y * y + sum_squares v2)%R.
    pose proof (sum_squares_nonneg v1) as HA. pose proof (sum_squares_nonneg v2) as HB.
    set (A := sum_squares v1) in *. set (B := sum_squares v2) in *.
    assert (Hmid : (2 * r * (x * y) <= A * (y * y) + B * (x * x))%R).
    { assert (H0 : (0 <= A * (y * y) + B * (x * x))%R) by nra.
      destruct (Rle_dec (2 * r * (x * y)) 0) as [Hn|Hp]; [lra|].
      apply Rnot_le_lt in Hp.
      assert (Hsq : ((2 * r * (x * y)) * (2 * r * (x * y))
                     <= (A * (y * y) + B * (x * x)) * (A * (y * y) + B * (x * x)))%R).
      { assert (H1 : ((2 * r * (x * y)) * (2 * r * (x * y))
                      = 4 * (r * r) * ((x * x) * (y * y)))%R) by ring.
        assert (H2 : (4 * (r * r) * ((x * x) * (y * y))
                      <= 4 * (A * B) * ((x * x) * (y * y)))%R).
        { apply Rmult_le_compat_r; [nra|lra]. }
        assert (H3 : (0 <= (A * (y * y) - B * (x * x)) * (A * (y * y) - B * (x * x)))%R)
          by apply Rle_0_sqr.
        assert (H4 : ((A * (y * y) + B * (x * x)) * (A * (y * y) + B * (x * x))
                      = (A * (y * y) - B * (x * x)) * (A * (y * y) - B * (x * x))
                        + 4 * (A * B) * ((x * x) * (y * y)))%R) by ring.
        rewrite H1, H4. lra. }
      destruct (Rle_dec (2 * r * (x * y)) (A * (y * y) + B * (x * x))) as [|Hgt]; [assumption|].
      apply Rnot_le_lt in Hgt. exfalso.
      assert (((A * (y * y) + B * (x * x)) * (A * (y * y) + B * (x * x))
               < (2 * r * (x * y)) * (2 * r * (x * y)))%R).
      { apply Rmult_le_0_lt_compat; lra. }
      lra. }
    nra.
Qed.

Lemma cosine_bounds (vec1 vec2 : vector) (r : R) :
  cosine_similarity vec1 vec2 = Returns r -> (-1 <= r <= 1)%R.
Proof.
  unfold cosine_similarity.
  destruct (np_dot vec1 vec2) as [d|e] eqn:Hd; cbn [bind_outcome]; [|discriminate].
  destruct (Req_dec_T (np_norm vec1) 0) as [|H1]; [intros [= <-]; lra|].
  destruct (Req_dec_T (np_norm vec2) 0) as [|H2]; [intros [= <-]; lra|].
  intros [= <-].
  pose proof (cauchy_schwarz vec1 vec2 d Hd) as Hcs.
  unfold np_norm in *. fold (sum_squares vec1) in *. fold (sum_squares vec2) in *.
  pose proof (sum_squares_nonneg vec1) as HA. pose proof (sum_squares_nonneg vec2) as HB.
  pose proof (sqrt_pos (sum_squares vec1)) as P1.
  pose proof (sqrt_pos (sum_squares vec2)) as P2.
  pose proof (sqrt_sqrt _ HA) as E1. pose proof (sqrt_sqrt _ HB) as E2.
  set (n1 := sqrt (sum_squares vec1)) in *. set (n2 := sqrt (sum_squares vec2)) in *.
  assert (Hn1 : (0 < n1)%R) by lra.
  assert (Hn2 : (0 < n2)%R) by lra.
  assert (Hp : (0 < n1 * n2)%R) by (apply Rmult_lt_0_compat; assumption).
  assert (Hsq : (d * d <= (n1 * n2) * (n1 * n2))%R).
  { replace ((n1 * n2) * (n1 * n2))%R with ((n1 * n1) * (n2 * n2))%R by ring.
    rewrite E1, E2. exact Hcs. }
  assert (Habs : (- (n1 * n2) <= d <= n1 * n2)%R) by (split; nra).
  split.
  - apply (Rmult_le_reg_r (n1 * n2)); [exact Hp|].
    unfold Rdiv. rewrite Rmult_assoc, Rinv_l, Rmult_1_r by lra. lra.
  - apply (Rmult_le_reg_r (n1 * n2)); [exact Hp|].
    unfold Rdiv. rewrite Rmult_assoc, Rinv_l, Rmult_1_r by lra. lra.
Qed.

Lemma np_dot_mismatch (v1 : vector) : forall v2,
  length v1 <> length v2 -> np_dot v1 v2 = Raises ProviderError.
Proof.
  induction v1 as [|x v1 IH]; intros [|y v2] H; cbn [np_dot length] in *;
    try reflexivity; try contradiction.
  rewrite IH by congruence. reflexivity.
Qed.

Lemma np_dot_comm (v1 : vector) : forall v2, np_dot v1 v2 = np_dot v2 v1.
Proof.
  induction v1 as [|x v1 IH]; intros [|y v2]; cbn [np_dot]; try reflexivity.
  rewrite IH. destruct (np_dot v2 v1); cbn [bind_outcome]; [|reflexivity].
  f_equal. ring.
Qed.

Lemma np_dot_self (v : vector) : np_dot v v = Returns (sum_squares v).
Proof.
  induction v as [|x v IH]; [reflexivity|]. cbn [np_dot]. rewrite IH. reflexivity.
Qed.

Lemma sum_squares_zero (v : vector) : Forall (fun x => x = 0%R) v -> sum_squares v = 0%R.
Proof.
  induction 1 as [|x v Hx _ IH]; [reflexivity|].
  change (sum_squares (x :: v)) with (x * x + sum_squares v)%R. rewrite IH, Hx. ring.
Qed.

(** X19: the similarity of the OpenAI and Ollama providers raises for vectors
    of different lengths; for vectors of one length it returns a value between
    -1 and 1 that does not depend on their order, and 0 when the first is all
    zeros; a vector whose norm is not 0 has similarity 1 with itself. *)
Theorem cosine_similarity_cases (vec1 vec2 : vector) :
  (length vec1 <> length vec2 -> cosine_similarity vec1 vec2 = Raises ProviderError) /\
  (length vec1 = length vec2 ->
   exists r, cosine_similarity vec1 vec2 = Returns r /\
             cosine_similarity vec2 vec1 = Returns r /\
             (-1 <= r <= 1)%R /\
             (Forall (fun x => x = 0%R) vec1 -> r = 0%R)) /\
  (np_norm vec1 <> 0%R -> cosine_similarity vec1 vec1 = Returns 1%R).
Proof.
  split; [|split].
  - intros H. unfold cosine_similarity. rewrite np_dot_mismatch by exact H. reflexivity.
  - intros H. apply np_dot_length in H as [d Hd].
    assert (Hrun : exists r, cosine_similarity vec1 vec2 = Returns r).
    { unfold cosine_similarity. rewrite Hd. cbn [bind_outcome].
      destruct (Req_dec_T (np_norm vec1) 0); [eauto|].
      destruct (Req_dec_T (np_norm vec2) 0); eauto. }
    destruct Hrun as [r Hr]. exists r. split; [exact Hr|]. split; [|split].
    + revert Hr. unfold cosine_similarity. rewrite (np_dot_comm vec2 vec1), Hd.
      cbn [bind_outcome].
      destruct (Req_dec_T (np_norm vec1) 0), (Req_dec_T (np_norm vec2) 0);
        try (intros H; exact H).
      intros [= <-]. f_equal. f_equal. ring.
    + exact (cosine_bounds vec1 vec2 r Hr).
    + intros Hzero. revert Hr. unfold cosine_similarity. rewrite Hd. cbn [bind_outcome].
      destruct (Req_dec_T (np_norm vec1) 0) as [|Hn]; [congruence|].
      exfalso. apply Hn. unfold np_norm. fold (sum_squares vec1).
      rewrite (sum_squares_zero vec1 Hzero). apply sqrt_0.
  - intros Hn. unfold cosine_similarity. rewrite np_dot_self. cbn [bind_outcome].
    destruct (Req_dec_T (np_norm vec1) 0); [contradiction|].
    f_equal. unfold np_norm. fold (sum_squares vec1).
    rewrite sqrt_sqrt by apply sum_squares_nonneg.
    apply Rinv_r. intros H0. apply Hn. unfold np_norm. fold (sum_squares vec1).
    rewrite H0. apply sqrt_0.
Qed.

Lemma cosine_similarity_cases_witness :
  length [1%R; 0%R] = length [0%R; 1%R] /\
  exists r, cosine_similarity [1%R; 0%R] [0%R; 1%R] = Returns r /\ (-1 <= r <= 1)%R.
Proof.
  split; [reflexivity|].
  destruct (proj1 (proj2 (cosine_similarity_cases [1%R; 0%R] [0%R; 1%R])) eq_refl)
    as (r & Hr & _ & Hb & _).
  exists r. split; [exact Hr|exact Hb].
Defined.



(** ** The vector matcher *)


Section MatcherFacts.
Import VectorMatcher.
Local Open Scope matcher_scope.

Lemma highlights_short (self : t) (posting : JobPosting) :
  (length (_extract_highlights self posting) <= 5)%nat.
Proof. unfold _extract_highlights. cbv zeta. apply firstn_le_length. Qed.

Lemma similarity_loop_spec (self : t) (profile_emb : vector) (min_similarity : R)
    (job_embeddings : list vector) (jobs : list JobPosting) :
  forall i results st out st',
    similarity_loop self profile_emb min_similarity job_embeddings i jobs results st
    = (Returns out, st') ->
    exists news,
      out = (results ++ news)%list /\
      sublist (map VectorMatchResult.job news) jobs /\
      Forall (fun r => (VectorMatchResult.similarity r >= min_similarity)%R) news /\
      Forall (fun r => (length (VectorMatchResult.profile_highlights r) <= 5)%nat) news.
Proof.
  induction jobs as [|posting rest IH]; intros i results st out st' Hrun;
    cbn [similarity_loop] in Hrun.
  - injection Hrun as <- _. exists []. rewrite app_nil_r.
    split; [reflexivity|]. split; [constructor|]. split; constructor.
  - assert (Hskip : forall st1,
      similarity_loop self profile_emb min_similarity job_embeddings (S i) rest results st1
      = (Returns out, st') ->
      exists news,
        out = (results ++ news)%list /\
        sublist (map VectorMatchResult.job news) (posting :: rest) /\
        Forall (fun r => (VectorMatchResult.similarity r >= min_similarity)%R) news /\
        Forall (fun r => (length (VectorMatchResult.profile_highlights r) <= 5)%nat) news).
    { intros st1 H. destruct (IH _ _ _ _ _ H) as (news & -> & Hsub & Hrest).
      exists news. split; [reflexivity|]. split; [apply sublist_cons, Hsub|exact Hrest]. }
    destruct (job_embeddings !! i) as [job_embedding|]; [|exact (Hskip st Hrun)].
    unfold bind in Hrun.
    destruct (call_similarity profile_emb job_embedding st) as [[raw|e] st1];
      [|discriminate].
    destruct (Rge_dec ((raw + 1) / 2) min_similarity) as [Hge|Hlt];
      [|exact (Hskip st1 Hrun)].
    destruct (IH _ _ _ _ _ Hrun) as (news & -> & Hsub & Hmin & Hshort).
    eexists (_ :: news). rewrite <- app_assoc. split; [reflexivity|].
    split; [apply sublist_skip, Hsub|].
    split; constructor; try assumption. apply highlights_short.
Qed.

Lemma Forall_imap {A B : Type} (P : B -> Prop) (l : list A) :
  forall f : nat -> A -> B,
    (forall i x, In x l -> P (f i x)) -> Forall P (imap f l).
Proof.
  induction l as [|x l IH]; intros f H; cbn [imap]; constructor.
  - apply H. left. reflexivity.
  - apply IH. intros i y Hy. apply H. right. exact Hy.
Qed.

Lemma imap_sorted {A : Type} (key : A -> R) (l : list A) :
  forall f : nat -> A -> A,
    (forall i x, key (f i x) = key x) ->
    StronglySorted (desc key) l -> StronglySorted (desc key) (imap f l).
Proof.
  induction l as [|x l IH]; intros f Hkey Hs; cbn [imap]; [constructor|].
  inversion Hs as [|? ? Hs' Hall]; subst. constructor.
  - apply IH; [intros i y; apply Hkey|exact Hs'].
  - apply Forall_imap. intros i y Hy. unfold desc. cbn. rewrite !Hkey.
    rewrite List.Forall_forall in Hall. exact (Hall y Hy).
Qed.

Lemma imap_map {A B C : Type} (g : B -> C) (h : A -> C) (l : list A) :
  forall f : nat -> A -> B,
    (forall i x, g (f i x) = h x) -> map g (imap f l) = map h l.
Proof.
  induction l as [|x l IH]; intros f H; cbn [imap map]; [reflexivity|].
  rewrite H, IH; [reflexivity|]. intros i y. apply H.
Qed.

Lemma imap_ranks {A B : Type} (g : B -> Z) (l : list A) :
  forall (f : nat -> A -> B) (start : nat),
    (forall i x, g (f i x) = Z.of_nat (start + i) + 1) ->
    map g (imap f l) = map (fun i => Z.of_nat i + 1) (seq start (length l)).
Proof.
  induction l as [|x l IH]; intros f start H; cbn [imap map length seq]; [reflexivity|].
  rewrite H, Nat.add_0_r. f_equal. apply IH.
  intros i y. cbn. rewrite H. f_equal. f_equal. lia.
Qed.

Lemma imap_length {A B : Type} (l : list A) :
  forall f : nat -> A -> B, length (imap f l) = length l.
Proof.
  induction l as [|x l IH]; intros f; cbn [imap length]; [reflexivity|].
  rewrite IH. reflexivity.
Qed.

Lemma constant_sorted {A : Type} (key : A -> R) (v : R) (l : list A) :
  Forall (fun x => key x = v) l -> StronglySorted (desc key) l.
Proof.
  induction 1 as [|x l Hx Hl IH]; constructor; [exact IH|].
  eapply Forall_impl; [exact Hl|]. cbn. intros y Hy. unfold desc. rewrite Hx, Hy. lra.
Qed.

End MatcherFacts.

(** X21: what [match_jobs] returns has the ranks 1, 2, ... in its order, is
    sorted by decreasing similarity and holds postings of the input, each once
    at most, with five highlights at most.  With a provider that embeds, every
    similarity reaches [min_similarity]; with the neutral provider every
    posting is returned in the order of the input with similarity 0.5, whatever
    [min_similarity] is, and nothing is called. *)
Theorem match_jobs_result (self : VectorMatcher.t) (tr : list event)
    (jobs : list JobPosting) (min_similarity : R)
    (results : list VectorMatchResult.t) (st' : VectorMatcher.state) :
  VectorMatcher.match_jobs jobs min_similarity (self, tr) = (Returns results, st') ->
  ranks_from_one results /\
  StronglySorted (desc VectorMatchResult.similarity) results /\
  (exists kept, sublist kept jobs /\ Permutation (map VectorMatchResult.job results) kept) /\
  Forall (fun r => (length (VectorMatchResult.profile_highlights r) <= 5)%nat) results /\
  (is_no_embedding (VectorMatcher.provider self) = false ->
   Forall (fun r => (VectorMatchResult.similarity r >= min_similarity)%R) results) /\
  (is_no_embedding (VectorMatcher.provider self) = true ->
   map VectorMatchResult.job results = jobs /\
   Forall (fun r => VectorMatchResult.similarity r = 0.5%R) results /\
   st' = (self, tr)).
Proof.
  unfold VectorMatcher.match_jobs, VectorMatcher.bind at 1, VectorMatcher.get_self.
  cbn [fst].
  destruct (is_no_embedding (VectorMatcher.provider self)) eqn:Hneutral.
  - unfold VectorMatcher.ret. intros [= <- <-].
    assert (Hjobs : map VectorMatchResult.job
                      (imap (fun i job =>
                               {| VectorMatchResult.job := job;
                                  VectorMatchResult.similarity := 0.5;
                                  VectorMatchResult.rank := Z.of_nat i + 1;
                                  VectorMatchResult.profile_highlights :=
                                    ["Embeddings not available"] |}) jobs) = jobs).
    { rewrite (imap_map _ (fun j => j)); [apply map_id|reflexivity]. }
    assert (Hsim : Forall (fun r => VectorMatchResult.similarity r = 0.5%R)
                     (imap (fun i job =>
                               {| VectorMatchResult.job := job;
                                  VectorMatchResult.similarity := 0.5;
                                  VectorMatchResult.rank := Z.of_nat i + 1;
                                  VectorMatchResult.profile_highlights :=
                                    ["Embeddings not available"] |}) jobs)).
    { apply Forall_imap. reflexivity. }
    split; [|split; [|split; [|split; [|split]]]].
    + unfold ranks_from_one. rewrite imap_length. apply imap_ranks. reflexivity.
    + apply (constant_sorted _ 0.5%R). exact Hsim.
    + exists jobs. split; [reflexivity|]. rewrite Hjobs. reflexivity.
    + apply Forall_imap. intros i x _. cbn. lia.
    + discriminate.
    + intros _. split; [exact Hjobs|]. split; [exact Hsim|reflexivity].
  - unfold VectorMatcher.bind.
    destruct (VectorMatcher._get_profile_embedding (self, tr)) as [[profile_emb|e] st1];
      [|discriminate].
    destruct profile_emb as [|x profile_emb].
    + unfold VectorMatcher.ret. intros [= <- <-].
      split; [reflexivity|]. split; [constructor|].
      split; [exists []; split; [apply sublist_nil_l|reflexivity]|].
      split; [constructor|]. split; [constructor|discriminate].
    + destruct (VectorMatcher.call_embed JobText (map VectorMatcher._build_job_text jobs) st1)
        as [[job_embeddings|e] st2]; [|discriminate].
      destruct (VectorMatcher.similarity_loop self (x :: profile_emb) min_similarity
                  job_embeddings 0 jobs [] st2) as [[found|e] st3] eqn:Hloop; [|discriminate].
      unfold VectorMatcher.ret. intros [= <- <-].
      apply similarity_loop_spec in Hloop as (news & -> & Hsub & Hmin & Hshort).
      cbn [app]. unfold VectorMatcher.assign_ranks.
      pose proof (sort_desc_perm VectorMatchResult.similarity news) as Hperm.
      split; [|split; [|split; [|split; [|split]]]].
      * unfold ranks_from_one. rewrite imap_length. apply imap_ranks. reflexivity.
      * apply imap_sorted; [reflexivity|apply sort_desc_sorted].
      * exists (map VectorMatchResult.job news). split; [exact Hsub|].
        rewrite (imap_map _ VectorMatchResult.job) by reflexivity.
        apply Permutation_map. exact Hperm.
      * apply Forall_imap. intros i r Hin. cbn.
        rewrite List.Forall_forall in Hshort. apply Hshort.
        apply (Permutation_in _ Hperm). exact Hin.
      * intros _. apply Forall_imap. intros i r Hin. cbn.
        rewrite List.Forall_forall in Hmin. apply Hmin.
        apply (Permutation_in _ Hperm). exact Hin.
      * discriminate.
Qed.

Lemma match_jobs_result_witness :
  VectorMatcher.match_jobs [engineer_123; senior_job] 0.9
    (VectorMatcher.new sample_profile (NoEmbeddingProvider 384), [])
  = (Returns
       [{| VectorMatchResult.job := engineer_123; VectorMatchResult.similarity := 0.5;
           VectorMatchResult.rank := 1;
           VectorMatchResult.profile_highlights := ["Embeddings not available"] |};
        {| VectorMatchResult.job := senior_job; VectorMatchResult.similarity := 0.5;
           VectorMatchResult.rank := 2;
           VectorMatchResult.profile_highlights := ["Embeddings not available"] |}],
     (VectorMatcher.new sample_profile (NoEmbeddingProvider 384), [])) /\
  ranks_from_one
    [{| VectorMatchResult.job := engineer_123; VectorMatchResult.similarity := 0.5;
        VectorMatchResult.rank := 1;
        VectorMatchResult.profile_highlights := ["Embeddings not available"] |};
     {| VectorMatchResult.job := senior_job; VectorMatchResult.similarity := 0.5;
        VectorMatchResult.rank := 2;
        VectorMatchResult.profile_highlights := ["Embeddings not available"] |}].
Proof.
  assert (H : VectorMatcher.match_jobs [engineer_123; senior_job] 0.9
                (VectorMatcher.new sample_profile (NoEmbeddingProvider 384), [])
              = (Returns
                   [{| VectorMatchResult.job := engineer_123;
                       VectorMatchResult.similarity := 0.5;
                       VectorMatchResult.rank := 1;
                       VectorMatchResult.profile_highlights := ["Embeddings not available"] |};
                    {| VectorMatchResult.job := senior_job;
                       VectorMatchResult.similarity := 0.5;
                       VectorMatchResult.rank := 2;
                       VectorMatchResult.profile_highlights := ["Embeddings not available"] |}],
                 (VectorMatcher.new sample_profile (NoEmbeddingProvider 384), [])))
    by reflexivity.
  split; [exact H|].
  exact (proj1 (match_jobs_result _ _ _ _ _ _ H)).
Defined.

(** X22: the matcher does not catch what the provider raises: when [embed]
    raises for the profile text, [match_jobs] and [compute_similarity] raise
    the same, having recorded the profile text and no embedding. *)
Theorem matcher_does_not_catch (self : VectorMatcher.t) (tr : list event)
    (jobs : list JobPosting) (posting : JobPosting) (min_similarity : R) (e : exn) :
  is_no_embedding (VectorMatcher.provider self) = false ->
  VectorMatcher._profile_embedding self = None ->
  embed (VectorMatcher.provider self) tr [VectorMatcher._build_profile_text self] = Raises e ->
  VectorMatcher.match_jobs jobs min_similarity (self, tr)
  = (Raises e,
     (with_profile_text self,
      (tr ++ [Embed ProfileText [VectorMatcher._build_profile_text self] (Raises e)])%list)) /\
  VectorMatcher.compute_similarity posting (self, tr)
  = (Raises e,
     (with_profile_text self,
      (tr ++ [Embed ProfileText [VectorMatcher._build_profile_text self] (Raises e)])%list)).
Proof.
  intros Hneutral Hcache Hembed.
  assert (Hget : VectorMatcher._get_profile_embedding (self, tr)
                 = (Raises e,
                    (with_profile_text self,
                     (tr ++ [Embed ProfileText [VectorMatcher._build_profile_text self]
                               (Raises e)])%list))).
  { unfold VectorMatcher._get_profile_embedding, VectorMatcher.bind at 1,
      VectorMatcher.get_self. cbn [fst]. rewrite Hcache.
    unfold VectorMatcher.bind, VectorMatcher.set_profile_text, VectorMatcher.call_embed.
    cbn [VectorMatcher.provider]. rewrite Hembed. reflexivity. }
  split.
  - unfold VectorMatcher.match_jobs, VectorMatcher.bind at 1, VectorMatcher.get_self.
    cbn [fst]. rewrite Hneutral. unfold VectorMatcher.bind. rewrite Hget. reflexivity.
  - unfold VectorMatcher.compute_similarity, VectorMatcher.bind at 1, VectorMatcher.get_self.
    cbn [fst]. rewrite Hneutral. unfold VectorMatcher.bind. rewrite Hget. reflexivity.
Qed.

Lemma matcher_does_not_catch_witness :
  is_no_embedding
    (VectorMatcher.provider
       (VectorMatcher.new engineer_profile (OtherProvider failing_backend))) = false /\
  VectorMatcher._profile_embedding
    (VectorMatcher.new engineer_profile (OtherProvider failing_backend)) = None /\
  embed (VectorMatcher.provider
           (VectorMatcher.new engineer_profile (OtherProvider failing_backend))) []
    [VectorMatcher._build_profile_text
       (VectorMatcher.new engineer_profile (OtherProvider failing_backend))]
  = Raises ProviderError /\
  VectorMatcher.match_jobs five_jobs 0.5
    (VectorMatcher.new engineer_profile (OtherProvider failing_backend), [])
  = (Raises ProviderError,
     (with_profile_text (VectorMatcher.new engineer_profile (OtherProvider failing_backend)),
      ([] ++ [Embed ProfileText
                [VectorMatcher._build_profile_text
                   (VectorMatcher.new engineer_profile (OtherProvider failing_backend))]
                (Raises ProviderError)])%list)).
Proof.
  split; [reflexivity|]. split; [reflexivity|]. split; [reflexivity|].
  exact (proj1 (matcher_does_not_catch
                  (VectorMatcher.new engineer_profile (OtherProvider failing_backend))
                  [] five_jobs engineer_123 0.5 ProviderError eq_refl eq_refl eq_refl)).
Defined.


Section MatcherCalls.
Import VectorMatcher.
Local Open Scope matcher_scope.

Lemma embed_calls_app (tr1 tr2 : list event) :
  embed_calls (tr1 ++ tr2) = (embed_calls tr1 + embed_calls tr2)%nat.
Proof. unfold embed_calls. rewrite List.filter_app, length_app. reflexivity. Qed.

Lemma similarity_calls_app (tr1 tr2 : list event) :
  similarity_calls (tr1 ++ tr2) = (similarity_calls tr1 + similarity_calls tr2)%nat.
Proof. unfold similarity_calls. rewrite List.filter_app, length_app. reflexivity. Qed.

Lemma similarity_loop_calls (self0 : t) (profile_emb : vector) (min_similarity : R)
    (job_embeddings : list vector) (jobs : list JobPosting) :
  forall i results self tr, exists o new,
    similarity_loop self0 profile_emb min_similarity job_embeddings i jobs results (self, tr)
    = (o, (self, (tr ++ new)%list)) /\
    embed_calls new = 0%nat /\
    (similarity_calls new <= length jobs)%nat.
Proof.
  induction jobs as [|posting rest IH]; intros i results self tr; cbn [similarity_loop].
  - exists (Returns results), []. rewrite app_nil_r. split; [reflexivity|].
    split; [reflexivity|cbn; lia].
  - assert (Hskip : forall results', exists o new,
      similarity_loop self0 profile_emb min_similarity job_embeddings (S i) rest results'
        (self, tr) = (o, (self, (tr ++ new)%list)) /\
      embed_calls new = 0%nat /\ (similarity_calls new <= length (posting :: rest))%nat).
    { intros results'. destruct (IH (S i) results' self tr) as (o & new & H & He & Hs).
      exists o, new. split; [exact H|]. split; [exact He|]. cbn [length]. lia. }
    destruct (job_embeddings !! i) as [job_embedding|]; [|apply Hskip].
    unfold bind, call_similarity.
    destruct (similarity (provider self) tr profile_emb job_embedding) as [raw|e] eqn:Hsim.
    + assert (Hnext : forall results', exists o new,
        similarity_loop self0 profile_emb min_similarity job_embeddings (S i) rest results'
          (self, (tr ++ [Similarity profile_emb job_embedding (Returns raw)])%list)
        = (o, (self, (tr ++ new)%list)) /\
        embed_calls new = 0%nat /\ (similarity_calls new <= length (posting :: rest))%nat).
      { intros results'.
        destruct (IH (S i) results' self
                    (tr ++ [Similarity profile_emb job_embedding (Returns raw)])%list)
          as (o & new & H & He & Hs).
        exists o, (Similarity profile_emb job_embedding (Returns raw) :: new).
        rewrite H, <- app_assoc. split; [reflexivity|].
        change (Similarity profile_emb job_embedding (Returns raw) :: new)
          with ([Similarity profile_emb job_embedding (Returns raw)] ++ new)%list.
        rewrite embed_calls_app, similarity_calls_app, He. cbn. split; [reflexivity|lia]. }
      destruct (Rge_dec ((raw + 1) / 2) min_similarity); apply Hnext.
    + exists (Raises e), [Similarity profile_emb job_embedding (Raises e)].
      split; [reflexivity|]. split; [reflexivity|]. cbn. lia.
Qed.

Lemma get_profile_embedding_calls (self : t) (tr : list event) :
  exists o self' new,
    _get_profile_embedding (self, tr) = (o, (self', (tr ++ new)%list)) /\
    provider self' = provider self /\
    similarity_calls new = 0%nat /\
    (embed_calls new <= 1)%nat /\
    (_profile_embedding self <> None -> new = []) /\
    (forall v, o = Returns v -> _profile_embedding self' = Some v).
Proof.
  unfold _get_profile_embedding, bind at 1, get_self. cbn [fst].
  destruct (_profile_embedding self) as [v|] eqn:Hcache.
  - exists (Returns v), self, []. rewrite app_nil_r. unfold ret.
    split; [reflexivity|]. split; [reflexivity|]. split; [reflexivity|].
    split; [cbn; lia|]. split; [reflexivity|]. intros v' [= <-]. exact Hcache.
  - unfold bind, set_profile_text, call_embed. cbn [provider].
    destruct (embed (provider self) tr [_build_profile_text self]) as [vs|e].
    + eexists _, _, [_]. unfold set_profile_embedding, ret.
      split; [reflexivity|]. split; [reflexivity|]. split; [reflexivity|].
      split; [cbn; lia|]. split; [congruence|]. intros v [= <-]. reflexivity.
    + eexists _, _, [_]. split; [reflexivity|]. split; [reflexivity|].
      split; [reflexivity|]. split; [cbn; lia|]. split; [congruence|]. discriminate.
Qed.

End MatcherCalls.

(** X23: [match_jobs] embeds the postings in one call: whatever the number of
    postings and whether it returns or raises, it calls [embed] twice at most,
    once at most when the profile embedding is known, and [similarity] once
    for a posting at most. *)
Theorem match_jobs_calls (self : VectorMatcher.t) (tr : list event)
    (jobs : list JobPosting) (min_similarity : R) :
  exists o self' new,
    VectorMatcher.match_jobs jobs min_similarity (self, tr) = (o, (self', (tr ++ new)%list)) /\
    (embed_calls new <= 2)%nat /\
    (similarity_calls new <= length jobs)%nat /\
    (VectorMatcher._profile_embedding self <> None -> (embed_calls new <= 1)%nat).
Proof.
  unfold VectorMatcher.match_jobs, VectorMatcher.bind at 1, VectorMatcher.get_self.
  cbn [fst].
  destruct (is_no_embedding (VectorMatcher.provider self)).
  { eexists _, self, []. rewrite app_nil_r. split; [reflexivity|]. cbn. lia. }
  destruct (get_profile_embedding_calls self tr)
    as (o1 & self1 & new1 & Hget & Hprov & Hs1 & He1 & Hcached & _).
  unfold VectorMatcher.bind at 1. rewrite Hget.
  destruct o1 as [profile_emb|e].
  2:{ exists (Raises e), self1, new1. split; [reflexivity|].
      split; [lia|]. split; [lia|]. intros _. exact He1. }
  destruct profile_emb as [|x profile_emb].
  { exists (Returns []), self1, new1. split; [reflexivity|].
    split; [lia|]. split; [lia|]. intros _. exact He1. }
  unfold VectorMatcher.bind at 1, VectorMatcher.call_embed.
  set (texts := map VectorMatcher._build_job_text jobs).
  set (tr1 := (tr ++ new1)%list).
  destruct (embed (VectorMatcher.provider self1) tr1 texts) as [job_embeddings|e] eqn:Hemb.
  2:{ exists (Raises e), self1, (new1 ++ [Embed JobText texts (Raises e)])%list.
      rewrite app_assoc. split; [reflexivity|].
      rewrite embed_calls_app, similarity_calls_app, Hs1. cbn.
      split; [lia|]. split; [lia|].
      intros Hc. rewrite (Hcached Hc). cbn. lia. }
  destruct (similarity_loop_calls self (x :: profile_emb) min_similarity job_embeddings jobs
              0%nat [] self1 (tr1 ++ [Embed JobText texts (Returns job_embeddings)])%list)
    as (o & new2 & Hloop & He2 & Hs2).
  unfold VectorMatcher.bind. rewrite Hloop.
  exists (match o with
          | Returns found =>
              Returns (VectorMatcher.assign_ranks
                         (sort_desc VectorMatchResult.similarity found))
          | Raises e => Raises e
          end), self1,
    (new1 ++ Embed JobText texts (Returns job_embeddings) :: new2)%list.
  split.
  { unfold tr1. rewrite <- !app_assoc. cbn [app]. destruct o; reflexivity. }
  change (Embed JobText texts (Returns job_embeddings) :: new2)
    with ([Embed JobText texts (Returns job_embeddings)] ++ new2)%list.
  rewrite !embed_calls_app, !similarity_calls_app, Hs1, He2. cbn.
  split; [lia|]. split; [lia|].
  intros Hc. rewrite (Hcached Hc). cbn. lia.
Qed.

(** ** Identifiers *)


Section DigestFacts.
Import Hashlib.

Lemma sha_round_length (st : list Z) (kw : Z * Z) :
  length (SHA256.round st kw) = length st.
Proof.
  unfold SHA256.round.
  destruct st as [|a [|b [|c [|d [|e [|f [|g [|h [|? ?]]]]]]]]]; reflexivity.
Qed.

Lemma sha_rounds_length (kws : list (Z * Z)) :
  forall st, length (fold_left SHA256.round kws st) = length st.
Proof.
  induction kws as [|kw kws IH]; intros st; cbn [fold_left]; [reflexivity|].
  rewrite IH. apply sha_round_length.
Qed.

Lemma sha_block_length (st blk : list Z) : length (SHA256.block st blk) = length st.
Proof.
  unfold SHA256.block. cbv zeta.
  rewrite length_map, length_combine, sha_rounds_length. apply Nat.min_id.
Qed.

Lemma sha_blocks_length (blks : list (list Z)) :
  forall st, length (fold_left SHA256.block blks st) = length st.
Proof.
  induction blks as [|blk blks IH]; intros st; cbn [fold_left]; [reflexivity|].
  rewrite IH. apply sha_block_length.
Qed.

Lemma le_bytes_spec (n : nat) : forall x,
  length (le_bytes n x) = n /\ Forall (fun b => 0 <= b < 256) (le_bytes n x).
Proof.
  induction n as [|n IH]; intros x; cbn [le_bytes]; [split; [reflexivity|constructor]|].
  destruct (IH (x / 256)) as [Hlen Hall]. split; [cbn; rewrite Hlen; reflexivity|].
  constructor; [apply Z.mod_pos_bound; lia|exact Hall].
Qed.

Lemma be_bytes_spec (n : nat) (x : Z) :
  length (be_bytes n x) = n /\ Forall (fun b => 0 <= b < 256) (be_bytes n x).
Proof.
  unfold be_bytes. destruct (le_bytes_spec n x) as [Hlen Hall].
  split; [rewrite length_rev; exact Hlen|].
  apply List.Forall_forall. intros b Hb. apply in_rev in Hb.
  rewrite List.Forall_forall in Hall. exact (Hall b Hb).
Qed.

Lemma words_bytes (ws : list Z) :
  length (flat_map (be_bytes 4) ws) = (4 * length ws)%nat /\
  Forall (fun b => 0 <= b < 256) (flat_map (be_bytes 4) ws).
Proof.
  induction ws as [|w ws [IHlen IHall]]; cbn [flat_map]; [split; [reflexivity|constructor]|].
  destruct (be_bytes_spec 4 w) as [Hlen Hall].
  split; [rewrite length_app, Hlen, IHlen; cbn [length]; lia|].
  apply Forall_app. split; assumption.
Qed.

Lemma sha_digest_spec (msg : list Z) :
  length (SHA256.digest msg) = 32%nat /\
  Forall (fun b => 0 <= b < 256) (SHA256.digest msg).
Proof.
  unfold SHA256.digest.
  destruct (words_bytes (fold_left SHA256.block (blocks 64 (SHA256.pad msg)) SHA256.H0))
    as [Hlen Hall].
  split; [|exact Hall]. rewrite Hlen, sha_blocks_length.
  vm_compute. reflexivity.
Qed.

Lemma hex_digit_char (d : Z) : 0 <= d < 16 -> hex_char (hex_digit d) = true.
Proof.
  intros H.
  assert (Hc : d = 0 \/ d = 1 \/ d = 2 \/ d = 3 \/ d = 4 \/ d = 5 \/ d = 6 \/ d = 7 \/
               d = 8 \/ d = 9 \/ d = 10 \/ d = 11 \/ d = 12 \/ d = 13 \/ d = 14 \/ d = 15)
    by lia.
  repeat (destruct Hc as [->|Hc]; [reflexivity|]). subst d. reflexivity.
Qed.

Lemma hex_spec (bs : list Z) :
  Forall (fun b => 0 <= b < 256) bs ->
  String.length (hex bs) = (2 * length bs)%nat /\ sforall hex_char (hex bs) = true.
Proof.
  induction 1 as [|b bs Hb _ [IHlen IHall]]; [split; reflexivity|].
  cbn [hex String.length sforall length]. split; [rewrite IHlen; lia|].
  rewrite !hex_digit_char, IHall; [reflexivity| |].
  - apply Z.mod_pos_bound. lia.
  - split; [apply Z.div_pos; lia|apply Z.div_lt_upper_bound; lia].
Qed.

Lemma take_spec (n : nat) : forall s,
  (n <= String.length s)%nat ->
  String.length (take n s) = n /\
  forall p, sforall p s = true -> sforall p (take n s) = true.
Proof.
  induction n as [|n IH]; intros s Hn.
  - split; [destruct s; reflexivity|]. intros p _. destruct s; reflexivity.
  - destruct s as [|c s]; [cbn in Hn; lia|].
    cbn [take String.length sforall] in *.
    destruct (IH s ltac:(lia)) as [Hlen Hall]. split; [rewrite Hlen; reflexivity|].
    intros p [Hc Hs]%andb_prop. rewrite Hc, (Hall p Hs). reflexivity.
Qed.

End DigestFacts.

(** X24: the [id] of a posting is 16 digits of a lower-case hexadecimal
    numeral: the start of the SHA-256 of the exact key that the deduplicator
    uses, so postings with one exact key have one [id]. *)
Theorem job_id_format (posting : JobPosting) :
  String.length (job_id posting) = 16%nat /\
  sforall hex_char (job_id posting) = true /\
  job_id posting = Hashlib.take 16 (Hashlib.SHA256.hexdigest (_get_exact_key posting)).
Proof.
  assert (Hkey : job_id posting
                 = Hashlib.take 16 (Hashlib.SHA256.hexdigest (_get_exact_key posting)))
    by reflexivity.
  rewrite Hkey. unfold Hashlib.SHA256.hexdigest.
  destruct (sha_digest_spec (Hashlib.bytes_of (_get_exact_key posting))) as [Hlen Hall].
  destruct (hex_spec _ Hall) as [Hhl Hhc]. rewrite Hlen in Hhl.
  destruct (take_spec 16 (Hashlib.hex (Hashlib.SHA256.digest
                                         (Hashlib.bytes_of (_get_exact_key posting)))))
    as [Htl Htc]; [rewrite Hhl; cbn; lia|].
  split; [exact Htl|]. split; [apply Htc, Hhc|reflexivity].
Qed.

(** ** The local provider *)

(** X25: on vectors of norm 1 the similarity of the local provider, a dot
    product, is the cosine similarity of the other providers; it raises as
    they do for vectors of different lengths. *)
Theorem local_similarity_is_cosine (vec1 vec2 : vector) :
  np_norm vec1 = 1%R ->
  np_norm vec2 = 1%R ->
  local_similarity vec1 vec2 = cosine_similarity vec1 vec2.
Proof.
  intros H1 H2. unfold local_similarity, cosine_similarity.
  destruct (np_dot vec1 vec2) as [d|e]; cbn [bind_outcome]; [|reflexivity].
  rewrite H1, H2.
  destruct (Req_dec_T 1 0) as [H|_]; [lra|].
  f_equal. field.
Qed.

Lemma local_similarity_is_cosine_witness :
  np_norm [1%R; 0%R] = 1%R /\
  np_norm [0%R; 1%R] = 1%R /\
  local_similarity [1%R; 0%R] [0%R; 1%R] = cosine_similarity [1%R; 0%R] [0%R; 1%R].
Proof.
  assert (H1 : np_norm [1%R; 0%R] = 1%R).
  { unfold np_norm. cbn [fold_right].
    replace (1 * 1 + (0 * 0 + 0))%R with 1%R by ring. apply sqrt_1. }
  assert (H2 : np_norm [0%R; 1%R] = 1%R).
  { unfold np_norm. cbn [fold_right].
    replace (0 * 0 + (1 * 1 + 0))%R with 1%R by ring. apply sqrt_1. }
  split; [exact H1|]. split; [exact H2|].
  exact (local_similarity_is_cosine [1%R; 0%R] [0%R; 1%R] H1 H2).
Defined.
